(** * Support Hours Tracker: session scheduling, calendar grids and
      utilization reports

    A shallow embedding of the scheduling and reporting code of the
    application (routes/sessions.js, routes/calendar.js, routes/reports.js,
    the template helpers of server.js) and the properties proved about it.

    Conventions of the embedding:
    - a JavaScript [Date] is its time value, the milliseconds since
      1970-01-01T00:00:00Z (a [Z]); the calendar fields follow ECMA-262
      (Day, Year, Month, Date, Week Day, MakeDay, MakeDate, LocalTime, UTC);
    - the time zone of the process is a parameter of every function that
      calls a local-time method ([new Date(y, m, d)], [getDate], [getDay],
      [getMonth], [setDate], [toDateString]); [toISOString] is in UTC;
    - the database driver delivers a [DATE] column as the local midnight
      of the day, and [NUMERIC] and [bigint] columns as decimal text;
    - a PostgreSQL [TIME] value is the number of minutes since midnight;
    - a JavaScript number is the rational that the double holds; division,
      multiplication and subtraction round to the nearest double, ties to
      even; a [NUMERIC] quotient is rounded by the database to the scale
      that PostgreSQL selects for it;
    - strings are [string]; the relational operators on strings compare
      code units lexicographically. *)

From Stdlib Require Import ZArith QArith Qround Qabs Lia Lqa List Bool.
From Stdlib Require Import Ascii String DecimalString Sorted Permutation.
From stdpp Require Import gmap strings list fin_maps.

Local Open Scope Z_scope.

(* ===================================================================== *)
(** * Part I: the embedding                                               *)
(* ===================================================================== *)

(** ** ECMA-262 dates (sections 21.4.1.3 to 21.4.1.29) *)
Module JSDate.

(** A time value: the milliseconds since 1970-01-01T00:00:00Z. *)
Definition Date := Z.

Definition msPerDay : Z := 86400000.
Definition msPerHour : Z := 3600000.

Definition Day (t : Date) : Z := t / msPerDay.
Definition TimeWithinDay (t : Date) : Z := t mod msPerDay.

(** *** The calendar of day numbers *)

Definition isLeapYear (y : Z) : bool :=
  (y mod 4 =? 0) && (negb (y mod 100 =? 0) || (y mod 400 =? 0)).

Definition DaysInYear (y : Z) : Z := if isLeapYear y then 366 else 365.

(** Day number of the first day of year [y]. *)
Definition DayFromYear (y : Z) : Z :=
  365 * (y - 1970) + (y - 1969) / 4 - (y - 1901) / 100 + (y - 1601) / 400.

(** The year of day number [d]: the largest [y] with
    [DayFromYear y <= d], one of the three years around the mean-year
    estimate. *)
Definition YearFromDay (d : Z) : Z :=
  let yc := 1970 + (400 * d) / 146097 in
  if DayFromYear (yc + 1) <=? d then yc + 1
  else if DayFromYear yc <=? d then yc
  else yc - 1.

Definition InLeapYear (d : Z) : Z :=
  if isLeapYear (YearFromDay d) then 1 else 0.

Definition DayWithinYear (d : Z) : Z := d - DayFromYear (YearFromDay d).

(** Day within the year on which month [m] (0 = January) starts. *)
Definition monthStart (leap m : Z) : Z :=
  if m =? 0 then 0
  else if m =? 1 then 31
  else if m =? 2 then 59 + leap
  else if m =? 3 then 90 + leap
  else if m =? 4 then 120 + leap
  else if m =? 5 then 151 + leap
  else if m =? 6 then 181 + leap
  else if m =? 7 then 212 + leap
  else if m =? 8 then 243 + leap
  else if m =? 9 then 273 + leap
  else if m =? 10 then 304 + leap
  else if m =? 11 then 334 + leap
  else 365 + leap.

Definition MonthFromDay (d : Z) : Z :=
  let w := DayWithinYear d in
  let l := InLeapYear d in
  if w <? 31 then 0
  else if w <? 59 + l then 1
  else if w <? 90 + l then 2
  else if w <? 120 + l then 3
  else if w <? 151 + l then 4
  else if w <? 181 + l then 5
  else if w <? 212 + l then 6
  else if w <? 243 + l then 7
  else if w <? 273 + l then 8
  else if w <? 304 + l then 9
  else if w <? 334 + l then 10
  else 11.

Definition DateFromDay (d : Z) : Z :=
  DayWithinYear d - monthStart (InLeapYear d) (MonthFromDay d) + 1.

Definition WeekDayFromDay (d : Z) : Z := (d + 4) mod 7.

(** [MakeDay year month date], a day number: months outside 0..11 carry
    into the year, dates outside the month carry into the neighbouring
    months. *)
Definition MakeDay (year month date : Z) : Z :=
  let ym := year + month / 12 in
  let mn := month mod 12 in
  DayFromYear ym + monthStart (if isLeapYear ym then 1 else 0) mn + date - 1.

(** *** Time values *)

Definition MakeDate (day time : Z) : Date := day * msPerDay + time.

Definition YearFromTime (t : Date) : Z := YearFromDay (Day t).
Definition MonthFromTime (t : Date) : Z := MonthFromDay (Day t).
Definition DateFromTime (t : Date) : Z := DateFromDay (Day t).
Definition WeekDay (t : Date) : Z := WeekDayFromDay (Day t).

(** *** Local time

    The time zone of the process: [localOffset t] is the offset of local
    time from UTC at the time value [t] (LocalTZA(t, true)), and
    [utcOffset t] the offset by which the local time [t] is read
    (LocalTZA(t, false)), both in milliseconds. *)
Record Zone := mkZone {
  localOffset : Z -> Z;
  utcOffset : Z -> Z
}.

Definition LocalTime (z : Zone) (t : Date) : Z := t + localOffset z t.
Definition UTC (z : Zone) (t : Z) : Date := t - utcOffset z t.

(** A zone that is always [offset] milliseconds ahead of UTC. *)
Definition fixedZone (offset : Z) : Zone :=
  {| localOffset := fun _ => offset; utcOffset := fun _ => offset |}.

Definition utc : Zone := fixedZone 0.

(** The last Sunday of month [m] (0 = January) of a year. *)
Definition lastSunday (year m : Z) : Z :=
  let last := MakeDay year (m + 1) 0 in
  last - WeekDayFromDay last.

(** Europe/London under the rule in force since 1996, which the
    embedding applies to every year: summer time, one hour ahead of UTC,
    from 01:00 UTC on the last Sunday of March to 01:00 UTC on the last
    Sunday of October.  A local time that the clocks skip or show twice
    is read with the offset before the change. *)
Definition europeLondon : Zone :=
  {| localOffset := fun t =>
       let y := YearFromTime t in
       if (lastSunday y 2 * msPerDay + msPerHour <=? t)
          && (t <? lastSunday y 9 * msPerDay + msPerHour)
       then msPerHour else 0;
     utcOffset := fun t =>
       let y := YearFromTime t in
       if (lastSunday y 2 * msPerDay + 2 * msPerHour <=? t)
          && (t <? lastSunday y 9 * msPerDay + 2 * msPerHour)
       then msPerHour else 0 |}.

(** *** The methods of [Date] that the code calls *)

(** [new Date(year, month, date)]: the local midnight; a year from 0 to
    99 means 1900 + year. *)
Definition newDate (z : Zone) (year month date : Z) : Date :=
  let yr := if (0 <=? year) && (year <=? 99) then 1900 + year else year in
  UTC z (MakeDate (MakeDay yr month date) 0).

Definition getFullYear (z : Zone) (d : Date) : Z := YearFromTime (LocalTime z d).
Definition getMonth (z : Zone) (d : Date) : Z := MonthFromTime (LocalTime z d).
Definition getDate (z : Zone) (d : Date) : Z := DateFromTime (LocalTime z d).
Definition getDay (z : Zone) (d : Date) : Z := WeekDay (LocalTime z d).

(** [d.setDate(n)]: in local time, the same year, month and time of
    day, with day of the month [n]. *)
Definition setDate (z : Zone) (d : Date) (n : Z) : Date :=
  let t := LocalTime z d in
  UTC z (MakeDate (MakeDay (YearFromTime t) (MonthFromTime t) n)
           (TimeWithinDay t)).

End JSDate.

(** ** Text helpers: character classes, validators, PostgreSQL casts *)
Module Text.

Definition code (c : ascii) : Z := Z.of_N (N_of_ascii c).

Definition inRange (lo hi : Z) (c : ascii) : bool :=
  (lo <=? code c) && (code c <=? hi).

(** [[0-9]], [[0-5]], [[01]], [[0-3]] and [[0-9A-Fa-f]]. *)
Definition isDigit : ascii -> bool := inRange 48 57.
Definition isDigit05 : ascii -> bool := inRange 48 53.
Definition isDigit01 : ascii -> bool := inRange 48 49.
Definition isDigit03 : ascii -> bool := inRange 48 51.
Definition isHex (c : ascii) : bool :=
  isDigit c || inRange 65 70 c || inRange 97 102 c.

Definition digitVal (c : ascii) : Z := code c - 48.

(** JavaScript [a < b] and [a >= b] on strings: lexicographic order of
    the code units. *)
Definition js_lt (a b : string) : bool := String.ltb a b.
Definition js_ge (a b : string) : bool := negb (js_lt a b).

(** [/^([01]?[0-9]|2[0-3]):[0-5][0-9]$/]: the hour has one or two digits. *)
Definition matchesTime (s : string) : bool :=
  match s with
  | String h (String c (String m1 (String m2 EmptyString))) =>
      isDigit h && Ascii.eqb c ":" && isDigit05 m1 && isDigit m2
  | String h1 (String h2 (String c (String m1 (String m2 EmptyString)))) =>
      ((isDigit01 h1 && isDigit h2) || (Ascii.eqb h1 "2" && isDigit03 h2))
      && Ascii.eqb c ":" && isDigit05 m1 && isDigit m2
  | _ => false
  end.

(** The cast of an [H:MM] or [HH:MM] text to [TIME], in minutes since
    midnight. *)
Definition pgTime (s : string) : Z :=
  match s with
  | String h (String _ (String m1 (String m2 EmptyString))) =>
      digitVal h * 60 + digitVal m1 * 10 + digitVal m2
  | String h1 (String h2 (String _ (String m1 (String m2 EmptyString)))) =>
      (digitVal h1 * 10 + digitVal h2) * 60 + digitVal m1 * 10 + digitVal m2
  | _ => 0
  end.

(** express-validator's [isUUID()]: 8-4-4-4-12 hexadecimal digits. *)
Fixpoint hexRun (n : nat) (s : string) : option string :=
  match n, s with
  | O, _ => Some s
  | S n', String c s' => if isHex c then hexRun n' s' else None
  | S _, EmptyString => None
  end.

Definition dash (s : option string) : option string :=
  match s with
  | Some (String "-" s') => Some s'
  | _ => None
  end.

Definition isUUID (s : string) : bool :=
  match hexRun 8 s with
  | Some s1 =>
      match dash (Some s1) with
      | Some s2 =>
          match dash (hexRun 4 s2) with
          | Some s3 =>
              match dash (hexRun 4 s3) with
              | Some s4 =>
                  match dash (hexRun 4 s4) with
                  | Some s5 =>
                      match hexRun 12 s5 with
                      | Some EmptyString => true
                      | _ => false
                      end
                  | None => false
                  end
              | None => false
              end
          | None => false
          end
      | None => false
      end
  | None => false
  end.

(** The cast of a text to [UUID] ignores letter case. *)
Definition lower (c : ascii) : ascii :=
  if inRange 65 90 c then ascii_of_N (N_of_ascii c + 32) else c.

Fixpoint pgUUID (s : string) : string :=
  match s with
  | EmptyString => EmptyString
  | String c s' => String (lower c) (pgUUID s')
  end.

(** A calendar date as PostgreSQL's [DATE] holds it. *)
Definition PgDate : Type := Z * Z * Z.

Definition isDelim (c : ascii) : bool := Ascii.eqb c "/" || Ascii.eqb c "-".

(** The cast of a [YYYY-MM-DD] or [YYYY/MM/DD] text to [DATE]. *)
Definition pgDate (s : string) : option PgDate :=
  match s with
  | String y1 (String y2 (String y3 (String y4 (String d1
      (String m1 (String m2 (String d2
      (String a1 (String a2 EmptyString))))))))) =>
      if forallb isDigit [y1; y2; y3; y4; m1; m2; a1; a2]
         && isDelim d1 && isDelim d2
      then Some (((digitVal y1 * 10 + digitVal y2) * 10 + digitVal y3) * 10
                   + digitVal y4,
                 digitVal m1 * 10 + digitVal m2,
                 digitVal a1 * 10 + digitVal a2)
      else None
  | _ => None
  end.

Definition daysInMonth (y m : Z) : Z :=
  if m =? 2 then (if JSDate.isLeapYear y then 29 else 28)
  else if (m =? 4) || (m =? 6) || (m =? 9) || (m =? 11) then 30
  else 31.

(** The two delimiters of a ten-character date text are the same
    character. *)
Definition sameDelimiter (s : string) : bool :=
  match s with
  | String _ (String _ (String _ (String _ (String d1
      (String _ (String _ (String d2 _))))))) => Ascii.eqb d1 d2
  | _ => false
  end.

(** express-validator's [isDate()] with its default options: the format
    [YYYY/MM/DD], split at [/] when the text has one and at [-]
    otherwise, so that both delimiters are the same; a day that exists. *)
Definition isDate (s : string) : bool :=
  sameDelimiter s
  && match pgDate s with
     | Some (y, m, d) =>
         (1 <=? m) && (m <=? 12) && (1 <=? d) && (d <=? daysInMonth y m)
     | None => false
     end.

(** [\s] among the code units below 256. *)
Definition isSpace (c : ascii) : bool :=
  inRange 9 13 c || (code c =? 32) || (code c =? 160).

Fixpoint ltrim (s : string) : string :=
  match s with
  | String c rest => if isSpace c then ltrim rest else s
  | EmptyString => EmptyString
  end.

Fixpoint rtrim (s : string) : string :=
  match s with
  | String c rest =>
      match rtrim rest with
      | EmptyString => if isSpace c then EmptyString else String c EmptyString
      | kept => String c kept
      end
  | EmptyString => EmptyString
  end.

(** validator's [trim()]: white space removed from both ends. *)
Definition trim (s : string) : string := rtrim (ltrim s).

End Text.

(** ** Support sessions: create, update, delete (routes/sessions.js)

    The table [support_sessions] is a list of rows whose ids are the
    texts the database gives them.  [create], [update] and [delete] run
    a request alone against a database that accepts its statements;
    [createAt] is the create handler with the table that its conflict
    query saw apart from the table that its [INSERT] reaches, and with
    the answer of the database to the [INSERT]. *)
Module Sessions.
Import Text.

(** [req.body] of the create and edit forms as the handler reads it,
    after the validation chain ([sanitize]).  [duration_minutes] is the
    integer the field spells ([isInt] accepts it, [parseInt] reads it);
    [status] and [notes] may be missing. *)
Record Body := mkBody {
  resident_id : string;
  support_worker_id : string;
  property_id : string;
  support_type : string;
  session_date : string;
  start_time : string;
  end_time : string;
  duration_minutes : Z;
  status : option string;
  notes : option string
}.

(** A row of [support_sessions]. *)
Record Session := mkSession {
  id : string;
  s_resident_id : string;
  s_support_worker_id : string;
  s_property_id : string;
  s_support_type : string;
  s_session_date : option PgDate;
  s_start_time : Z;
  s_end_time : Z;
  s_duration_minutes : Z;
  s_status : string;
  s_notes : option string;
  s_created_by : string
}.

(** The table, oldest row first. *)
Definition Table := list Session.

Inductive Response :=
| Render (view : string) (error : string) (formData : Body)
| Redirect (url : string)
| Json (success : bool).

Definition isIn (l : list string) (s : string) : bool :=
  existsb (String.eqb s) l.

Definition supportTypes : list string :=
  ["mental_health"; "domestic_independence"; "activity_group"]%string.

Definition statuses : list string :=
  ["planned"; "completed"; "cancelled"; "no_show"]%string.

(** The validation chain shared by both handlers, up to the [status]
    rule. *)
Definition validFields (b : Body) : bool :=
  isUUID (resident_id b) && isUUID (support_worker_id b)
  && isUUID (property_id b)
  && isIn supportTypes (support_type b)
  && isDate (session_date b)
  && matchesTime (start_time b) && matchesTime (end_time b)
  && (15 <=? duration_minutes b) && (duration_minutes b <=? 480).

(** [body('status').optional().isIn([...])] *)
Definition validCreate (b : Body) : bool :=
  validFields b
  && match status b with None => true | Some st => isIn statuses st end.

(** [body('status').isIn([...])] *)
Definition validEdit (b : Body) : bool :=
  validFields b
  && match status b with None => false | Some st => isIn statuses st end.

(** [x || dflt] on a string that may be missing: the empty string is
    falsy. *)
Definition orElse (x : option string) (dflt : string) : string :=
  match x with
  | Some EmptyString | None => dflt
  | Some s => s
  end.

(** [body('notes').optional().trim()]: the chain rewrites [notes] in
    [req.body] before the handler runs. *)
Definition sanitize (raw : Body) : Body :=
  {| resident_id := resident_id raw;
     support_worker_id := support_worker_id raw;
     property_id := property_id raw;
     support_type := support_type raw;
     session_date := session_date raw;
     start_time := start_time raw;
     end_time := end_time raw;
     duration_minutes := duration_minutes raw;
     status := status raw;
     notes := option_map trim (notes raw) |}.

(** [req.body.notes || null] *)
Definition orNull (x : option string) : option string :=
  match x with
  | Some EmptyString | None => None
  | Some s => Some s
  end.

Definition eqDate (a b : option PgDate) : bool :=
  match a, b with
  | Some (y, m, d), Some (y', m', d') => (y =? y') && (m =? m') && (d =? d')
  | _, _ => false
  end.

(** The time part of the [WHERE] clause of the conflict query, with
    [$3] = [cs] and [$4] = [ce]. *)
Definition timeClause (s e cs ce : Z) : bool :=
  ((s <=? cs) && (cs <? e))
  || ((s <? ce) && (ce <=? e))
  || ((cs <=? s) && (e <=? ce)).

(** The [WHERE] clause of the conflict query on one row. *)
Definition conflictWhere (worker : string) (date : option PgDate)
    (cs ce : Z) (r : Session) : bool :=
  String.eqb (s_support_worker_id r) worker
  && eqDate (s_session_date r) date
  && negb (isIn ["cancelled"; "no_show"]%string (s_status r))
  && timeClause (s_start_time r) (s_end_time r) cs ce.

(** [SELECT id FROM support_sessions WHERE ...] *)
Definition conflictCheck (db : Table) (b : Body) : list string :=
  map id
    (List.filter
       (conflictWhere (pgUUID (support_worker_id b)) (pgDate (session_date b))
          (pgTime (start_time b)) (pgTime (end_time b)))
       db).

(** The row that [INSERT] and [UPDATE] write from a form. *)
Definition rowOf (i : string) (b : Body) (st : string) (user : string)
  : Session :=
  {| id := i;
     s_resident_id := pgUUID (resident_id b);
     s_support_worker_id := pgUUID (support_worker_id b);
     s_property_id := pgUUID (property_id b);
     s_support_type := support_type b;
     s_session_date := pgDate (session_date b);
     s_start_time := pgTime (start_time b);
     s_end_time := pgTime (end_time b);
     s_duration_minutes := duration_minutes b;
     s_status := st;
     s_notes := orNull (notes b);
     s_created_by := user |}.

(** [router.post('/create')] run alone, on a row that the database
    accepts ([createAt] below is the handler without these two
    conditions).  [new_id] is the id the database gives the new row and
    [user] the id of the logged-in administrator.  The lists of
    properties, residents and workers that the form shows again come from
    other tables and are left out of [Render]. *)
Definition create (db : Table) (new_id user : string) (b : Body)
  : Table * Response :=
  if negb (validCreate b) then
    (db, Render "sessions/create" "Please provide valid session information" b)
  else if js_ge (start_time b) (end_time b) then
    (db, Render "sessions/create" "End time must be after start time" b)
  else if (0 <? Z.of_nat (length (conflictCheck db b))) then
    (db, Render "sessions/create"
           "Support worker is already scheduled at this time" b)
  else
    (db ++ [rowOf new_id b (orElse (status b) "planned") user],
     Redirect ("/sessions/" ++ new_id)).

(** The create handler between its statements.  The conflict [SELECT]
    is answered from [seen], the table at that moment; the handler then
    waits, other requests may run, and the [INSERT] reaches the table
    [db].  [accepted] is the answer of the database to the [INSERT]: a
    row that it refuses (a resident, worker or property that does not
    exist) makes the query throw and the [catch] block answers. *)
Definition createAt (seen db : Table) (accepted : bool)
    (new_id user : string) (b : Body) : Table * Response :=
  if negb (validCreate b) then
    (db, Render "sessions/create" "Please provide valid session information" b)
  else if js_ge (start_time b) (end_time b) then
    (db, Render "sessions/create" "End time must be after start time" b)
  else if (0 <? Z.of_nat (length (conflictCheck seen b))) then
    (db, Render "sessions/create"
           "Support worker is already scheduled at this time" b)
  else if accepted then
    (db ++ [rowOf new_id b (orElse (status b) "planned") user],
     Redirect ("/sessions/" ++ new_id))
  else
    (db, Render "sessions/create" "An error occurred creating the session" b).

(** [req.body.status] of the edit form, which [validEdit] makes
    present. *)
Definition statusOf (b : Body) : string :=
  match status b with Some st => st | None => EmptyString end.

(** [UPDATE support_sessions SET ... WHERE id = $11]: every column of
    the form is overwritten, [created_by] stays.  The database compares
    the ids as [UUID]s and the embedding as texts, which is the same for
    an [i] in the spelling that the database gives its ids
    ([pgUUID i = i]). *)
Definition updateRow (i : string) (b : Body) (r : Session) : Session :=
  if String.eqb (id r) i
  then rowOf (id r) b (statusOf b) (s_created_by r)
  else r.

(** [router.post('/:id/edit')], for an [i] that the database reads as a
    [UUID] and a row that it accepts (where it does not, the [catch]
    block shows the form again and the table stays as it is). *)
Definition update (db : Table) (i : string) (b : Body) : Table * Response :=
  if negb (validEdit b) then
    (db, Render "sessions/edit" "Please provide valid session information" b)
  else
    (map (updateRow i b) db, Redirect ("/sessions/" ++ i)).

(** [router.post('/:id/delete')], for an [i] that the database reads as
    a [UUID] and a request with an [Accept] header; [wantsJson] is
    [req.xhr || req.headers.accept.indexOf('json') > -1].  (Without the
    header the test throws once the row is gone, and again in the
    [catch] block.) *)
Definition delete (db : Table) (wantsJson : bool) (i : string)
  : Table * Response :=
  (List.filter (fun r => negb (String.eqb (id r) i)) db,
   if wantsJson then Json true else Redirect "/sessions").

(** *** Notions the specification uses *)

(** An active session: neither cancelled nor a no-show. *)
Definition active (r : Session) : bool :=
  negb (String.eqb (s_status r) "cancelled")
  && negb (String.eqb (s_status r) "no_show").

(** Half-open intervals [[s1, e1)] and [[s2, e2)] overlap. *)
Definition overlaps (s1 e1 s2 e2 : Z) : Prop := s1 < e2 /\ s2 < e1.

Definition sameWorkerDay (r1 r2 : Session) : Prop :=
  s_support_worker_id r1 = s_support_worker_id r2
  /\ s_session_date r1 = s_session_date r2.

(** No two distinct active sessions of one worker on one day overlap. *)
Definition conflictFree (db : Table) : Prop :=
  forall (i j : nat) (r1 r2 : Session),
    db !! i = Some r1 -> db !! j = Some r2 -> i <> j ->
    active r1 = true -> active r2 = true -> sameWorkerDay r1 r2 ->
    ~ overlaps (s_start_time r1) (s_end_time r1)
               (s_start_time r2) (s_end_time r2).

(** The candidate of form [b] overlaps row [r]: same worker, same day,
    [r] active, intervals overlapping. *)
Definition overlapsRow (b : Body) (r : Session) : bool :=
  String.eqb (s_support_worker_id r) (pgUUID (support_worker_id b))
  && eqDate (s_session_date r) (pgDate (session_date b))
  && active r
  && (pgTime (start_time b) <? s_end_time r)
  && (s_start_time r <? pgTime (end_time b)).

(** The overlapping row with the earliest start, the oldest row among
    equal starts. *)
Definition earliestOverlap (db : Table) (b : Body) : option Session :=
  fold_left
    (fun best r =>
       if overlapsRow b r then
         match best with
         | None => Some r
         | Some r0 =>
             if s_start_time r <? s_start_time r0 then Some r else best
         end
       else best)
    db None.

(** Two rows that may stand side by side in a conflict-free table. *)
Definition compatible (r1 r2 : Session) : Prop :=
  active r1 = true -> active r2 = true -> sameWorkerDay r1 r2 ->
  ~ overlaps (s_start_time r1) (s_end_time r1)
             (s_start_time r2) (s_end_time r2).

(** A row whose start is before its end. *)
Definition proper (r : Session) : Prop := s_start_time r < s_end_time r.

(** A row with one of the four statuses of the forms. *)
Definition knownStatus (r : Session) : Prop :=
  isIn statuses (s_status r) = true.

End Sessions.

(** ** Calendar views (routes/calendar.js) *)
Module Calendar.
Import JSDate.

(** A row of the calendar query, with the columns the grid code reads:
    [session_date] arrives as a [Date], [start_time] as text. *)
Record Row := mkRow {
  row_id : string;
  session_date : Date;
  start_time : string
}.

(** The same row as the table holds it: its [DATE] is a day number. *)
Record Stored := mkStored {
  st_id : string;
  st_date : Z;
  st_start_time : string
}.

(** What the database driver (node-postgres) makes of a [DATE] column:
    [new Date(year, month - 1, day)], the local midnight of the day. *)
Definition driverDate (z : Zone) (day : Z) : Date := UTC z (MakeDate day 0).

Definition driverRow (z : Zone) (s : Stored) : Row :=
  {| row_id := st_id s;
     session_date := driverDate z (st_date s);
     start_time := st_start_time s |}.

(** Decimal digit [n mod 10] as a character. *)
Definition digitChar (n : Z) : ascii := ascii_of_N (Z.to_N (48 + n mod 10)).

(** The [w] low-order decimal digits of [n], most significant first. *)
Fixpoint padDigits (w : nat) (n : Z) : string :=
  match w with
  | O => EmptyString
  | S w' => String (digitChar (n / 10 ^ Z.of_nat w')) (padDigits w' n)
  end.

(** The year of an ISO 8601 timestamp: four digits, or a sign and six
    digits outside 0..9999. *)
Definition isoYear (y : Z) : string :=
  if (0 <=? y) && (y <=? 9999) then padDigits 4 y
  else String (if y <? 0 then "-"%char else "+"%char) (padDigits 6 (Z.abs y)).

(** The text [YYYY-MM-DD] of a day number. *)
Definition isoDay (d : Z) : string :=
  (isoYear (YearFromDay d) ++ "-" ++ padDigits 2 (MonthFromDay d + 1)
     ++ "-" ++ padDigits 2 (DateFromDay d))%string.

(** [d.toISOString().split('T')[0]]: the date of [d] in UTC. *)
Definition isoDate (d : Date) : string := isoDay (Day d).

(** The year, month and day that a ten-character text [YYYY-MM-DD]
    writes. *)
Definition dateFields (s : string) : option (Z * Z * Z) :=
  match s with
  | String y1 (String y2 (String y3 (String y4 (String d1
      (String m1 (String m2 (String d2
      (String a1 (String a2 EmptyString))))))))) =>
      if forallb Text.isDigit [y1; y2; y3; y4; m1; m2; a1; a2]
         && Ascii.eqb d1 "-" && Ascii.eqb d2 "-" then
        Some (((Text.digitVal y1 * 10 + Text.digitVal y2) * 10
               + Text.digitVal y3) * 10 + Text.digitVal y4,
              Text.digitVal m1 * 10 + Text.digitVal m2,
              Text.digitVal a1 * 10 + Text.digitVal a2)
      else None
  | _ => None
  end.

(** [new Date(text)] for a date-only text [YYYY-MM-DD]: the UTC midnight
    of the day.  The engine takes any day from 1 to 31 and carries the
    days that the month does not have into the next month.  The result
    is [None] on a text of another month or day (an invalid date, on
    which [toISOString] throws) and on the texts of other forms, which
    the embedding does not cover. *)
Definition parseISO (s : string) : option Date :=
  match dateFields s with
  | Some (y, m, a) =>
      if (1 <=? m) && (m <=? 12) && (1 <=? a) && (a <=? 31)
      then Some (MakeDate (MakeDay y (m - 1) a) 0)
      else None
  | None => None
  end.

(** The cast of a text [YYYY-MM-DD] to [DATE]: the day must exist. *)
Definition parseDay (s : string) : option Z :=
  match dateFields s with
  | Some (y, m, a) =>
      if (1 <=? m) && (m <=? 12) && (1 <=? a)
         && (a <=? Text.daysInMonth y m)
      then Some (MakeDay y (m - 1) a)
      else None
  | None => None
  end.

Record Cell := mkCell {
  date : Z;
  fullDate : string;
  isCurrentMonth : bool;
  isToday : bool;
  sessions : list Row
}.

Record MonthlyCalendar := mkMonthly {
  weeks : list (list Cell);
  daysOfWeek : list string
}.

(** One step of [sessions.forEach]: create the bucket of the row's date
    when it is missing, then push the row. *)
Definition addSession (m : gmap string (list Row)) (s : Row)
  : gmap string (list Row) :=
  let dateKey := isoDate (session_date s) in
  <[dateKey := default [] (m !! dateKey) ++ [s]]> m.

Definition groupByDate (rows : list Row) : gmap string (list Row) :=
  foldl addSession ∅ rows.

(** [for (let i = from; i < from + n; i++)] *)
Definition range (from : Z) (n : nat) : list Z :=
  map (fun i => from + Z.of_nat i) (seq 0 n).

(** [a.toDateString() === b.toDateString()]: the same local day. *)
Definition sameDateString (z : Zone) (a b : Date) : bool :=
  Day (LocalTime z a) =? Day (LocalTime z b).

(** [generateMonthlyCalendar(year, month, sessions)] in the zone [z] of
    the process; [now] is the value of [new Date()]. *)
Definition generateMonthlyCalendar (z : Zone) (now : Date) (year month : Z)
    (rows : list Row) : MonthlyCalendar :=
  let firstDay := newDate z year (month - 1) 1 in
  let startDate :=
    setDate z firstDay (getDate z firstDay - getDay z firstDay) in
  let sessionsByDate := groupByDate rows in
  {| weeks :=
       map (fun week =>
              map (fun day =>
                     let currentDate :=
                       setDate z startDate
                         (getDate z startDate + week * 7 + day) in
                     let dateKey := isoDate currentDate in
                     {| date := getDate z currentDate;
                        fullDate := dateKey;
                        isCurrentMonth := getMonth z currentDate =? month - 1;
                        isToday := sameDateString z currentDate now;
                        sessions := default [] (sessionsByDate !! dateKey) |})
                  (range 0 7))
           (range 0 6);
     daysOfWeek := ["Sunday"; "Monday"; "Tuesday"; "Wednesday"; "Thursday";
                    "Friday"; "Saturday"]%string |}.

(** [n.toString()] for an integer [n]. *)
Definition toString (n : Z) : string := NilZero.string_of_int (Z.to_int n).

Fixpoint repeatChar (n : nat) (c : ascii) : string :=
  match n with
  | O => EmptyString
  | S n' => String c (repeatChar n' c)
  end.

(** [s.padStart(w, c)] for a one-character filler. *)
Definition padStart (w : nat) (c : ascii) (s : string) : string :=
  (repeatChar (w - String.length s) c ++ s)%string.

(** The label [`${hour}:${minute}`] with both parts padded to two
    digits. *)
Definition timeString (hour minute : Z) : string :=
  (padStart 2 "0" (toString hour) ++ ":" ++ padStart 2 "0" (toString minute))%string.

(** The body of a [for] loop run over the values of its counter until
    the first [break]. *)
Fixpoint untilBreak {A : Type} (stop : Z -> bool) (body : Z -> A)
    (counter : list Z) : list A :=
  match counter with
  | [] => []
  | i :: rest => if stop i then [] else body i :: untilBreak stop body rest
  end.

(** The time slots of the weekly view: [hour] from 9 to 18, [minute] 0
    and 30, leaving the inner loop at 18:30. *)
Definition weeklyTimeSlots : list string :=
  flat_map (fun hour =>
              untilBreak (fun minute => (hour =? 18) && (0 <? minute))
                (timeString hour) [0; 30])
    (range 9 10).

Record DayEntry := mkDayEntry {
  d_date : Z;
  d_fullDate : string;
  dayName : string;
  d_isToday : bool;
  d_sessions : list Row
}.

Record WeeklyCalendar := mkWeekly {
  days : list DayEntry;
  timeSlots : list string
}.

Definition weekdayName (w : Z) : string :=
  nth (Z.to_nat w)
    ["Sun"; "Mon"; "Tue"; "Wed"; "Thu"; "Fri"; "Sat"]%string EmptyString.

(** [toLocaleDateString('en-GB', { weekday: 'short' })] *)
Definition shortWeekday (z : Zone) (d : Date) : string :=
  weekdayName (getDay z d).

(** [generateWeeklyCalendar(startDate, sessions)] *)
Definition generateWeeklyCalendar (z : Zone) (now : Date) (startDate : Date)
    (rows : list Row) : WeeklyCalendar :=
  {| days :=
       map (fun i =>
              let date := setDate z startDate (getDate z startDate + i) in
              let dateKey := isoDate date in
              {| d_date := getDate z date;
                 d_fullDate := dateKey;
                 dayName := shortWeekday z date;
                 d_isToday := sameDateString z date now;
                 d_sessions :=
                   List.filter
                     (fun s => String.eqb (isoDate (session_date s)) dateKey)
                     rows |})
           (range 0 7);
     timeSlots := weeklyTimeSlots |}.

(** The anchors a navigation link carries. *)
Inductive Anchor :=
| YearMonth (year month : Z)
| Week (week : string)
| OneDay (date : string).

Record Nav := mkNav {
  view : string;
  prev : option Anchor;
  next : option Anchor;
  current : option Anchor
}.

(** A missing or empty text is falsy. *)
Definition truthy (x : option string) : option string :=
  match x with
  | Some EmptyString | None => None
  | Some s => Some s
  end.

(** [generateNavigation(view, year, month, week, date)]; the result is
    [None] where [parseISO] is. *)
Definition generateNavigation (z : Zone) (view : string) (year month : Z)
    (week date : option string) : option Nav :=
  if String.eqb view "monthly" then
    let prevMonth := if month =? 1 then 12 else month - 1 in
    let prevYear := if month =? 1 then year - 1 else year in
    let nextMonth := if month =? 12 then 1 else month + 1 in
    let nextYear := if month =? 12 then year + 1 else year in
    Some {| view := view;
            prev := Some (YearMonth prevYear prevMonth);
            next := Some (YearMonth nextYear nextMonth);
            current := Some (YearMonth year month) |}
  else
    match String.eqb view "weekly", truthy week,
          String.eqb view "daily", truthy date with
    | true, Some w, _, _ =>
        match parseISO w with
        | Some weekDate =>
            let prevWeek := setDate z weekDate (getDate z weekDate - 7) in
            let nextWeek := setDate z weekDate (getDate z weekDate + 7) in
            Some {| view := view;
                    prev := Some (Week (isoDate prevWeek));
                    next := Some (Week (isoDate nextWeek));
                    current := Some (Week w) |}
        | None => None
        end
    | _, _, true, Some d =>
        match parseISO d with
        | Some currentDate =>
            let prevDay := setDate z currentDate (getDate z currentDate - 1) in
            let nextDay := setDate z currentDate (getDate z currentDate + 1) in
            Some {| view := view;
                    prev := Some (OneDay (isoDate prevDay));
                    next := Some (OneDay (isoDate nextDay));
                    current := Some (OneDay d) |}
        | None => None
        end
    | _, _, _, _ =>
        Some {| view := view; prev := None; next := None; current := None |}
    end.

(** *** The date range of the route *)

(** The two parameters of the query in the monthly view: the ISO dates
    of [new Date(viewYear, viewMonth - 1, 1)] and of
    [new Date(viewYear, viewMonth, 0)]. *)
Definition monthlyRange (z : Zone) (viewYear viewMonth : Z)
  : string * string :=
  let startDate := newDate z viewYear (viewMonth - 1) 1 in
  let endDate := newDate z viewYear viewMonth 0 in
  (isoDate startDate, isoDate endDate).

(** In the weekly view: of the week start and of six days later. *)
Definition weeklyRange (z : Zone) (weekStart : Date) : string * string :=
  let startDate := weekStart in
  let endDate := setDate z weekStart (getDate z weekStart + 6) in
  (isoDate startDate, isoDate endDate).

(** [ORDER BY s.session_date, s.start_time]: rows in ascending order of
    date and time, rows of the same date and time in the order of the
    table. *)
Definition rowLe (a b : Stored) : bool :=
  (st_date a <? st_date b)
  || ((st_date a =? st_date b)
      && negb (String.ltb (st_start_time b) (st_start_time a))).

Fixpoint insertRow (s : Stored) (l : list Stored) : list Stored :=
  match l with
  | [] => [s]
  | x :: rest => if rowLe s x then s :: l else x :: insertRow s rest
  end.

Definition orderRows (l : list Stored) : list Stored :=
  fold_right insertRow [] l.

(** The rows that the route hands to the grid when the request has no
    property filter: those of [WHERE s.session_date BETWEEN $1 AND $2],
    in the order of the query and as the driver delivers them.  The two
    texts are cast to [DATE], and a text that names no day fails the
    query ([None]). *)
Definition fetch (z : Zone) (range : string * string) (table : list Stored)
  : option (list Row) :=
  match parseDay (fst range), parseDay (snd range) with
  | Some from, Some to =>
      Some (map (driverRow z)
              (orderRows
                 (List.filter
                    (fun s => (from <=? st_date s) && (st_date s <=? to))
                    table)))
  | _, _ => None
  end.

(** *** Notions the properties use *)

(** Row [s] is in the bucket of the key [k]. *)
Definition onDay (k : string) (s : Row) : bool :=
  String.eqb (isoDate (session_date s)) k.

(** The days that a [Date] can hold, one day at either end apart. *)
Definition validDay (d : Z) : Prop := - 99999999 <= d <= 99999999.

(** The days of the years 0 to 9999, which a date text can name. *)
Definition fourDigitYear (d : Z) : Prop := - 719528 <= d <= 2932896.

(** The UTC day at the local midnight of a day, against that day, in a
    zone [offset] milliseconds ahead of UTC: the day before when the
    zone is east of Greenwich. *)
Definition utcDayShift (offset : Z) : Z := if 0 <? offset then - 1 else 0.

(** The local day at the UTC midnight of a day: the day before when the
    zone is west of Greenwich. *)
Definition localDayShift (offset : Z) : Z := if offset <? 0 then - 1 else 0.

(** The rows of a day among the rows of the table. *)
Definition storedOn (day : Z) (table : list Stored) : list Stored :=
  List.filter (fun s => st_date s =? day) table.

(** The cell of a local day in the grid of a month, in a zone [offset]
    milliseconds ahead of UTC. *)
Definition cellOf (offset : Z) (now : Date) (month : Z)
    (table : list Stored) (day : Z) : Cell :=
  {| date := DateFromDay day;
     fullDate := isoDay (day + utcDayShift offset);
     isCurrentMonth := MonthFromDay day =? month - 1;
     isToday := day =? Day (LocalTime (fixedZone offset) now);
     sessions := map (driverRow (fixedZone offset)) (storedOn day table) |}.

(** The entry of the weekly grid for the UTC midnight of a day. *)
Definition dayOf (offset : Z) (now : Date) (table : list Stored) (day : Z)
  : DayEntry :=
  {| d_date := DateFromDay (day + localDayShift offset);
     d_fullDate := isoDay day;
     dayName := weekdayName (WeekDayFromDay (day + localDayShift offset));
     d_isToday :=
       day + localDayShift offset =? Day (LocalTime (fixedZone offset) now);
     d_sessions :=
       map (driverRow (fixedZone offset))
         (storedOn (day - utcDayShift offset) table) |}.

(** The sum of [f] over a list of days. *)
Fixpoint sumOver (f : Z -> nat) (days : list Z) : nat :=
  match days with
  | [] => 0
  | d :: rest => f d + sumOver f rest
  end.

End Calendar.

(** ** Template helpers for dates (server.js) *)
Module Helpers.
Import JSDate Calendar.

(** What a template passes to [formatDateInput]: nothing, a text, or a
    [Date] as the database driver delivers a [DATE] column. *)
Inductive DateArg :=
| NoDate
| DateText (text : string)
| DateValue (d : Date).

(** [formatDateInput(date)]; [None] where [parseISO] is. *)
Definition formatDateInput (date : DateArg) : option string :=
  match date with
  | NoDate => Some EmptyString
  | DateText EmptyString => Some EmptyString
  | DateText text => option_map isoDate (parseISO text)
  | DateValue d => Some (isoDate d)
  end.

(** [getWeekStart(year, month)] *)
Definition getWeekStart (z : Zone) (year month : Z) : string :=
  let date := newDate z year (month - 1) 1 in
  let day := getDay z date in
  let diff := getDate z date - day in
  let weekStart := setDate z date diff in
  isoDate weekStart.

(** [timeString.split(':')] *)
Fixpoint splitColon (s : string) : list string :=
  match s with
  | EmptyString => [EmptyString]
  | String c rest =>
      if Ascii.eqb c ":" then EmptyString :: splitColon rest
      else match splitColon rest with
           | part :: parts => String c part :: parts
           | [] => [String c EmptyString]
           end
  end.

(** [Number(text)] for a text of decimal digits (the empty text is 0);
    [None] for a text of any other form. *)
Fixpoint digitsValue (acc : Z) (s : string) : option Z :=
  match s with
  | EmptyString => Some acc
  | String c rest =>
      if Text.isDigit c then digitsValue (acc * 10 + Text.digitVal c) rest
      else None
  end.

(** [addMinutes(timeString, minutes)], for an integer [minutes].  The
    result is [None] where the text has no second part or a part is not
    made of digits (the arithmetic is then on NaN). *)
Definition addMinutes (timeString : string) (minutes : Z) : option string :=
  match splitColon timeString with
  | hoursText :: minsText :: _ =>
      match digitsValue 0 hoursText, digitsValue 0 minsText with
      | Some hours, Some mins =>
          let totalMinutes := hours * 60 + mins + minutes in
          let newHours := totalMinutes / 60 in
          let newMins := Z.rem totalMinutes 60 in
          Some (padStart 2 "0" (toString newHours) ++ ":"
                  ++ padStart 2 "0" (toString newMins))%string
      | _, _ => None
      end
  | _ => None
  end.

(** The text that [addMinutes] writes for a total of minutes. *)
Definition clockText (totalMinutes : Z) : string :=
  (padStart 2 "0" (toString (totalMinutes / 60)) ++ ":"
     ++ padStart 2 "0" (toString (Z.rem totalMinutes 60)))%string.

(** What is checked of [clockText] minute by minute. *)
Definition clockChecked (totalMinutes : Z) : bool :=
  if totalMinutes <? 1440
  then Text.matchesTime (clockText totalMinutes)
       && (Text.pgTime (clockText totalMinutes) =? totalMinutes)
       && (String.length (clockText totalMinutes) =? 5)%nat
  else negb (Text.matchesTime (clockText totalMinutes)).

End Helpers.

(** ** The list of sessions: filters and pages (routes/sessions.js) *)
Module SessionList.

(** [req.query] of the list page.  [page] and [limit] are the numbers
    their fields spell; they default to 1 and 50 when missing. *)
Record Query := mkQuery {
  date_from : option string;
  date_to : option string;
  q_property_id : option string;
  q_resident_id : option string;
  q_support_worker_id : option string;
  q_support_type : option string;
  q_status : option string;
  page : option Z;
  limit : option Z
}.

(** A value bound to a placeholder. *)
Inductive Param :=
| PText (text : string)
| PNumber (n : Z).

(** [paramCount], [whereConditions] and [queryParams]. *)
Definition Builder : Type := nat * list string * list Param.

(** [`${condition}$${paramCount}`] *)
Definition placeholder (condition : string) (paramCount : nat) : string :=
  (condition ++ "$" ++ Calendar.toString (Z.of_nat paramCount))%string.

(** One [if (value) { paramCount++; whereConditions.push(...);
    queryParams.push(value); }]. *)
Definition addFilter (condition : string) (value : option string)
    (st : Builder) : Builder :=
  match Calendar.truthy value with
  | Some v =>
      let '(paramCount, whereConditions, queryParams) := st in
      let paramCount := S paramCount in
      (paramCount, whereConditions ++ [placeholder condition paramCount],
       queryParams ++ [PText v])
  | None => st
  end.

(** The dynamic [WHERE] clause, filter by filter. *)
Definition buildWhere (q : Query) : Builder :=
  let st := (0%nat, [], []) in
  let st := addFilter "s.session_date >= " (date_from q) st in
  let st := addFilter "s.session_date <= " (date_to q) st in
  let st := addFilter "s.property_id = " (q_property_id q) st in
  let st := addFilter "s.resident_id = " (q_resident_id q) st in
  let st := addFilter "s.support_worker_id = " (q_support_worker_id q) st in
  let st := addFilter "s.support_type = " (q_support_type q) st in
  addFilter "s.status = " (q_status q) st.

(** [whereConditions.length > 0 ? 'WHERE ' + whereConditions.join(' AND ')
    : ''] *)
Definition whereClause (whereConditions : list string) : string :=
  match whereConditions with
  | [] => EmptyString
  | _ => ("WHERE " ++ String.concat " AND " whereConditions)%string
  end.

Definition pageOf (q : Query) : Z := default 1 (page q).
Definition limitOf (q : Query) : Z := default 50 (limit q).

(** What the handler sends for the list: the [WHERE] clause, the numbers of
    the [LIMIT] and [OFFSET] placeholders, and the parameters.  A [limit]
    that the request carries is bound as the text of the field; the
    embedding writes the number that the text spells. *)
Record ListQuery := mkListQuery {
  lq_where : string;
  limitParam : nat;
  offsetParam : nat;
  lq_params : list Param;
  count_params : list Param
}.

Definition listQuery (q : Query) : ListQuery :=
  let '(paramCount, whereConditions, queryParams) := buildWhere q in
  let offset := (pageOf q - 1) * limitOf q in
  let paramCount := S paramCount in
  let limitParam := paramCount in
  let paramCount := S paramCount in
  let offsetParam := paramCount in
  let queryParams := queryParams ++ [PNumber (limitOf q); PNumber offset] in
  {| lq_where := whereClause whereConditions;
     limitParam := limitParam;
     offsetParam := offsetParam;
     lq_params := queryParams;
     count_params := take (length queryParams - 2) queryParams |}.

Record Pagination := mkPagination {
  currentPage : Z;
  totalPages : Z;
  totalSessions : Z;
  hasNext : bool;
  hasPrev : bool
}.

(** The [pagination] object, from the row count of the count query. *)
Definition pagination (q : Query) (total : Z) : Pagination :=
  let totalSessions := total in
  let totalPages := Qceiling (inject_Z totalSessions / inject_Z (limitOf q)) in
  {| currentPage := pageOf q;
     totalPages := totalPages;
     totalSessions := totalSessions;
     hasNext := pageOf q <? totalPages;
     hasPrev := 1 <? pageOf q |}.

(** [LIMIT $l OFFSET $o] on the ordered rows that match. *)
Definition pageRows {A : Type} (q : Query) (matching : list A) : list A :=
  take (Z.to_nat (limitOf q))
    (drop (Z.to_nat ((pageOf q - 1) * limitOf q)) matching).

(** *** Notions the properties use *)

(** The filters that are set, in the order of the handler, each with the
    text of its condition. *)
Fixpoint setFilters (fields : list (string * option string))
  : list (string * string) :=
  match fields with
  | [] => []
  | (condition, value) :: rest =>
      match Calendar.truthy value with
      | Some v => (condition, v) :: setFilters rest
      | None => setFilters rest
      end
  end.

Definition activeFilters (q : Query) : list (string * string) :=
  setFilters
    [ ("s.session_date >= "%string, date_from q);
      ("s.session_date <= "%string, date_to q);
      ("s.property_id = "%string, q_property_id q);
      ("s.resident_id = "%string, q_resident_id q);
      ("s.support_worker_id = "%string, q_support_worker_id q);
      ("s.support_type = "%string, q_support_type q);
      ("s.status = "%string, q_status q) ].

(** The builder after the filters [fs]: the count, the conditions with
    their placeholders numbered from 1, the values in the same order. *)
Definition built (fs : list (string * string)) : Builder :=
  (length fs,
   imap (fun k f => placeholder (fst f) (S k)) fs,
   map (fun f => PText (snd f)) fs).

End SessionList.

(** ** JavaScript numbers (ECMA-262 section 6.1.6.1)

    A number is an IEEE 754 double; a finite double is written as the
    rational it stands for.  The operators give the double nearest to the
    exact result, the one with the even significand of two.  Magnitudes
    from 2^1024 on and below 2^-1022 (overflow, subnormal numbers), the
    sign of zero and NaN are left out. *)
Module JSNumber.

(** [2 ^ e] for an integer exponent. *)
Definition pow2 (e : Z) : Q :=
  if 0 <=? e then inject_Z (2 ^ e) else / inject_Z (2 ^ (- e)).

(** For [0 < x]: the exponent [e] with [2 ^ e <= x < 2 ^ (e + 1)]. *)
Definition ilog2 (x : Q) : Z :=
  let k := Z.log2 (Qnum x) - Z.log2 (Zpos (Qden x)) in
  if Qle_bool (pow2 k) x then k else k - 1.

(** The integer nearest to [y], the even one of two. *)
Definition roundEven (y : Q) : Z :=
  let f := Qfloor y in
  match Qcompare (y - inject_Z f)%Q (1 # 2) with
  | Lt => f
  | Gt => f + 1
  | Eq => if Z.even f then f else f + 1
  end.

(** The double nearest to [x]: a significand of 53 bits. *)
Definition rnd (x : Q) : Q :=
  let x := Qred x in
  if Qeq_bool x 0 then 0
  else
    let a := Qabs x in
    let e := ilog2 a - 52 in
    let v := (inject_Z (roundEven (a / pow2 e)) * pow2 e)%Q in
    Qred (if Qle_bool 0 x then v else (- v)%Q).

(** [x / y], [x * y] and [x - y] on doubles; [x - 0] is [x]. *)
Definition jsDiv (x y : Q) : Q := rnd (x / y)%Q.
Definition jsMul (x y : Q) : Q := rnd (x * y)%Q.
Definition jsSub (x y : Q) : Q := if Qeq_bool y 0 then x else rnd (x - y)%Q.

(** The magnitude of [rnd a] for [0 < a]. *)
Definition magnitude (a : Q) : Q :=
  (inject_Z (roundEven (a / pow2 (ilog2 a - 52))) * pow2 (ilog2 a - 52))%Q.

End JSNumber.

(** ** Utilization reports and CSV export (routes/reports.js) *)
Module Reports.
Import Text Sessions JSNumber.

Record Resident := mkResident {
  r_id : string;
  first_name : string;
  last_name : string;
  monthly_support_hours : Z;
  r_property_id : option string;
  r_is_active : bool
}.

Record Property := mkProperty {
  p_id : string;
  p_name : string;
  max_capacity : Z;
  p_is_active : bool
}.

Record SupportWorker := mkWorker {
  w_id : string;
  w_first_name : string;
  w_last_name : string;
  max_hours_per_month : Z;
  w_is_active : bool
}.

(** The tables the reports read; ids are primary keys. *)
Record Database := mkDatabase {
  residents : list Resident;
  properties : list Property;
  support_workers : list SupportWorker;
  support_sessions : list Session
}.

(** [EXTRACT(YEAR FROM d) = $1 AND EXTRACT(MONTH FROM d) = $2] *)
Definition inMonth (year month : Z) (s : Session) : bool :=
  match s_session_date s with
  | Some (y, m, _) => (y =? year) && (m =? month)
  | None => false
  end.

(** [SUM(CASE WHEN s.status = st THEN s.duration_minutes ELSE 0 END)] *)
Definition sumWhen (st : string) (l : list Session) : Z :=
  fold_right
    (fun s acc =>
       (if String.eqb (s_status s) st then s_duration_minutes s else 0) + acc)
    0 l.

(** [COUNT(CASE WHEN s.status = st THEN 1 END)] *)
Definition countWhen (st : string) (l : list Session) : Z :=
  fold_right
    (fun s acc => (if String.eqb (s_status s) st then 1 else 0) + acc) 0 l.

(** PostgreSQL's NUMERIC division [n / 60.0] of a bigint [n].  The
    quotient is rounded, half away from zero, to a number of decimal
    places chosen for at least 16 significant digits (select_div_scale
    of numeric.c): with [w] the place of the first base-10000 digit of
    [n], one less when that digit is at most 60, the scale is
    [16 - 4 * w], and at least the one decimal place of [60.0]. *)
Definition weight (n : Z) : Z :=
  let a := Z.abs n in
  if a <? 10 ^ 4 then 0
  else if a <? 10 ^ 8 then 1
  else if a <? 10 ^ 12 then 2
  else if a <? 10 ^ 16 then 3
  else 4.

Definition divScale (n : Z) : Z :=
  let firstDigit := Z.abs n / 10000 ^ weight n in
  let qweight := weight n - (if firstDigit <=? 60 then 1 else 0) in
  Z.max 1 (16 - 4 * qweight).

(** The integer nearest to [x], the one away from zero of two. *)
Definition roundAway (x : Q) : Z :=
  if Qle_bool 0 x then Qfloor (x + (1 # 2))%Q else - Qfloor (- x + (1 # 2))%Q.

(** [minutes / 60.0]: the decimal number that the column holds. *)
Definition hours (minutes : Z) : Q :=
  let scale := inject_Z (10 ^ divScale minutes) in
  Qred (inject_Z (roundAway (inject_Z minutes / 60 * scale)) / scale)%Q.

(** A value of a row as the code meets it: a JavaScript number, or the
    decimal text of a number, which is how the database driver delivers a
    [NUMERIC] column such as [SUM(...) / 60.0]. *)
Inductive JsValue :=
| JsNumber (q : Q)
| PgText (q : Q).

(** The number that a value denotes: the number itself, or the decimal
    number that the text writes. *)
Definition toNumber (v : JsValue) : Q :=
  match v with
  | JsNumber q => q
  | PgText q => q
  end.

(** The number that an arithmetic operator reads from a value
    ([ToNumber]): of a text, the double nearest to the number written. *)
Definition number (v : JsValue) : Q :=
  match v with
  | JsNumber q => q
  | PgText q => rnd q
  end.

(** The value of a rate column: the text [toFixed(1)] gives, or the
    number 0. *)
Inductive Rate :=
| RateText (text : string)
| RateZero.

(** The integer [n] for which [n / 10] is nearest to [x >= 0], the
    larger one of two. *)
Definition tenths (x : Q) : Z := Qfloor (x * 10 + (1 # 2))%Q.

Definition isNegative (x : Q) : bool := negb (Qle_bool 0 x).

(** [x.toFixed(1)] for a double [x] below 10^21: the text of [n / 10]
    for the integer [n] that makes [n / 10 - x] nearest to zero, the
    larger [n] of two. *)
Definition toFixed1 (x : Q) : string :=
  let n := tenths (Qabs x) in
  ((if isNegative x then "-" else "")
     ++ Calendar.toString (n / 10) ++ "." ++ Calendar.toString (n mod 10))%string.

(** [allocated > 0 ? ((used / allocated) * 100).toFixed(1) : 0] on the
    doubles [used] and [allocated]. *)
Definition rate (used : Q) (allocated : Z) : Rate :=
  if 0 <? allocated
  then RateText (toFixed1 (jsMul (jsDiv used (inject_Z allocated)) 100))
  else RateZero.

Record ResidentRow := mkResidentRow {
  u_id : string;
  u_first_name : string;
  u_last_name : string;
  u_monthly_support_hours : Z;
  property_name : option string;
  hours_used : JsValue;
  hours_planned : JsValue;
  hours_cancelled : JsValue;
  completed_sessions : Z;
  no_show_sessions : Z;
  utilization_rate : Rate;
  remaining_hours : Q
}.

(** The sessions that the [LEFT JOIN] of [getMonthlyUtilization] gives
    resident [r]. *)
Definition sessionsOfResident (db : Database) (year month : Z)
    (r : Resident) : list Session :=
  List.filter
    (fun s => String.eqb (s_resident_id s) (r_id r) && inMonth year month s)
    (support_sessions db).

(** [LEFT JOIN properties p ON r.property_id = p.id] *)
Definition propertyNameOf (db : Database) (r : Resident) : option string :=
  match r_property_id r with
  | Some pid =>
      option_map p_name
        (List.find (fun p => String.eqb (p_id p) pid) (properties db))
  | None => None
  end.

(** One row of [getMonthlyUtilization]: the grouped query, then the two
    columns that [map] adds. *)
Definition residentRow (db : Database) (year month : Z) (r : Resident)
  : ResidentRow :=
  let joined := sessionsOfResident db year month r in
  let used := PgText (hours (sumWhen "completed" joined)) in
  {| u_id := r_id r;
     u_first_name := first_name r;
     u_last_name := last_name r;
     u_monthly_support_hours := monthly_support_hours r;
     property_name := propertyNameOf db r;
     hours_used := used;
     hours_planned := PgText (hours (sumWhen "planned" joined));
     hours_cancelled := PgText (hours (sumWhen "cancelled" joined));
     completed_sessions := countWhen "completed" joined;
     no_show_sessions := countWhen "no_show" joined;
     utilization_rate := rate (number used) (monthly_support_hours r);
     remaining_hours :=
       jsSub (inject_Z (monthly_support_hours r)) (number used) |}.

(** [getMonthlyUtilization(year, month)]: one row for every active
    resident.  The order of the rows ([ORDER BY] on the names, by the
    collation of the database) is not modelled. *)
Definition getMonthlyUtilization (db : Database) (year month : Z)
  : list ResidentRow :=
  map (residentRow db year month) (List.filter r_is_active (residents db)).

Record PropertyRow := mkPropertyRow {
  pr_id : string;
  pr_name : string;
  pr_max_capacity : Z;
  current_residents : Z;
  total_sessions : Z;
  total_hours : JsValue;
  pr_completed_sessions : Z;
  pr_cancelled_sessions : Z;
  occupancy_rate : Rate
}.

(** One row of [getPropertyUtilization].  The two [LEFT JOIN]s pair
    every active resident of the property with every session of the
    month, so the session columns count each session once per resident. *)
Definition propertyRow (db : Database) (year month : Z) (p : Property)
  : PropertyRow :=
  let rs := List.filter
              (fun r => match r_property_id r with
                        | Some pid => String.eqb pid (p_id p)
                        | None => false
                        end && r_is_active r)
              (residents db) in
  let ss := List.filter
              (fun s => String.eqb (s_property_id s) (p_id p)
                        && inMonth year month s)
              (support_sessions db) in
  let copies := Z.max 1 (Z.of_nat (length rs)) in
  let current := Z.of_nat (length (remove_dups (map r_id rs))) in
  {| pr_id := p_id p;
     pr_name := p_name p;
     pr_max_capacity := max_capacity p;
     current_residents := current;
     total_sessions := Z.of_nat (length ss) * copies;
     total_hours := PgText (hours (sumWhen "completed" ss * copies));
     pr_completed_sessions := countWhen "completed" ss * copies;
     pr_cancelled_sessions := countWhen "cancelled" ss * copies;
     occupancy_rate := rate (inject_Z current) (max_capacity p) |}.

Definition getPropertyUtilization (db : Database) (year month : Z)
  : list PropertyRow :=
  map (propertyRow db year month) (List.filter p_is_active (properties db)).

Record WorkerRow := mkWorkerRow {
  wr_id : string;
  wr_first_name : string;
  wr_last_name : string;
  wr_max_hours_per_month : Z;
  wr_total_sessions : Z;
  hours_worked : JsValue;
  wr_completed_sessions : Z;
  wr_cancelled_sessions : Z;
  wr_no_show_sessions : Z;
  wr_utilization_rate : Rate;
  completion_rate : Rate
}.

(** One row of [getWorkerPerformance]. *)
Definition workerRow (db : Database) (year month : Z) (w : SupportWorker)
  : WorkerRow :=
  let joined := List.filter
                  (fun s => String.eqb (s_support_worker_id s) (w_id w)
                            && inMonth year month s)
                  (support_sessions db) in
  let worked := PgText (hours (sumWhen "completed" joined)) in
  let total := Z.of_nat (length joined) in
  let completed := countWhen "completed" joined in
  {| wr_id := w_id w;
     wr_first_name := w_first_name w;
     wr_last_name := w_last_name w;
     wr_max_hours_per_month := max_hours_per_month w;
     wr_total_sessions := total;
     hours_worked := worked;
     wr_completed_sessions := completed;
     wr_cancelled_sessions := countWhen "cancelled" joined;
     wr_no_show_sessions := countWhen "no_show" joined;
     wr_utilization_rate := rate (number worked) (max_hours_per_month w);
     completion_rate := rate (inject_Z completed) total |}.

Definition getWorkerPerformance (db : Database) (year month : Z)
  : list WorkerRow :=
  map (workerRow db year month) (List.filter w_is_active (support_workers db)).

(** *** CSV export *)

Definition dquote : string := String "034" EmptyString.
Definition newline : string := String "010" EmptyString.

(** [`"${cell}"`] *)
Definition quoted (cell : string) : string :=
  (dquote ++ cell ++ dquote)%string.

(** [`${rate}%`] *)
Definition rateCell (r : Rate) : string :=
  match r with
  | RateText t => (t ++ "%")%string
  | RateZero => "0%"%string
  end.

Definition headers : list string :=
  ["Resident Name"; "Property"; "Allocated Hours"; "Hours Used";
   "Utilization Rate"; "Remaining Hours"]%string.

(** [v.toFixed(1)]: only a number has the method; on a text the call
    throws a [TypeError], here [None]. *)
Definition callToFixed1 (v : JsValue) : option string :=
  match v with
  | JsNumber q => Some (toFixed1 q)
  | PgText _ => None
  end.

(** The cells of one resident. *)
Definition cellsOf (resident : ResidentRow) : option (list string) :=
  match callToFixed1 (hours_used resident) with
  | Some used =>
      Some [(u_first_name resident ++ " " ++ u_last_name resident)%string;
            orElse (property_name resident) EmptyString;
            Calendar.toString (u_monthly_support_hours resident);
            used;
            rateCell (utilization_rate resident);
            toFixed1 (remaining_hours resident)]
  | None => None
  end.

(** [data.residents.map(...)], stopping at the first exception. *)
Fixpoint mapCells (rs : list ResidentRow) : option (list (list string)) :=
  match rs with
  | [] => Some []
  | r :: rest =>
      match cellsOf r, mapCells rest with
      | Some cells, Some rows => Some (cells :: rows)
      | _, _ => None
      end
  end.

(** [generateCSV(data)], on [data.residents]; [None] when it throws. *)
Definition generateCSV (data_residents : list ResidentRow) : option string :=
  match mapCells data_residents with
  | Some rows =>
      Some (String.concat newline
              (map (fun row => String.concat "," (map quoted row))
                 (headers :: rows)))
  | None => None
  end.

(** *** The joins of the property report, row by row *)

(** The active residents of a property and its sessions of the month, as
    the two join conditions of [getPropertyUtilization] select them. *)
Definition residentsOfProperty (db : Database) (p : Property) : list Resident :=
  List.filter
    (fun r => match r_property_id r with
              | Some pid => String.eqb pid (p_id p)
              | None => false
              end && r_is_active r)
    (residents db).

Definition sessionsOfProperty (db : Database) (year month : Z) (p : Property)
  : list Session :=
  List.filter
    (fun s => String.eqb (s_property_id s) (p_id p) && inMonth year month s)
    (support_sessions db).

(** [a LEFT JOIN b]: every row of [a] with each of its partners, or once
    with [NULL] when it has none. *)
Definition joinedRows {A B : Type} (a : A) (bs : list B)
  : list (A * option B) :=
  match bs with
  | [] => [(a, None)]
  | _ => map (fun b => (a, Some b)) bs
  end.

Definition leftJoin {A B : Type} (outer : list A) (partners : A -> list B)
  : list (A * option B) :=
  flat_map (fun a => joinedRows a (partners a)) outer.

(** The rows of the group of property [p] before aggregation:
    [properties p LEFT JOIN residents r ... LEFT JOIN support_sessions s
    ...]. *)
Definition propertyJoin (db : Database) (year month : Z) (p : Property)
  : list (option Resident * option Session) :=
  map (fun row => (snd (fst row), snd row))
    (leftJoin (leftJoin [p] (residentsOfProperty db))
       (fun pr => sessionsOfProperty db year month (fst pr))).

(** [COUNT(s.id)]: the rows with a session. *)
Definition countSessions (rows : list (option Resident * option Session)) : Z :=
  Z.of_nat (length (List.filter (fun row => match snd row with
                                            | Some _ => true
                                            | None => false
                                            end) rows)).

(** [SUM(CASE WHEN s.status = st THEN s.duration_minutes ELSE 0 END)]
    over joined rows. *)
Definition sumJoined (st : string)
    (rows : list (option Resident * option Session)) : Z :=
  fold_right
    (fun row acc =>
       match snd row with
       | Some s => if String.eqb (s_status s) st then s_duration_minutes s else 0
       | None => 0
       end + acc)
    0 rows.

(** [COUNT(DISTINCT r.id)] *)
Definition countDistinctResidents
    (rows : list (option Resident * option Session)) : Z :=
  Z.of_nat
    (length (remove_dups (omap (fun row => option_map r_id (fst row)) rows))).

(** *** The distribution of support types *)

(** The sessions of the month. *)
Definition sessionsOfMonth (db : Database) (year month : Z) : list Session :=
  List.filter (inMonth year month) (support_sessions db).

Record TypeRow := mkTypeRow {
  t_support_type : string;
  session_count : Z;
  t_total_hours : JsValue;
  avg_duration : JsValue;
  completed_count : Z;
  cancelled_count : Z;
  no_show_count : Z
}.

(** The row of one group of [getSupportTypeDistribution]. *)
Definition typeRow (ss : list Session) (type : string) : TypeRow :=
  let group := List.filter (fun s => String.eqb (s_support_type s) type) ss in
  let minutes := fold_right Z.add 0 (map s_duration_minutes group) in
  {| t_support_type := type;
     session_count := Z.of_nat (length group);
     t_total_hours := PgText (hours minutes);
     avg_duration := PgText (inject_Z minutes / inject_Z (Z.of_nat (length group)));
     completed_count := countWhen "completed" group;
     cancelled_count := countWhen "cancelled" group;
     no_show_count := countWhen "no_show" group |}.

(** [GROUP BY support_type]: one row for every type that occurs. *)
Definition typeGroups (db : Database) (year month : Z) : list TypeRow :=
  let ss := sessionsOfMonth db year month in
  map (typeRow ss) (remove_dups (map s_support_type ss)).

(** [ORDER BY total_hours DESC]: the order of equal totals is left to the
    database. *)
Definition byHoursDesc (a b : TypeRow) : Prop :=
  (toNumber (t_total_hours b) <= toNumber (t_total_hours a))%Q.

(** [out] is a result of [getSupportTypeDistribution(year, month)]. *)
Definition isTypeDistribution (db : Database) (year month : Z)
    (out : list TypeRow) : Prop :=
  Permutation out (typeGroups db year month) /\ Sorted byHoursDesc out.

Definition totalCount (rows : list TypeRow) : Z :=
  fold_right Z.add 0 (map session_count rows).

(** *** Notions the properties use *)

(** The joined rows of one resident (or of [NULL]) with the sessions. *)
Definition joinedWith (r : option Resident) (ss : list Session)
  : list (option Resident * option Session) :=
  match ss with
  | [] => [(r, None)]
  | _ => map (fun s => (r, Some s)) ss
  end.

(** *** The words of the specification *)

(** The text of [n / 10] with one decimal place, for [0 <= n]. *)
Definition tenthsText (n : Z) : string :=
  (Calendar.toString (n / 10) ++ "." ++ Calendar.toString (n mod 10))%string.

(** A stored date that is a day of the calendar. *)
Definition validDate (d : PgDate) : bool :=
  let '(y, m, a) := d in
  (1 <=? m) && (m <=? 12) && (1 <=? a) && (a <=? daysInMonth y m).

Definition dated (s : Session) : bool :=
  match s_session_date s with
  | Some d => validDate d
  | None => false
  end.

(** "Within the period": on one of the days from the first to the last
    of the month. *)
Definition specInPeriod (year month : Z) (s : Session) : bool :=
  match s_session_date s with
  | Some (y, m, a) =>
      let day := JSDate.MakeDay y (m - 1) a in
      (JSDate.MakeDay year (month - 1) 1 <=? day)
      && (day <=? JSDate.MakeDay year month 0)
  | None => false
  end.

(** "The sum of duration_minutes for sessions with status=completed
    within the period", of the resident or worker [i]. *)
Definition specUsedMinutes (who : Session -> string) (db : Database)
    (year month : Z) (i : string) : Z :=
  fold_right Z.add 0
    (map s_duration_minutes
       (List.filter
          (fun s => String.eqb (who s) i
                    && String.eqb (s_status s) "completed"
                    && specInPeriod year month s)
          (support_sessions db))).

(** "used/allocated x 100 rounded to one decimal place", in tenths:
    half a tenth is rounded up. *)
Definition specPercentTenths (used allocated : Q) : Z :=
  Qfloor (used / allocated * 100 * 10 + (1 # 2))%Q.

(** One line of the export: every cell between double quotes, commas
    between the cells. *)
Definition csvLine (cells : list string) : string :=
  String.concat "," (map quoted cells).

(** The cells of a resident whose hours used are a number. *)
Definition cellTexts (resident : ResidentRow) : list string :=
  [(u_first_name resident ++ " " ++ u_last_name resident)%string;
   orElse (property_name resident) EmptyString;
   Calendar.toString (u_monthly_support_hours resident);
   toFixed1 (toNumber (hours_used resident));
   rateCell (utilization_rate resident);
   toFixed1 (remaining_hours resident)].

Definition isNumber (v : JsValue) : bool :=
  match v with
  | JsNumber _ => true
  | PgText _ => false
  end.

End Reports.

(** ** Sample data *)
Module Samples.
Import Sessions.

Definition worker : string := "aaaaaaaa-0000-4000-8000-000000000001".
Definition resident : string := "bbbbbbbb-0000-4000-8000-000000000002".
Definition property : string := "cccccccc-0000-4000-8000-000000000003".
Definition admin : string := "dddddddd-0000-4000-8000-000000000004".
Definition idA : string := "eeeeeeee-0000-4000-8000-00000000000a".
Definition idB : string := "eeeeeeee-0000-4000-8000-00000000000b".

(** A form for [worker] on 2024-03-01. *)
Definition form (from to : string) (minutes : Z) (st : option string)
  : Body :=
  {| resident_id := resident;
     support_worker_id := worker;
     property_id := property;
     support_type := "mental_health";
     session_date := "2024-03-01";
     start_time := from;
     end_time := to;
     duration_minutes := minutes;
     status := st;
     notes := None |}.

(** The same form with notes, as the browser sends it. *)
Definition noted (from to notes : string) : Body :=
  {| resident_id := resident;
     support_worker_id := worker;
     property_id := property;
     support_type := "mental_health";
     session_date := "2024-03-01";
     start_time := from;
     end_time := to;
     duration_minutes := 60;
     status := None;
     notes := Some notes |}.

(** 09:00 to 10:00, then 10:00 to 11:00 right after it. *)
Definition table1 : Table :=
  fst (create [] idA admin (form "09:00" "10:00" 60 None)).
Definition table2 : Table :=
  fst (create table1 idB admin (form "10:00" "11:00" 60 None)).

(** The second session moved to 09:30 to 10:30. *)
Definition moved : Body := form "09:30" "10:30" 60 (Some "planned"%string).
Definition table3 : Table := fst (update table2 idB moved).

(** Stored sessions: two on 2024-02-01, one on 2024-03-02. *)
Definition calendarTable : list Calendar.Stored :=
  [ Calendar.mkStored idA 19754 "09:00:00";
    Calendar.mkStored idB 19754 "10:00:00";
    Calendar.mkStored admin 19784 "09:00:00" ].

(** One session on Sunday 2024-03-31, the day the clocks of
    Europe/London go forward, and one on Monday 2024-04-01. *)
Definition springTable : list Calendar.Stored :=
  [ Calendar.mkStored idA 19813 "09:00:00";
    Calendar.mkStored idB 19814 "10:00:00" ].

(** A resident with two hours a month and, in March 2024, completed
    sessions of 60 and 30 minutes, a cancelled one and a planned one. *)
Definition ann : Reports.Resident :=
  Reports.mkResident resident "Ann" "Lee" 2 (Some property) true.

Definition reportSession (i : string) (day minutes : Z) (st : string)
  : Session :=
  mkSession i resident worker property "mental_health"
    (Some (2024, 3, day)) 540 (540 + minutes) minutes st None admin.

Definition reportDb : Reports.Database :=
  Reports.mkDatabase
    [ann]
    [Reports.mkProperty property "Elm House" 4 true]
    [Reports.mkWorker worker "Sam" "Poe" 0 true]
    [ reportSession idA 1 60 "completed";
      reportSession idB 2 30 "completed";
      reportSession admin 3 45 "cancelled";
      reportSession worker 4 120 "planned" ].

(** A resident with four hours a month and one completed session of 69
    minutes in March 2024: 1.15 hours, 28.75 per cent. *)
Definition bob : Reports.Resident :=
  Reports.mkResident resident "Bob" "Ray" 4 (Some property) true.

Definition tieDb : Reports.Database :=
  Reports.mkDatabase
    [bob]
    [Reports.mkProperty property "Elm House" 4 true]
    [Reports.mkWorker worker "Sam" "Poe" 4 true]
    [reportSession idA 5 69 "completed"].

(** One completed session of 100 minutes: 1.666... hours. *)
Definition thirdsDb : Reports.Database :=
  Reports.mkDatabase
    [bob]
    [Reports.mkProperty property "Elm House" 4 true]
    [Reports.mkWorker worker "Sam" "Poe" 4 true]
    [reportSession idA 5 100 "completed"].

End Samples.

(* ===================================================================== *)
(** * Part II: properties                                                 *)
(* ===================================================================== *)

(** ** Facts about the date arithmetic *)
Module JSDateFacts.
Import JSDate.

Example epoch_is_thursday : WeekDay 0 = 4.
Proof. reflexivity. Qed.

Example feb_2024 :
  MakeDay 2024 1 1 = 19754 /\ WeekDayFromDay 19754 = 4 /\
  YearFromDay 19754 = 2024 /\ MonthFromDay 19754 = 1 /\
  DateFromDay 19754 = 1.
Proof. repeat split; reflexivity. Qed.

Lemma DayFromYear_step (y : Z) :
  DayFromYear (y + 1) = DayFromYear y + DaysInYear y.
Proof.
  unfold DayFromYear, DaysInYear, isLeapYear.
  destruct (Z.eqb_spec (y mod 4) 0), (Z.eqb_spec (y mod 100) 0),
    (Z.eqb_spec (y mod 400) 0); cbn [andb orb negb];
    Z.div_mod_to_equations; lia.
Qed.

Lemma DayFromYear_mean (y : Z) :
  146097 * (y - 1970) - 506 <= 400 * DayFromYear y
    <= 146097 * (y - 1970) + 589.
Proof. unfold DayFromYear. Z.div_mod_to_equations. lia. Qed.

Lemma DayFromYear_mono (a b : Z) : a < b -> DayFromYear a + 365 <= DayFromYear b.
Proof.
  intros Hab. unfold DayFromYear. Z.div_mod_to_equations. lia.
Qed.

Lemma YearFromDay_spec (t : Z) :
  DayFromYear (YearFromDay t) <= t < DayFromYear (YearFromDay t + 1).
Proof.
  unfold YearFromDay.
  set (yc := 1970 + 400 * t / 146097).
  assert (Hyc : 146097 * (yc - 1970) <= 400 * t < 146097 * (yc - 1970) + 146097).
  { unfold yc. Z.div_mod_to_equations. lia. }
  pose proof (DayFromYear_mean (yc - 1)) as Hm1.
  pose proof (DayFromYear_mean (yc + 2)) as Hp2.
  destruct (Z.leb_spec (DayFromYear (yc + 1)) t).
  - replace (yc + 1 + 1) with (yc + 2) by lia. lia.
  - destruct (Z.leb_spec (DayFromYear yc) t).
    + lia.
    + replace (yc - 1 + 1) with yc by lia. lia.
Qed.

Lemma DayFromYear_le (a b : Z) : a <= b -> DayFromYear a <= DayFromYear b.
Proof.
  intros Hab. destruct (Z.eq_dec a b) as [-> | Hne]; [lia | ].
  assert (Hlt : a < b) by lia. pose proof (DayFromYear_mono a b Hlt). lia.
Qed.

Lemma YearFromDay_unique (t : Z) (y : Z) :
  DayFromYear y <= t < DayFromYear (y + 1) -> YearFromDay t = y.
Proof.
  intros Hy. pose proof (YearFromDay_spec t) as Ht.
  destruct (Z.lt_trichotomy (YearFromDay t) y) as [Hlt | [Heq | Hgt]];
    [ | exact Heq | ].
  - assert (Hle : YearFromDay t + 1 <= y) by lia.
    pose proof (DayFromYear_le _ _ Hle). lia.
  - assert (Hle : y + 1 <= YearFromDay t) by lia.
    pose proof (DayFromYear_le _ _ Hle). lia.
Qed.

(** [YearFromDay t] is the largest year that starts on or before [t]. *)
Lemma YearFromDay_largest (t : Z) (y : Z) :
  DayFromYear y <= t -> y <= YearFromDay t.
Proof.
  intros Hy. pose proof (YearFromDay_spec t) as Ht.
  destruct (Z.le_gt_cases y (YearFromDay t)) as [Hle | Hgt]; [exact Hle | ].
  assert (Hle : YearFromDay t + 1 <= y) by lia.
  pose proof (DayFromYear_le _ _ Hle). lia.
Qed.

Lemma InLeapYear_DaysInYear (t : Z) :
  DaysInYear (YearFromDay t) = 365 + InLeapYear t.
Proof. unfold DaysInYear, InLeapYear. now destruct (isLeapYear _). Qed.

Lemma InLeapYear_range (t : Z) : 0 <= InLeapYear t <= 1.
Proof. unfold InLeapYear. destruct (isLeapYear _); lia. Qed.

Lemma DayWithinYear_range (t : Z) :
  0 <= DayWithinYear t < 365 + InLeapYear t.
Proof.
  unfold DayWithinYear. pose proof (YearFromDay_spec t) as Ht.
  rewrite DayFromYear_step, InLeapYear_DaysInYear in Ht. lia.
Qed.

(** Case analysis on the month table: one goal per month. *)
Ltac month_cases t :=
  unfold DateFromDay, MonthFromDay;
  pose proof (DayWithinYear_range t);
  pose proof (InLeapYear_range t);
  repeat match goal with
         | |- context [Z.ltb ?a ?b] => destruct (Z.ltb_spec a b)
         end;
  cbn [monthStart Z.eqb Pos.eqb].

(** Enumeration of a month number known to lie in 0..11. *)
Ltac each_month m :=
  let H := fresh "Hcases" in
  assert (H : m = 0 \/ m = 1 \/ m = 2 \/ m = 3 \/ m = 4 \/ m = 5 \/
              m = 6 \/ m = 7 \/ m = 8 \/ m = 9 \/ m = 10 \/ m = 11) by lia;
  repeat (destruct H as [H | H]; [subst m | ]); [ .. | subst m].

Lemma MonthFromDay_range (t : Z) : 0 <= MonthFromDay t <= 11.
Proof. month_cases t; lia. Qed.

Lemma DateFromDay_range (t : Z) : 1 <= DateFromDay t <= 31.
Proof. month_cases t; lia. Qed.

(** A time value is rebuilt from its own fields. *)
Lemma MakeDay_fields (t : Z) (n : Z) :
  MakeDay (YearFromDay t) (MonthFromDay t) n = t - DateFromDay t + n.
Proof.
  unfold MakeDay.
  pose proof (MonthFromDay_range t) as Hm.
  rewrite Z.div_small, Z.mod_small, Z.add_0_r by lia.
  fold (InLeapYear t). unfold DateFromDay, DayWithinYear. lia.
Qed.

(** The fields of the first day of a month. *)
Lemma MakeDay_first (y m : Z) :
  0 <= m <= 11 ->
  let t := MakeDay y m 1 in
  YearFromDay t = y /\ MonthFromDay t = m /\ DateFromDay t = 1.
Proof.
  intros Hm t.
  assert (Ht : t = DayFromYear y + monthStart (if isLeapYear y then 1 else 0) m).
  { unfold t, MakeDay. rewrite Z.div_small, Z.mod_small, Z.add_0_r by lia. lia. }
  assert (Hl : 0 <= (if isLeapYear y then 1 else 0) <= 1)
    by (destruct (isLeapYear y); lia).
  assert (Hy : YearFromDay t = y).
  { apply YearFromDay_unique. rewrite DayFromYear_step, Ht.
    unfold DaysInYear.
    each_month m; destruct (isLeapYear y); cbn; lia. }
  assert (Hd : DayWithinYear t = monthStart (InLeapYear t) m).
  { unfold DayWithinYear, InLeapYear. rewrite Hy, Ht. lia. }
  assert (Hmt : MonthFromDay t = m).
  { unfold MonthFromDay. rewrite Hd.
    assert (Hil : InLeapYear t = 0 \/ InLeapYear t = 1)
      by (pose proof (InLeapYear_range t); lia).
    destruct Hil as [-> | ->]; each_month m; reflexivity. }
  repeat split; [exact Hy | exact Hmt | ].
  unfold DateFromDay. rewrite Hmt, Hd. lia.
Qed.

(** The week day of a time value moved back by its own week day. *)
Lemma WeekDay_range (t : Z) : 0 <= WeekDayFromDay t <= 6.
Proof. unfold WeekDayFromDay. pose proof (Z.mod_pos_bound (t + 4) 7). lia. Qed.

Lemma WeekDay_sunday_before (t : Z) : WeekDayFromDay (t - WeekDayFromDay t) = 0.
Proof. unfold WeekDayFromDay. Z.div_mod_to_equations. lia. Qed.

(** Day on which month [MonthFromDay t] of year [YearFromDay t] starts. *)
Lemma month_window (t : Z) :
  let s := DayFromYear (YearFromDay t)
           + monthStart (InLeapYear t) (MonthFromDay t) in
  s <= t <= s + 30.
Proof.
  cbn zeta. pose proof (DateFromDay_range t) as Hd.
  unfold DateFromDay, DayWithinYear in Hd. lia.
Qed.

Lemma monthStart_range (l m : Z) :
  0 <= l <= 1 -> 0 <= m <= 11 -> 0 <= monthStart l m <= 335.
Proof.
  intros Hl Hm.
  each_month m; cbn; lia.
Qed.

Lemma monthStart_leap (l l' m : Z) :
  0 <= l <= 1 -> 0 <= l' <= 1 -> 0 <= m <= 11 ->
  monthStart l m - 1 <= monthStart l' m <= monthStart l m + 1.
Proof.
  intros Hl Hl' Hm.
  each_month m; cbn; lia.
Qed.

(** Two days with the same month number that lie less than ten months
    apart are in the same year. *)
Lemma same_month_same_year (t u : Z) :
  MonthFromDay t = MonthFromDay u -> - 300 <= u - t <= 300 ->
  YearFromDay u = YearFromDay t.
Proof.
  intros Hm Hnear.
  pose proof (month_window t) as Ht. pose proof (month_window u) as Hu.
  cbn zeta in Ht, Hu. rewrite <- Hm in Hu.
  pose proof (monthStart_leap (InLeapYear t) (InLeapYear u) (MonthFromDay t)
                (InLeapYear_range t) (InLeapYear_range u)
                (MonthFromDay_range t)) as Hl.
  destruct (Z.lt_trichotomy (YearFromDay u) (YearFromDay t))
    as [Hlt | [Heq | Hgt]]; [ | exact Heq | ].
  - pose proof (DayFromYear_mono _ _ Hlt). lia.
  - pose proof (DayFromYear_mono _ _ Hgt). lia.
Qed.

(** The days of a month within its year. *)
Lemma MonthFromDay_window (t : Z) :
  monthStart (InLeapYear t) (MonthFromDay t) <= DayWithinYear t
  < monthStart (InLeapYear t) (MonthFromDay t + 1).
Proof.
  unfold MonthFromDay.
  pose proof (DayWithinYear_range t) as Hd.
  pose proof (InLeapYear_range t) as Hl.
  revert Hd Hl. generalize (DayWithinYear t) (InLeapYear t). intros d l Hd Hl.
  repeat match goal with
         | |- context [Z.ltb ?a ?b] => destruct (Z.ltb_spec a b)
         end; unfold monthStart; simpl; lia.
Qed.

Lemma MakeDay_in_year (y m a : Z) :
  0 <= m <= 11 ->
  MakeDay y m a
  = DayFromYear y + monthStart (if isLeapYear y then 1 else 0) m + a - 1.
Proof.
  intros Hm. unfold MakeDay. now rewrite Z.div_small, Z.mod_small, Z.add_0_r by lia.
Qed.

(** Day 0 of the next month is the last day of the month. *)
Lemma MakeDay_last (y m : Z) :
  0 <= m <= 11 ->
  MakeDay y (m + 1) 0
  = DayFromYear y + monthStart (if isLeapYear y then 1 else 0) (m + 1) - 1.
Proof.
  intros Hm. destruct (Z.eq_dec m 11) as [-> | Hne].
  - unfold MakeDay. change ((11 + 1) / 12) with 1. change ((11 + 1) mod 12) with 0.
    rewrite DayFromYear_step. unfold DaysInYear.
    destruct (isLeapYear y), (isLeapYear (y + 1)); unfold monthStart; simpl; lia.
  - rewrite MakeDay_in_year by lia. lia.
Qed.

Lemma fields_of_day (y m t : Z) :
  0 <= m <= 11 ->
  let l := if isLeapYear y then 1 else 0 in
  DayFromYear y + monthStart l m <= t < DayFromYear y + monthStart l (m + 1) ->
  YearFromDay t = y /\ MonthFromDay t = m
  /\ DateFromDay t = t - (DayFromYear y + monthStart l m) + 1.
Proof.
  intros Hm l Ht.
  assert (Hl : 0 <= l <= 1) by (unfold l; destruct (isLeapYear y); lia).
  assert (Hy : YearFromDay t = y).
  { apply YearFromDay_unique. rewrite DayFromYear_step. unfold DaysInYear.
    fold l in Ht |- *.
    assert (Hb : 0 <= monthStart l m /\ monthStart l (m + 1) <= 365 + l).
    { each_month m; unfold monthStart; simpl; lia. }
    unfold l in *. destruct (isLeapYear y); lia. }
  assert (Hleap : InLeapYear t = l) by (unfold InLeapYear; now rewrite Hy).
  assert (Hd : DayWithinYear t = t - DayFromYear y)
    by (unfold DayWithinYear; now rewrite Hy).
  assert (Hmt : MonthFromDay t = m).
  { pose proof (MonthFromDay_window t) as Hw.
    pose proof (MonthFromDay_range t) as Hr.
    rewrite Hleap, Hd in Hw. revert Hw. generalize (MonthFromDay t) Hr.
    intros n Hn Hw.
    destruct (Z.eq_dec n m) as [E | E]; [exact E | exfalso].
    each_month m; each_month n; try congruence;
      unfold monthStart in Ht, Hw; simpl in Ht, Hw; lia. }
  repeat split; [exact Hy | exact Hmt | ].
  unfold DateFromDay. rewrite Hmt, Hleap, Hd. lia.
Qed.

(** The days from the first of a month to day 0 of the next are the days
    whose year and month are those of the month. *)
Lemma month_days (y m t : Z) :
  0 <= m <= 11 ->
  (MakeDay y m 1 <= t <= MakeDay y (m + 1) 0
   <-> YearFromDay t = y /\ MonthFromDay t = m).
Proof.
  intros Hm. rewrite MakeDay_in_year, MakeDay_last by lia. split.
  - intros Ht. destruct (fields_of_day y m t Hm) as (Hy & Hmt & _); [lia | ].
    now split.
  - intros [Hy Hmt]. pose proof (MonthFromDay_window t) as Hw.
    unfold InLeapYear, DayWithinYear in Hw. rewrite Hy, Hmt in Hw. lia.
Qed.

(** *** Time values *)

Lemma msPerDay_value : msPerDay = 86400000.
Proof. reflexivity. Qed.

Lemma MakeDate_Day (t : Date) : MakeDate (Day t) (TimeWithinDay t) = t.
Proof.
  unfold MakeDate, Day, TimeWithinDay. rewrite msPerDay_value.
  Z.div_mod_to_equations. lia.
Qed.

Lemma Day_MakeDate (d t : Z) : 0 <= t < msPerDay -> Day (MakeDate d t) = d.
Proof.
  unfold MakeDate, Day. rewrite msPerDay_value. intros Ht.
  Z.div_mod_to_equations. lia.
Qed.

Lemma Day_midnight (d : Z) : Day (d * msPerDay) = d.
Proof. unfold Day. rewrite msPerDay_value. Z.div_mod_to_equations. lia. Qed.

Lemma Day_shift (t j : Z) : Day (t + j * msPerDay) = Day t + j.
Proof. unfold Day. rewrite msPerDay_value. Z.div_mod_to_equations. lia. Qed.

(** *** Zones with a fixed offset *)

Lemma LocalTime_fixed (k : Z) (t : Date) : LocalTime (fixedZone k) t = t + k.
Proof. reflexivity. Qed.

Lemma UTC_fixed (k t : Z) : UTC (fixedZone k) t = t - k.
Proof. reflexivity. Qed.

(** In a zone with a fixed offset, [d.setDate(d.getDate() + j)] moves
    [d] by [j] days of 24 hours, across month and year ends as well. *)
Lemma setDate_shift (k : Z) (t : Date) (j : Z) :
  setDate (fixedZone k) t (getDate (fixedZone k) t + j) = t + j * msPerDay.
Proof.
  unfold setDate, getDate, YearFromTime, MonthFromTime, DateFromTime.
  rewrite LocalTime_fixed, UTC_fixed, MakeDay_fields.
  pose proof (MakeDate_Day (t + k)) as H. unfold MakeDate in *. lia.
Qed.

Lemma setDate_back (k : Z) (t : Date) (j : Z) :
  setDate (fixedZone k) t (getDate (fixedZone k) t - j) = t - j * msPerDay.
Proof.
  replace (getDate (fixedZone k) t - j) with (getDate (fixedZone k) t + - j)
    by lia.
  rewrite setDate_shift. lia.
Qed.

(** [new Date(year, month, date)] is the local midnight of the day. *)
Lemma newDate_fixed (k year month date : Z) :
  100 <= year ->
  newDate (fixedZone k) year month date
  = MakeDay year month date * msPerDay - k.
Proof.
  intros Hy. unfold newDate.
  replace ((0 <=? year) && (year <=? 99)) with false.
  - rewrite UTC_fixed. unfold MakeDate. lia.
  - symmetry. apply andb_false_iff. right. apply Z.leb_gt. lia.
Qed.

(** The local day of a local midnight moved by whole days. *)
Lemma local_day (k d j : Z) :
  Day (LocalTime (fixedZone k) (d * msPerDay - k + j * msPerDay)) = d + j.
Proof.
  rewrite LocalTime_fixed.
  replace (d * msPerDay - k + j * msPerDay + k) with ((d + j) * msPerDay) by lia.
  apply Day_midnight.
Qed.

(** Europe/London in 2024: the clocks go forward on 31 March, and the
    local midnight of 1 April is 23:00 UTC of 31 March. *)
Example london_2024 :
  lastSunday 2024 2 = MakeDay 2024 2 31
  /\ lastSunday 2024 9 = MakeDay 2024 9 27
  /\ newDate europeLondon 2024 2 31 = MakeDate (MakeDay 2024 2 31) 0
  /\ newDate europeLondon 2024 3 1
     = MakeDate (MakeDay 2024 2 31) (23 * msPerHour)
  /\ LocalTime europeLondon (MakeDate (MakeDay 2024 2 31) (23 * msPerHour))
     = MakeDate (MakeDay 2024 3 1) 0.
Proof. repeat split; reflexivity. Qed.

End JSDateFacts.

(** ** Creating, updating and deleting sessions *)
Module SessionsFacts.
Import Text Sessions.

(** *** The time clause of the conflict query *)

(** On two proper intervals the three alternatives of the query amount
    to the overlap of the half-open intervals. *)
Lemma timeClause_overlaps (s e cs ce : Z) :
  s < e -> cs < ce -> (timeClause s e cs ce = true <-> overlaps cs ce s e).
Proof.
  intros Hse Hc. unfold timeClause, overlaps.
  rewrite !orb_true_iff, !andb_true_iff, !Z.leb_le, !Z.ltb_lt. lia.
Qed.

Lemma active_not_excluded (r : Session) :
  active r = true ->
  negb (isIn ["cancelled"; "no_show"]%string (s_status r)) = true.
Proof.
  unfold active, isIn. cbn [existsb].
  rewrite !andb_true_iff, !negb_true_iff, orb_false_r.
  intros [-> ->]. reflexivity.
Qed.

Lemma eqDate_refl (d : PgDate) : eqDate (Some d) (Some d) = true.
Proof. destruct d as [[y m] a]. cbn. now rewrite !Z.eqb_refl. Qed.

(** The [WHERE] clause on an active row of the candidate's worker and
    day is the time clause. *)
Lemma conflictWhere_same_worker_day (d : PgDate) (cs ce : Z) (r : Session) :
  s_session_date r = Some d -> active r = true ->
  conflictWhere (s_support_worker_id r) (Some d) cs ce r
  = timeClause (s_start_time r) (s_end_time r) cs ce.
Proof.
  intros Hd Ha. unfold conflictWhere.
  rewrite String.eqb_refl, Hd, eqDate_refl, (active_not_excluded r Ha).
  reflexivity.
Qed.



(** *** The update handler *)

Lemma table2_rows :
  exists r1 r2, Samples.table2 = [r1; r2]
    /\ (s_start_time r1, s_end_time r1) = (540, 600)
    /\ (s_start_time r2, s_end_time r2) = (600, 660).
Proof. eexists _, _. vm_compute. repeat split. Qed.

Lemma table2_conflictFree : conflictFree Samples.table2.
Proof.
  destruct table2_rows as (r1 & r2 & Ht & H1 & H2).
  intros i j x y Hi Hj Hij _ _ _. rewrite Ht in Hi, Hj. unfold overlaps.
  destruct i as [ | [ | i]], j as [ | [ | j]]; cbn in Hi, Hj;
    try discriminate; try congruence;
    injection Hi as <-; injection Hj as <-;
    injection H1 as -> ->; injection H2 as -> ->; lia.
Qed.

(** C1: the update handler stores the form without asking the conflict
    query.  From the conflict-free table of the sessions 09:00 to 10:00
    and 10:00 to 11:00 of one worker, moving the second one to 09:30 to
    10:30 is answered with the redirect of a successful update and leaves
    two overlapping active sessions; the create handler refuses the same
    form on the same table. *)
Theorem update_skips_conflict_check :
  conflictFree Samples.table2
  /\ snd (update Samples.table2 Samples.idB Samples.moved)
     = Redirect ("/sessions/" ++ Samples.idB)
  /\ ~ conflictFree Samples.table3
  /\ create Samples.table2 Samples.idB Samples.admin Samples.moved
     = (Samples.table2,
        Render "sessions/create"
          "Support worker is already scheduled at this time" Samples.moved).
Proof.
  split; [exact table2_conflictFree | ].
  split; [vm_compute; reflexivity | ].
  split; [ | vm_compute; reflexivity].
  intros Hfree.
  assert (Hrows : exists r1 r2, Samples.table3 = [r1; r2]
            /\ active r1 = true /\ active r2 = true
            /\ sameWorkerDay r1 r2
            /\ (s_start_time r1, s_end_time r1) = (540, 600)
            /\ (s_start_time r2, s_end_time r2) = (570, 630)).
  { eexists _, _. vm_compute. repeat split. }
  destruct Hrows as (r1 & r2 & Ht & Ha1 & Ha2 & Hsame & H1 & H2).
  apply (Hfree 0%nat 1%nat r1 r2); try (rewrite Ht; reflexivity);
    try assumption; try lia.
  injection H1 as -> ->; injection H2 as -> ->. unfold overlaps. lia.
Qed.

(** *** The create handler *)

Lemma ascii_compare_code (a b : ascii) :
  Ascii.compare a b = (code a ?= code b).
Proof. unfold Ascii.compare, code. now rewrite N2Z.inj_compare. Qed.

Lemma eqb_colon_code (c : ascii) : Ascii.eqb c ":" = true -> code c = 58.
Proof. intros H. apply Ascii.eqb_eq in H. now subst c. Qed.

Lemma eqb_two_code (c : ascii) : Ascii.eqb c "2" = true -> code c = 50.
Proof. intros H. apply Ascii.eqb_eq in H. now subst c. Qed.

(** On two validated times written with two-digit hours, the order of
    the texts is the order of the times. *)
Lemma js_lt_padded (s e : string) :
  matchesTime s = true -> matchesTime e = true ->
  String.length s = 5%nat -> String.length e = 5%nat ->
  js_lt s e = true -> pgTime s < pgTime e.
Proof.
  intros Hs He Ls Le Hlt.
  destruct s as [ | a1 [ | a2 [ | a3 [ | a4 [ | a5 [ | a6 s]]]]]];
    try discriminate Ls.
  destruct e as [ | b1 [ | b2 [ | b3 [ | b4 [ | b5 [ | b6 e]]]]]];
    try discriminate Le.
  cbn [matchesTime] in Hs, He.
  unfold isDigit, isDigit01, isDigit03, isDigit05, inRange in Hs, He.
  rewrite !andb_true_iff, orb_true_iff, !andb_true_iff, !Z.leb_le in Hs, He.
  destruct Hs as [[[Hh Hc] Hm1] Hm2], He as [[[Hh' Hc'] Hm1'] Hm2'].
  apply eqb_colon_code in Hc, Hc'.
  assert (Hhour : 48 <= code a1 <= 50 /\ 48 <= code a2 <= 57
                  /\ (code a1 = 50 -> code a2 <= 51)).
  { destruct Hh as [Hh | [Hh ?]]; [lia | apply eqb_two_code in Hh; lia]. }
  assert (Hhour' : 48 <= code b1 <= 50 /\ 48 <= code b2 <= 57
                   /\ (code b1 = 50 -> code b2 <= 51)).
  { destruct Hh' as [Hh' | [Hh' ?]]; [lia | apply eqb_two_code in Hh'; lia]. }
  clear Hh Hh'.
  unfold js_lt, String.ltb in Hlt. cbn [String.compare] in Hlt.
  rewrite !ascii_compare_code in Hlt.
  cbn [pgTime]. unfold digitVal.
  destruct (Z.compare_spec (code a1) (code b1));
    destruct (Z.compare_spec (code a2) (code b2));
    destruct (Z.compare_spec (code a3) (code b3));
    destruct (Z.compare_spec (code a4) (code b4));
    destruct (Z.compare_spec (code a5) (code b5));
    try discriminate Hlt; lia.
Qed.

Lemma overlapsRow_conflictWhere (b : Body) (r : Session) :
  pgTime (start_time b) < pgTime (end_time b) ->
  s_start_time r < s_end_time r ->
  overlapsRow b r = true ->
  conflictWhere (pgUUID (support_worker_id b)) (pgDate (session_date b))
    (pgTime (start_time b)) (pgTime (end_time b)) r = true.
Proof.
  intros Hc Hr Ho. unfold overlapsRow in Ho. unfold conflictWhere.
  rewrite !andb_true_iff, !Z.ltb_lt in Ho.
  destruct Ho as [[[[Hw Hd] Ha] H1] H2].
  rewrite Hw, Hd, (active_not_excluded r Ha). cbn [andb].
  apply (timeClause_overlaps _ _ _ _ Hr Hc). split; assumption.
Qed.

(** C3, as the code has it: when a validated candidate overlaps an
    active session of its worker and day, nothing is stored and the form
    is shown again with the fixed message that the worker is already
    scheduled; no id of a conflicting session is part of the answer. *)
Theorem create_rejects_overlap
    (db : Table) (new_id user : string) (b : Body) (r : Session) :
  validCreate b = true ->
  js_lt (start_time b) (end_time b) = true ->
  pgTime (start_time b) < pgTime (end_time b) ->
  In r db -> s_start_time r < s_end_time r -> overlapsRow b r = true ->
  create db new_id user b
  = (db, Render "sessions/create"
           "Support worker is already scheduled at this time" b).
Proof.
  intros Hv Hlt Hc Hin Hr Ho. unfold create, js_ge.
  rewrite Hv, Hlt. cbn [negb].
  assert (Hmem : In (id r) (conflictCheck db b)).
  { unfold conflictCheck. apply in_map, filter_In. split; [exact Hin | ].
    now apply overlapsRow_conflictWhere. }
  destruct (conflictCheck db b) as [ | i l]; [destruct Hmem | ].
  reflexivity.
Qed.

Lemma create_rejects_overlap_witness :
  create Samples.table1 Samples.idB Samples.admin Samples.moved
  = (Samples.table1,
     Render "sessions/create"
       "Support worker is already scheduled at this time" Samples.moved).
Proof.
  assert (Hrow : exists r, Samples.table1 = [r]
            /\ s_start_time r < s_end_time r
            /\ overlapsRow Samples.moved r = true).
  { eexists. vm_compute. repeat split. }
  destruct Hrow as (r & Ht & Hr & Ho).
  apply (create_rejects_overlap Samples.table1 Samples.idB Samples.admin
           Samples.moved r).
  - reflexivity.
  - reflexivity.
  - vm_compute. reflexivity.
  - rewrite Ht. left. reflexivity.
  - exact Hr.
  - exact Ho.
Defined.

(** The answer to a rejected candidate does not depend on which session
    it overlaps: no function of the answer gives the id of the earliest
    overlapping session. *)
Lemma create_response_hides_conflict_id :
  ~ (exists idOf : Response -> string,
       forall (db : Table) (new_id user : string) (b : Body) (r : Session),
         earliestOverlap db b = Some r ->
         idOf (snd (create db new_id user b)) = id r).
Proof.
  intros [idOf H].
  set (first := Samples.form "09:00" "10:00" 60 None).
  set (tA := fst (create [] Samples.idA Samples.admin first)).
  set (tB := fst (create [] Samples.idB Samples.admin first)).
  assert (HA : exists r, earliestOverlap tA Samples.moved = Some r
                         /\ id r = Samples.idA).
  { eexists. vm_compute. split; reflexivity. }
  assert (HB : exists r, earliestOverlap tB Samples.moved = Some r
                         /\ id r = Samples.idB).
  { eexists. vm_compute. split; reflexivity. }
  destruct HA as (rA & HA & HidA), HB as (rB & HB & HidB).
  pose proof (H tA Samples.idB Samples.admin Samples.moved rA HA) as EA.
  pose proof (H tB Samples.idB Samples.admin Samples.moved rB HB) as EB.
  assert (Hsame : snd (create tA Samples.idB Samples.admin Samples.moved)
                  = snd (create tB Samples.idB Samples.admin Samples.moved))
    by (vm_compute; reflexivity).
  rewrite Hsame, EB, HidA, HidB in EA. discriminate EA.
Qed.

(** C8, as the code has it by design: a session that the create
    handler stores keeps the duration of the form, an integer from 15 to
    480 that is not compared with the times; when both times are written
    with two-digit hours its start time is before its end time. *)
Theorem create_accepted_row
    (db db' : Table) (new_id user url : string) (b : Body) :
  create db new_id user b = (db', Redirect url) ->
  exists row : Session,
    db' = db ++ [row]
    /\ s_duration_minutes row = duration_minutes b
    /\ 15 <= s_duration_minutes row <= 480
    /\ (String.length (start_time b) = 5%nat ->
        String.length (end_time b) = 5%nat ->
        s_start_time row < s_end_time row).
Proof.
  unfold create, js_ge. intros H.
  destruct (validCreate b) eqn:Hv; cbn [negb] in H; [ | discriminate H].
  destruct (js_lt (start_time b) (end_time b)) eqn:Hlt; cbn [negb] in H;
    [ | discriminate H].
  destruct (0 <? Z.of_nat (length (conflictCheck db b)));
    [discriminate H | ].
  injection H as <- _.
  eexists. split; [reflexivity | ]. cbn [s_duration_minutes rowOf].
  unfold validCreate, validFields in Hv.
  rewrite !andb_true_iff, !Z.leb_le in Hv.
  destruct Hv as [[[[[_ Hs] He] Hlo] Hhi] _].
  repeat split; try lia.
  intros Ls Le. cbn [s_start_time s_end_time rowOf].
  now apply js_lt_padded.
Qed.

Lemma create_accepted_row_witness :
  exists row : Session,
    Samples.table1 = [] ++ [row]
    /\ s_duration_minutes row = 60
    /\ 15 <= s_duration_minutes row <= 480
    /\ (String.length "09:00" = 5%nat -> String.length "10:00" = 5%nat ->
        s_start_time row < s_end_time row).
Proof.
  apply (create_accepted_row [] Samples.table1 Samples.idA Samples.admin
           ("/sessions/" ++ Samples.idA)
           (Samples.form "09:00" "10:00" 60 None)).
  vm_compute. reflexivity.
Defined.

(** The order check ("Validate that end time is after start time")
    compares the texts: with a one-digit hour, a session from 10:00 to
    9:30 passes it and is stored. *)
Example create_accepts_inverted_times :
  exists row : Session,
    fst (create [] Samples.idA Samples.admin
           (Samples.form "10:00" "9:30" 60 None)) = [row]
    /\ s_start_time row = 600 /\ s_end_time row = 570.
Proof. eexists. vm_compute. repeat split. Qed.

(** The create handler stores a one-hour session with a duration of 15
    minutes. *)
Lemma create_accepts_inconsistent_duration :
  ~ (forall (db db' : Table) (new_id user url : string) (b : Body),
       create db new_id user b = (db', Redirect url) ->
       exists row : Session,
         db' = db ++ [row]
         /\ s_start_time row < s_end_time row
         /\ 0 < s_duration_minutes row
         /\ s_duration_minutes row = s_end_time row - s_start_time row).
Proof.
  intros H.
  destruct (H [] _ Samples.idA Samples.admin _
              (Samples.form "09:00" "10:00" 15 None) eq_refl)
    as (row & Hrow & _ & _ & Hdur).
  cbn [app] in Hrow. vm_compute in Hrow. injection Hrow as <-.
  vm_compute in Hdur. discriminate Hdur.
Qed.

(** *** What the handlers keep *)

Lemma compatible_sym (r1 r2 : Session) : compatible r1 r2 -> compatible r2 r1.
Proof.
  unfold compatible, sameWorkerDay, overlaps. intros H A2 A1 [Hw Hd].
  specialize (H A1 A2 (conj (eq_sym Hw) (eq_sym Hd))). lia.
Qed.

Lemma conflictFree_cons_inv (x : Session) (l : Table) :
  conflictFree (x :: l) ->
  conflictFree l /\ (forall r, In r l -> compatible x r).
Proof.
  intros H. split.
  - intros i j r1 r2 Hi Hj Hij. apply (H (S i) (S j) r1 r2); auto.
  - intros r Hr. apply list_elem_of_In, list_elem_of_lookup in Hr.
    destruct Hr as [j Hj]. unfold compatible.
    apply (H 0%nat (S j) x r); auto.
Qed.

Lemma conflictFree_cons (x : Session) (l : Table) :
  conflictFree l -> (forall r, In r l -> compatible x r) ->
  conflictFree (x :: l).
Proof.
  intros Hl Hx i j r1 r2 Hi Hj Hij.
  destruct i as [ | i], j as [ | j]; cbn in Hi, Hj.
  - congruence.
  - injection Hi as <-. apply Hx.
    apply list_elem_of_In, list_elem_of_lookup. now exists j.
  - injection Hj as <-. apply compatible_sym, Hx.
    apply list_elem_of_In, list_elem_of_lookup. now exists i.
  - apply (Hl i j r1 r2); auto.
Qed.

Lemma conflictFree_filter (f : Session -> bool) (l : Table) :
  conflictFree l -> conflictFree (List.filter f l).
Proof.
  induction l as [ | x l IH]; intros H; [exact H | ].
  apply conflictFree_cons_inv in H. destruct H as [Hl Hx].
  cbn [List.filter]. destruct (f x); [ | now apply IH].
  apply conflictFree_cons; [now apply IH | ].
  intros r Hr. apply filter_In in Hr. now apply Hx.
Qed.

Lemma conflictFree_snoc (x : Session) (l : Table) :
  conflictFree l -> (forall r, In r l -> compatible r x) ->
  conflictFree (l ++ [x]).
Proof.
  induction l as [ | y l IH]; intros Hl Hx.
  - intros i j r1 r2 Hi Hj Hij.
    destruct i as [ | i], j as [ | j]; cbn in Hi, Hj;
      try discriminate; congruence.
  - apply conflictFree_cons_inv in Hl. destruct Hl as [Hl Hy].
    cbn [app]. apply conflictFree_cons.
    + apply IH; [exact Hl | ]. intros r Hr. apply Hx. now right.
    + intros r Hr. apply in_app_or in Hr. destruct Hr as [Hr | [<- | []]].
      * now apply Hy.
      * apply Hx. now left.
Qed.

(** Overlapping intervals are selected by the time clause, whatever the
    order of their ends. *)
Lemma overlaps_timeClause (s e cs ce : Z) :
  overlaps cs ce s e -> timeClause s e cs ce = true.
Proof.
  unfold overlaps, timeClause. intros [H1 H2].
  rewrite !orb_true_iff, !andb_true_iff, !Z.leb_le, !Z.ltb_lt. lia.
Qed.

Lemma isDate_pgDate (s : string) :
  isDate s = true -> exists d, pgDate s = Some d.
Proof.
  unfold isDate. rewrite andb_true_iff. intros [_ H].
  destruct (pgDate s) as [d | ]; [eauto | discriminate].
Qed.

Lemma validCreate_fields (b : Body) :
  validCreate b = true ->
  isDate (session_date b) = true
  /\ matchesTime (start_time b) = true /\ matchesTime (end_time b) = true
  /\ 15 <= duration_minutes b <= 480
  /\ match status b with None => True | Some st => isIn statuses st = true end.
Proof.
  unfold validCreate, validFields. rewrite !andb_true_iff, !Z.leb_le.
  intros [[[[[[_ Hd] Hs] He] Hlo] Hhi] Hst].
  repeat split; try assumption. destruct (status b); [exact Hst | exact I].
Qed.

(** The outcomes of the create handler. *)
Lemma create_cases (db : Table) (new_id user : string) (b : Body) :
  (fst (create db new_id user b) = db
   /\ exists msg, snd (create db new_id user b) = Render "sessions/create" msg b)
  \/ (validCreate b = true
      /\ js_lt (start_time b) (end_time b) = true
      /\ conflictCheck db b = []
      /\ create db new_id user b
         = (db ++ [rowOf new_id b (orElse (status b) "planned") user],
            Redirect ("/sessions/" ++ new_id))).
Proof.
  unfold create, js_ge.
  destruct (validCreate b); cbn [negb]; [ | left; eauto].
  destruct (js_lt (start_time b) (end_time b)); cbn [negb]; [ | left; eauto].
  destruct (conflictCheck db b) as [ | i l] eqn:E; [ | left; eauto].
  right. cbn [length Z.of_nat Z.ltb Z.compare]. repeat split.
Qed.

Lemma conflictCheck_nil (db : Table) (b : Body) (r : Session) :
  conflictCheck db b = [] -> In r db ->
  conflictWhere (pgUUID (support_worker_id b)) (pgDate (session_date b))
    (pgTime (start_time b)) (pgTime (end_time b)) r = false.
Proof.
  unfold conflictCheck. intros Hnil Hr.
  apply not_true_is_false. intros Hc.
  assert (Hin : In r (List.filter
                        (conflictWhere (pgUUID (support_worker_id b))
                           (pgDate (session_date b)) (pgTime (start_time b))
                           (pgTime (end_time b))) db))
    by now apply filter_In.
  apply (in_map id) in Hin. rewrite Hnil in Hin. destruct Hin.
Qed.

Lemma createAt_alone (db : Table) (new_id user : string) (b : Body) :
  createAt db db true new_id user b = create db new_id user b.
Proof. reflexivity. Qed.

(** The outcomes of the create handler between its statements. *)
Lemma createAt_cases (seen db : Table) (accepted : bool)
    (new_id user : string) (b : Body) :
  (fst (createAt seen db accepted new_id user b) = db
   /\ exists msg,
        snd (createAt seen db accepted new_id user b)
        = Render "sessions/create" msg b)
  \/ (validCreate b = true
      /\ js_lt (start_time b) (end_time b) = true
      /\ conflictCheck seen b = []
      /\ accepted = true
      /\ createAt seen db accepted new_id user b
         = (db ++ [rowOf new_id b (orElse (status b) "planned") user],
            Redirect ("/sessions/" ++ new_id))).
Proof.
  unfold createAt, js_ge.
  destruct (validCreate b); cbn [negb]; [ | left; eauto].
  destruct (js_lt (start_time b) (end_time b)); cbn [negb]; [ | left; eauto].
  destruct (conflictCheck seen b) as [ | i l] eqn:E; [ | left; eauto].
  cbn [length Z.of_nat Z.ltb Z.compare].
  destruct accepted; [right; repeat split | left; eauto].
Qed.

(** A row that the conflict query does not select, and the row of the
    form, may stand side by side. *)
Lemma unselected_compatible (b : Body) (st new_id user : string) (r : Session) :
  isDate (session_date b) = true ->
  conflictWhere (pgUUID (support_worker_id b)) (pgDate (session_date b))
    (pgTime (start_time b)) (pgTime (end_time b)) r = false ->
  compatible r (rowOf new_id b st user).
Proof.
  intros Hdate Hc Ha _ [Hw Hd]. cbn [rowOf s_support_worker_id s_session_date
    s_start_time s_end_time] in *.
  apply isDate_pgDate in Hdate. destruct Hdate as [d Hdate].
  rewrite <- Hw in Hc. rewrite Hdate in Hd, Hc.
  rewrite (conflictWhere_same_worker_day d _ _ r Hd Ha) in Hc.
  intros Ho.
  assert (Ho' : overlaps (pgTime (start_time b)) (pgTime (end_time b))
                  (s_start_time r) (s_end_time r))
    by (unfold overlaps in *; lia).
  apply overlaps_timeClause in Ho'. congruence.
Qed.

(** X1: a create request that runs alone, with no other request between
    its conflict query and its [INSERT], keeps a conflict-free table
    conflict-free, whatever the form and whether or not the database
    accepts the row: either nothing is stored, or the stored session
    overlaps no active session of its worker and day. *)
Theorem create_alone_keeps_conflictFree
    (db : Table) (accepted : bool) (new_id user : string) (b : Body) :
  conflictFree db ->
  conflictFree (fst (createAt db db accepted new_id user b)).
Proof.
  intros Hfree.
  destruct (createAt_cases db db accepted new_id user b)
    as [[-> _] | (Hv & _ & Hnil & _ & ->)]; [exact Hfree | ].
  cbn [fst]. apply conflictFree_snoc; [exact Hfree | ].
  intros r Hr. apply validCreate_fields in Hv. destruct Hv as (Hdate & _).
  apply unselected_compatible; [exact Hdate | ].
  now apply (conflictCheck_nil db b r Hnil).
Qed.

Lemma conflictFree_nil : conflictFree [].
Proof. intros i j r1 r2 Hi. discriminate Hi. Qed.

Lemma conflictFree_one (r : Session) : conflictFree [r].
Proof.
  intros i j r1 r2 Hi Hj Hij.
  destruct i as [ | i], j as [ | j]; cbn in Hi, Hj; try discriminate.
  congruence.
Qed.

Lemma create_alone_keeps_conflictFree_witness :
  conflictFree Samples.table1
  /\ length (fst (createAt Samples.table1 Samples.table1 true Samples.idB
                    Samples.admin (Samples.form "10:00" "11:00" 60 None)))
     = 2%nat
  /\ conflictFree
       (fst (createAt Samples.table1 Samples.table1 true Samples.idB
               Samples.admin (Samples.form "10:00" "11:00" 60 None))).
Proof.
  split; [apply conflictFree_one | ]. split; [reflexivity | ].
  apply (create_alone_keeps_conflictFree Samples.table1 true Samples.idB
           Samples.admin (Samples.form "10:00" "11:00" 60 None)).
  apply conflictFree_one.
Defined.

Lemma filter_none (A : Type) (f : A -> bool) (l : list A) :
  (forall x, In x l -> f x = false) -> List.filter f l = [].
Proof.
  induction l as [ | x l IH]; intros H; [reflexivity | ].
  cbn [List.filter]. rewrite (H x) by now left.
  apply IH. intros y Hy. apply H. now right.
Qed.

Lemma overlapsRow_false_conflictWhere (b : Body) (r : Session) :
  pgTime (start_time b) < pgTime (end_time b) -> proper r ->
  overlapsRow b r = false ->
  conflictWhere (pgUUID (support_worker_id b)) (pgDate (session_date b))
    (pgTime (start_time b)) (pgTime (end_time b)) r = false.
Proof.
  intros Hc Hr Ho. apply not_true_is_false. intros Hw.
  unfold conflictWhere in Hw. rewrite !andb_true_iff in Hw.
  destruct Hw as [[[Hworker Hdate] Hstatus] Htime].
  apply (timeClause_overlaps _ _ _ _ Hr Hc) in Htime. destruct Htime as [H1 H2].
  unfold overlapsRow in Ho. rewrite Hworker, Hdate in Ho.
  assert (Ha : active r = true).
  { unfold active. unfold isIn in Hstatus. cbn [existsb] in Hstatus.
    rewrite orb_false_r, negb_true_iff, orb_false_iff in Hstatus.
    destruct Hstatus as [-> ->]. reflexivity. }
  rewrite Ha in Ho. cbn [andb] in Ho.
  apply Z.ltb_lt in H1, H2. rewrite H1, H2 in Ho. discriminate Ho.
Qed.

(** X2: a form that passes the validators, with its start before its
    end as texts and as times, and which overlaps no row of the table,
    reaches the [INSERT] when the request runs alone.  If the database
    accepts the row, the table grows by exactly the row of the form,
    with the notes trimmed, the status of the form or [planned], and the
    answer is the redirect to the new session; if it refuses the row,
    nothing is stored and the form is shown again with the error of the
    [catch] block.  A session that starts when another ends is not an
    overlap. *)
Theorem create_without_overlap
    (db : Table) (accepted : bool) (new_id user : string) (raw : Body) :
  validCreate raw = true ->
  js_lt (start_time raw) (end_time raw) = true ->
  pgTime (start_time raw) < pgTime (end_time raw) ->
  Forall proper db ->
  (forall r, In r db -> overlapsRow raw r = false) ->
  let b := sanitize raw in
  let row := rowOf new_id b (orElse (status raw) "planned") user in
  createAt db db accepted new_id user b
  = (if accepted
     then (db ++ [row], Redirect ("/sessions/" ++ new_id))
     else (db, Render "sessions/create"
                 "An error occurred creating the session" b))
  /\ s_notes row = orNull (option_map trim (notes raw)).
Proof.
  intros Hv Hlt Hc Hproper Hno b row. split; [ | reflexivity].
  unfold createAt, js_ge.
  change (validCreate b) with (validCreate raw).
  change (start_time b) with (start_time raw).
  change (end_time b) with (end_time raw).
  rewrite Hv, Hlt. cbn [negb].
  assert (Hnil : conflictCheck db b = []).
  { unfold conflictCheck.
    rewrite filter_none; [reflexivity | ].
    intros r Hr.
    apply (overlapsRow_false_conflictWhere raw r); auto.
    rewrite Forall_forall in Hproper. apply Hproper.
    now apply list_elem_of_In. }
  rewrite Hnil. reflexivity.
Qed.

Lemma create_without_overlap_witness :
  createAt Samples.table1 Samples.table1 true Samples.idB Samples.admin
    (sanitize (Samples.noted "10:00" "11:00" "  at the gate "))
  = (Samples.table1
       ++ [rowOf Samples.idB
             (sanitize (Samples.noted "10:00" "11:00" "  at the gate "))
             "planned" Samples.admin],
     Redirect ("/sessions/" ++ Samples.idB))
  /\ s_notes
       (rowOf Samples.idB
          (sanitize (Samples.noted "10:00" "11:00" "  at the gate "))
          "planned" Samples.admin)
     = Some "at the gate"%string.
Proof.
  destruct (create_without_overlap Samples.table1 true Samples.idB
              Samples.admin (Samples.noted "10:00" "11:00" "  at the gate "))
    as [H1 H2].
  - reflexivity.
  - reflexivity.
  - vm_compute. reflexivity.
  - repeat constructor.
  - intros r [<- | []]. vm_compute. reflexivity.
  - split; [exact H1 | ]. vm_compute. reflexivity.
Defined.

(** X22: the conflict query and the [INSERT] are two statements with a
    wait between them.  When two requests for overlapping sessions of
    one worker and day both have their conflict query answered before
    either row is stored, both rows are stored and the table is no
    longer conflict-free; had the second request run after the first,
    it would have been refused. *)
Theorem create_race (seen : Table) (id1 id2 user1 user2 : string)
    (b1 b2 : Body) :
  validCreate b1 = true -> validCreate b2 = true ->
  js_lt (start_time b1) (end_time b1) = true ->
  js_lt (start_time b2) (end_time b2) = true ->
  conflictCheck seen b1 = [] -> conflictCheck seen b2 = [] ->
  let row1 := rowOf id1 b1 (orElse (status b1) "planned") user1 in
  let row2 := rowOf id2 b2 (orElse (status b2) "planned") user2 in
  overlapsRow b2 row1 = true -> active row2 = true ->
  let db1 := fst (createAt seen seen true id1 user1 b1) in
  createAt seen db1 true id2 user2 b2
  = (seen ++ [row1; row2], Redirect ("/sessions/" ++ id2))
  /\ ~ conflictFree (seen ++ [row1; row2])
  /\ createAt db1 db1 true id2 user2 b2
     = (db1, Render "sessions/create"
               "Support worker is already scheduled at this time" b2).
Proof.
  intros Hv1 Hv2 Hlt1 Hlt2 Hnil1 Hnil2 row1 row2 Ho Ha2 db1.
  assert (Hdb1 : db1 = seen ++ [row1]).
  { subst db1. unfold createAt, js_ge. rewrite Hv1, Hlt1, Hnil1. reflexivity. }
  unfold overlapsRow in Ho. rewrite !andb_true_iff in Ho.
  destruct Ho as [[[[Hw Hd] Ha1] Ht1] Ht2].
  apply Z.ltb_lt in Ht1, Ht2. apply String.eqb_eq in Hw.
  split; [ | split].
  - rewrite Hdb1. unfold createAt, js_ge. rewrite Hv2, Hlt2, Hnil2.
    cbn [negb length Z.of_nat Z.ltb Z.compare]. now rewrite <- app_assoc.
  - intros Hfree.
    apply (Hfree (length seen) (S (length seen)) row1 row2).
    + now apply list_lookup_middle.
    + change (seen ++ [row1; row2]) with (seen ++ [row1] ++ [row2]).
      rewrite app_assoc. apply list_lookup_middle.
      rewrite length_app. cbn [length]. lia.
    + lia.
    + exact Ha1.
    + exact Ha2.
    + split; [exact Hw | ].
      subst row1 row2. cbn [rowOf s_session_date] in *.
      destruct (pgDate (session_date b1)) as [[[y m] d] | ],
               (pgDate (session_date b2)) as [[[y' m'] d'] | ];
        cbn [eqDate] in Hd; try discriminate Hd.
      rewrite !andb_true_iff, !Z.eqb_eq in Hd. destruct Hd as [[-> ->] ->].
      reflexivity.
    + subst row1 row2. cbn [rowOf s_start_time s_end_time] in *.
      unfold overlaps. lia.
  - unfold createAt, js_ge. rewrite Hv2, Hlt2. cbn [negb].
    assert (Hsel : conflictCheck db1 b2 <> []).
    { rewrite Hdb1. unfold conflictCheck.
      rewrite List.filter_app, map_app. cbn [List.filter].
      assert (Hc : conflictWhere (pgUUID (support_worker_id b2))
                     (pgDate (session_date b2)) (pgTime (start_time b2))
                     (pgTime (end_time b2)) row1 = true).
      { unfold conflictWhere. rewrite Hw, String.eqb_refl, Hd. cbn [andb].
        rewrite andb_true_iff. split.
        - unfold active in Ha1. rewrite andb_true_iff, !negb_true_iff in Ha1.
          destruct Ha1 as [E1 E2]. unfold isIn. cbn [existsb].
          now rewrite E1, E2.
        - apply overlaps_timeClause. unfold overlaps.
          subst row1. cbn [rowOf s_start_time s_end_time] in *. lia. }
      rewrite Hc. cbn [map]. intros E. apply app_eq_nil in E.
      destruct E as [_ E]. discriminate E. }
    destruct (conflictCheck db1 b2) as [ | x l]; [congruence | ].
    reflexivity.
Qed.

Lemma create_race_witness :
  createAt [] Samples.table1 true Samples.idB Samples.admin Samples.moved
  = ([] ++ [rowOf Samples.idA (Samples.form "09:00" "10:00" 60 None)
              "planned" Samples.admin;
            rowOf Samples.idB Samples.moved "planned" Samples.admin],
     Redirect ("/sessions/" ++ Samples.idB))
  /\ ~ conflictFree
         ([] ++ [rowOf Samples.idA (Samples.form "09:00" "10:00" 60 None)
                   "planned" Samples.admin;
                 rowOf Samples.idB Samples.moved "planned" Samples.admin])
  /\ createAt Samples.table1 Samples.table1 true Samples.idB Samples.admin
       Samples.moved
     = (Samples.table1,
        Render "sessions/create"
          "Support worker is already scheduled at this time" Samples.moved).
Proof.
  apply (create_race [] Samples.idA Samples.idB Samples.admin Samples.admin
           (Samples.form "09:00" "10:00" 60 None) Samples.moved);
    vm_compute; reflexivity.
Defined.

(** X3: deleting a session keeps a conflict-free table conflict-free. *)
Theorem delete_keeps_conflictFree (db : Table) (wantsJson : bool) (i : string) :
  conflictFree db -> conflictFree (fst (delete db wantsJson i)).
Proof. intros H. cbn [delete fst]. now apply conflictFree_filter. Qed.

Lemma delete_keeps_conflictFree_witness :
  conflictFree (fst (delete Samples.table2 false Samples.idA)).
Proof.
  apply (delete_keeps_conflictFree Samples.table2 false Samples.idA).
  exact table2_conflictFree.
Defined.

(** X5: an edit with a valid form for an id that no row has, the id
    being a UUID spelled as the database spells it, changes nothing and
    is still answered with the redirect of a successful update. *)
Theorem update_unknown_id (db : Table) (i : string) (b : Body) :
  isUUID i = true -> pgUUID i = i ->
  validEdit b = true -> (forall r, In r db -> id r <> i) ->
  update db i b = (db, Redirect ("/sessions/" ++ i)).
Proof.
  intros _ _ Hv Hnone. unfold update. rewrite Hv. cbn [negb]. f_equal.
  induction db as [ | x l IH]; [reflexivity | ].
  cbn [map]. rewrite IH by (intros r Hr; apply Hnone; now right).
  unfold updateRow.
  assert (Hx : id x <> i) by (apply Hnone; now left).
  apply String.eqb_neq in Hx. now rewrite Hx.
Qed.

Lemma update_unknown_id_witness :
  update Samples.table1 Samples.idB Samples.moved
  = (Samples.table1, Redirect ("/sessions/" ++ Samples.idB)).
Proof.
  apply (update_unknown_id Samples.table1 Samples.idB Samples.moved).
  - reflexivity.
  - reflexivity.
  - reflexivity.
  - intros r [<- | []]. vm_compute. discriminate.
Defined.

Lemma orElse_known (b : Body) :
  match status b with None => True | Some st => isIn statuses st = true end ->
  isIn statuses (orElse (status b) "planned") = true.
Proof.
  destruct (status b) as [[ | c st] | ]; cbn [orElse]; intros H;
    [discriminate H | exact H | reflexivity].
Qed.

(** X7: the three handlers keep the table within the four statuses of
    the forms: a session is stored with the status of its form, or
    [planned] when the create form has none. *)
Theorem handlers_keep_known_status
    (db : Table) (new_id user i : string) (wantsJson : bool) (b : Body) :
  Forall knownStatus db ->
  Forall knownStatus (fst (create db new_id user b))
  /\ Forall knownStatus (fst (update db i b))
  /\ Forall knownStatus (fst (delete db wantsJson i)).
Proof.
  intros Hdb. split; [ | split].
  - destruct (create_cases db new_id user b)
      as [[-> _] | (Hv & _ & _ & ->)]; [exact Hdb | ].
    cbn [fst]. apply Forall_app. split; [exact Hdb | ].
    constructor; [ | constructor]. unfold knownStatus. cbn [rowOf s_status].
    apply validCreate_fields in Hv. destruct Hv as (_ & _ & _ & _ & Hst).
    now apply orElse_known.
  - unfold update. destruct (validEdit b) eqn:Hv; cbn [negb fst]; [ | exact Hdb].
    unfold validEdit in Hv. apply andb_true_iff in Hv. destruct Hv as [_ Hst].
    induction Hdb as [ | x l Hx _ IH]; [constructor | ].
    cbn [map]. constructor; [ | exact IH].
    unfold updateRow. destruct (String.eqb (id x) i); [ | exact Hx].
    unfold knownStatus, statusOf. cbn [rowOf s_status].
    destruct (status b); [exact Hst | discriminate Hst].
  - cbn [delete fst]. rewrite Forall_forall in Hdb. apply Forall_forall.
    intros r Hr. apply Hdb. apply list_elem_of_In in Hr.
    apply filter_In in Hr. apply list_elem_of_In. tauto.
Qed.

Lemma handlers_keep_known_status_witness :
  Forall knownStatus
    (fst (create [] Samples.idA Samples.admin
            (Samples.form "09:00" "10:00" 60 None))).
Proof.
  destruct (handlers_keep_known_status [] Samples.idA Samples.admin
              Samples.idA false (Samples.form "09:00" "10:00" 60 None))
    as [H _].
  - constructor.
  - exact H.
Defined.

(** X16: storing a session under a fresh id and deleting that id again
    gives back the table as it was; so does the delete after a create
    that was refused. *)
Theorem create_then_delete
    (db : Table) (new_id user : string) (wantsJson : bool) (b : Body) :
  (forall r, In r db -> id r <> new_id) ->
  fst (delete (fst (create db new_id user b)) wantsJson new_id) = db.
Proof.
  intros Hfresh. cbn [delete fst].
  assert (Hkeep : List.filter (fun r => negb (String.eqb (id r) new_id)) db = db).
  { induction db as [ | x l IH]; [reflexivity | ].
    cbn [List.filter].
    assert (Hx : id x <> new_id) by (apply Hfresh; now left).
    apply String.eqb_neq in Hx. rewrite Hx. cbn [negb]. f_equal.
    apply IH. intros r Hr. apply Hfresh. now right. }
  destruct (create_cases db new_id user b)
    as [[-> _] | (_ & _ & _ & ->)]; [exact Hkeep | ].
  cbn [fst]. rewrite List.filter_app, Hkeep. cbn [List.filter rowOf id].
  rewrite String.eqb_refl. cbn [negb]. apply app_nil_r.
Qed.

Lemma create_then_delete_witness :
  fst (delete
         (fst (create Samples.table1 Samples.idB Samples.admin
                 (Samples.form "10:00" "11:00" 60 None)))
         false Samples.idB)
  = Samples.table1.
Proof.
  apply (create_then_delete Samples.table1 Samples.idB Samples.admin false
           (Samples.form "10:00" "11:00" 60 None)).
  intros r [<- | []]. vm_compute. discriminate.
Defined.

End SessionsFacts.

(** ** The list of sessions *)
Module SessionListFacts.
Import SessionList.

Lemma addFilter_built (condition : string) (value : option string)
    (fs : list (string * string)) :
  addFilter condition value (built fs)
  = built (fs ++ match Calendar.truthy value with
                 | Some v => [(condition, v)]
                 | None => []
                 end).
Proof.
  unfold addFilter. destruct (Calendar.truthy value) as [v | ].
  - unfold built. rewrite length_app, imap_app, map_app. cbn [length imap map].
    repeat f_equal; cbn; lia.
  - now rewrite app_nil_r.
Qed.

Lemma buildWhere_built (q : Query) : buildWhere q = built (activeFilters q).
Proof.
  unfold buildWhere, activeFilters.
  change (0%nat, @nil string, @nil Param) with (built []).
  rewrite !addFilter_built. f_equal. cbn [setFilters].
  destruct (Calendar.truthy (date_from q)), (Calendar.truthy (date_to q)),
    (Calendar.truthy (q_property_id q)), (Calendar.truthy (q_resident_id q)),
    (Calendar.truthy (q_support_worker_id q)),
    (Calendar.truthy (q_support_type q)), (Calendar.truthy (q_status q));
    reflexivity.
Qed.

(** *** Pagination *)

Lemma quotient_times (t l : Z) :
  0 < l -> (inject_Z t / inject_Z l * inject_Z l == inject_Z t)%Q.
Proof.
  intros Hl. field. intros H. apply (Qeq_bool_neq 0 (inject_Z l)); [ | now symmetry].
  unfold Qeq_bool. cbn. apply Z.eqb_neq. lia.
Qed.

Lemma ceiling_bounds (t l : Z) :
  0 < l ->
  let pages := Qceiling (inject_Z t / inject_Z l) in
  (pages - 1) * l < t <= pages * l.
Proof.
  intros Hl pages.
  assert (Hpos : (0 < inject_Z l)%Q).
  { change (inject_Z 0 < inject_Z l)%Q. rewrite <- Zlt_Qlt. exact Hl. }
  pose proof (Qle_ceiling (inject_Z t / inject_Z l)) as Hle.
  pose proof (Qceiling_lt (inject_Z t / inject_Z l)) as Hlt.
  fold pages in Hle, Hlt.
  apply (Qmult_le_r _ _ (inject_Z l) Hpos) in Hle.
  apply (Qmult_lt_r _ _ (inject_Z l) Hpos) in Hlt.
  rewrite quotient_times in Hle, Hlt by exact Hl.
  rewrite <- inject_Z_mult in Hle, Hlt.
  rewrite <- Zle_Qle in Hle. rewrite <- Zlt_Qlt in Hlt. lia.
Qed.

(** X14: every placeholder of the list query is bound to its own
    parameter.  The conditions are those of the filters that are set, in
    the order of the handler, numbered from [$1]; the parameter list holds
    their values in the same order, then the limit and the offset under
    the numbers of the [LIMIT] and [OFFSET] placeholders; the count query
    gets the values of the conditions alone. *)
Theorem list_placeholders_aligned (q : Query) :
  let fs := activeFilters q in
  let lq := listQuery q in
  lq_where lq = whereClause (imap (fun k f => placeholder (fst f) (S k)) fs)
  /\ (forall (k : nat) (f : string * string),
        fs !! k = Some f -> lq_params lq !! k = Some (PText (snd f)))
  /\ limitParam lq = S (length fs)
  /\ lq_params lq !! length fs = Some (PNumber (limitOf q))
  /\ offsetParam lq = S (S (length fs))
  /\ lq_params lq !! S (length fs)
     = Some (PNumber ((pageOf q - 1) * limitOf q))
  /\ length (lq_params lq) = S (S (length fs))
  /\ count_params lq = map (fun f => PText (snd f)) fs.
Proof.
  intros fs lq. unfold lq, listQuery. rewrite buildWhere_built. fold fs.
  unfold built. cbn [lq_where limitParam offsetParam lq_params count_params].
  assert (Hlen : length (map (fun f : string * string => PText (snd f)) fs)
                 = length fs) by apply length_map.
  repeat split.
  - intros k f Hk. rewrite lookup_app_l.
    + now rewrite list_lookup_fmap, Hk.
    + rewrite Hlen. now apply lookup_lt_Some in Hk.
  - rewrite lookup_app_r by (rewrite Hlen; lia).
    now rewrite Hlen, Nat.sub_diag.
  - rewrite lookup_app_r by (rewrite Hlen; lia).
    rewrite Hlen. now replace (S (length fs) - length fs)%nat with 1%nat by lia.
  - rewrite length_app, Hlen. cbn [length]. lia.
  - rewrite length_app, Hlen. cbn [length].
    replace (length fs + 2 - 2)%nat with (length fs) by lia.
    rewrite <- Hlen at 1. now rewrite take_app_length.
Qed.

(** X15: with a positive limit, the number of pages is the least number
    of pages that hold all sessions; [hasNext] is true exactly when
    sessions remain after the page, a page with a next page is full, and
    a page without one holds all the remaining sessions; [hasPrev] is true
    exactly when the offset is positive. *)
Theorem pagination_pages (A : Type) (q : Query) (matching : list A) :
  0 < limitOf q -> 1 <= pageOf q ->
  let total := Z.of_nat (length matching) in
  let offset := (pageOf q - 1) * limitOf q in
  let p := pagination q total in
  (totalPages p - 1) * limitOf q < total <= totalPages p * limitOf q
  /\ (hasNext p = true <-> offset + limitOf q < total)
  /\ (hasNext p = true ->
      length (pageRows q matching) = Z.to_nat (limitOf q))
  /\ (hasNext p = false ->
      pageRows q matching = drop (Z.to_nat offset) matching)
  /\ (hasPrev p = true <-> 0 < offset).
Proof.
  intros Hl Hp total offset p.
  pose proof (ceiling_bounds total (limitOf q) Hl) as Hc. cbn zeta in Hc.
  unfold p, pagination. cbn [totalPages hasNext hasPrev].
  set (pages := Qceiling (inject_Z total / inject_Z (limitOf q))) in *.
  assert (Hnext : (pageOf q <? pages) = true <-> offset + limitOf q < total).
  { rewrite Z.ltb_lt. unfold offset. split; intros H; nia. }
  split; [exact Hc | split; [exact Hnext | split; [ | split]]].
  - intros H. apply Hnext in H. unfold pageRows. fold offset.
    rewrite length_take, length_drop. unfold total in H. nia.
  - intros H. unfold pageRows. fold offset. apply take_ge.
    rewrite length_drop.
    assert (Hn : ~ offset + limitOf q < total).
    { intros Hlt. apply Hnext in Hlt. congruence. }
    unfold total in Hn. nia.
  - rewrite Z.ltb_lt. unfold offset. split; intros H; nia.
Qed.

Lemma pagination_pages_witness :
  let q := mkQuery None None None None None None None (Some 2) (Some 2) in
  let p := pagination q 5 in
  (totalPages p - 1) * 2 < 5 <= totalPages p * 2
  /\ (hasNext p = true <-> (2 - 1) * 2 + 2 < 5)
  /\ (hasNext p = true ->
      length (pageRows q [1; 2; 3; 4; 5]) = Z.to_nat 2)
  /\ (hasNext p = false ->
      pageRows q [1; 2; 3; 4; 5] = drop (Z.to_nat ((2 - 1) * 2)) [1; 2; 3; 4; 5])
  /\ (hasPrev p = true <-> 0 < (2 - 1) * 2).
Proof.
  intros q p.
  apply (pagination_pages Z q [1; 2; 3; 4; 5]); cbn; lia.
Defined.
End SessionListFacts.

(** ** The calendar views *)
Module CalendarFacts.
Import JSDate JSDateFacts Calendar.

(** *** ISO dates name days uniquely *)

Lemma digitChar_code (n : Z) : Text.code (digitChar n) = 48 + n mod 10.
Proof.
  unfold Text.code, digitChar.
  pose proof (Z.mod_pos_bound n 10 ltac:(lia)) as Hn.
  rewrite N_ascii_embedding by lia. lia.
Qed.

Lemma digitChar_inj (a b : Z) :
  digitChar a = digitChar b -> a mod 10 = b mod 10.
Proof.
  intros H. apply (f_equal Text.code) in H.
  rewrite !digitChar_code in H. lia.
Qed.

Lemma padDigits_inj (w : nat) (a b : Z) :
  padDigits w a = padDigits w b ->
  a mod 10 ^ Z.of_nat w = b mod 10 ^ Z.of_nat w.
Proof.
  induction w as [ | w IH]; intros H.
  - cbn. now rewrite !Z.mod_1_r.
  - cbn [padDigits] in H. injection H as Hd Hrest.
    apply digitChar_inj in Hd. specialize (IH Hrest).
    rewrite Nat2Z.inj_succ, Z.pow_succ_r by lia.
    rewrite (Z.mul_comm 10).
    rewrite !Z.rem_mul_r by lia. lia.
Qed.

Lemma padDigits_inj_small (w : nat) (a b : Z) :
  0 <= a < 10 ^ Z.of_nat w -> 0 <= b < 10 ^ Z.of_nat w ->
  padDigits w a = padDigits w b -> a = b.
Proof.
  intros Ha Hb H. apply padDigits_inj in H.
  now rewrite !Z.mod_small in H by assumption.
Qed.

Lemma String_inj (a b : ascii) (s s' : string) :
  String a s = String b s' -> a = b /\ s = s'.
Proof. intros H. injection H as -> ->. now split. Qed.

Lemma padDigits_app_inj (w : nat) (a b : Z) (r r' : string) :
  (padDigits w a ++ r)%string = (padDigits w b ++ r')%string ->
  padDigits w a = padDigits w b /\ r = r'.
Proof.
  induction w as [ | w IH]; cbn [padDigits append]; intros H.
  - now split.
  - injection H as Hd Hrest. destruct (IH Hrest) as [-> ->].
    now rewrite Hd.
Qed.

Lemma digitChar_not_sign (n y : Z) :
  digitChar n <> (if y <? 0 then "-"%char else "+"%char).
Proof.
  intros H. apply (f_equal Text.code) in H. rewrite digitChar_code in H.
  pose proof (Z.mod_pos_bound n 10 ltac:(lia)).
  destruct (y <? 0);
    [change (Text.code "-"%char) with 45 in H
    | change (Text.code "+"%char) with 43 in H]; lia.
Qed.

Lemma isoYear_inj (y z : Z) (r r' : string) :
  - 999999 <= y <= 999999 -> - 999999 <= z <= 999999 ->
  (isoYear y ++ r)%string = (isoYear z ++ r')%string -> y = z /\ r = r'.
Proof.
  intros Hy Hz H. unfold isoYear in H.
  destruct ((0 <=? y) && (y <=? 9999)) eqn:Ey,
           ((0 <=? z) && (z <=? 9999)) eqn:Ez.
  - apply padDigits_app_inj in H. destruct H as [H ->].
    rewrite andb_true_iff, !Z.leb_le in Ey, Ez.
    split; [ | reflexivity].
    apply (padDigits_inj_small 4); [cbn; lia | cbn; lia | exact H].
  - exfalso. cbn [padDigits append] in H. injection H as H _.
    now apply digitChar_not_sign in H.
  - exfalso. cbn [padDigits append] in H. injection H as H _.
    symmetry in H. now apply digitChar_not_sign in H.
  - cbn [append] in H. apply String_inj in H. destruct H as [Hsign H].
    apply padDigits_app_inj in H. destruct H as [H ->].
    split; [ | reflexivity].
    apply (padDigits_inj_small 6) in H; [ | cbn; lia | cbn; lia].
    destruct (Z.ltb_spec y 0), (Z.ltb_spec z 0); try discriminate Hsign; lia.
Qed.

Lemma YearFromDay_bounds (t : Z) :
  - 100000000 <= t <= 100000000 -> - 999999 <= YearFromDay t <= 999999.
Proof.
  intros Ht. pose proof (YearFromDay_spec t) as Hs.
  pose proof (DayFromYear_mean (YearFromDay t)).
  pose proof (DayFromYear_mean (YearFromDay t + 1)). lia.
Qed.

(** Among the days that a [Date] can hold, two days with the same text
    are the same day. *)
Lemma isoDay_inj (t u : Z) :
  - 100000000 <= t <= 100000000 -> - 100000000 <= u <= 100000000 ->
  isoDay t = isoDay u -> t = u.
Proof.
  intros Ht Hu H. unfold isoDay in H.
  apply isoYear_inj in H; try now apply YearFromDay_bounds.
  destruct H as [Hy H]. cbn [append] in H.
  apply String_inj in H. destruct H as [_ H].
  apply padDigits_app_inj in H. destruct H as [Hm H].
  cbn [append] in H. apply String_inj in H. destruct H as [_ H].
  pose proof (MonthFromDay_range t). pose proof (MonthFromDay_range u).
  pose proof (DateFromDay_range t). pose proof (DateFromDay_range u).
  apply (padDigits_inj_small 2) in Hm; [ | cbn; lia | cbn; lia].
  assert (Hd : DateFromDay t = DateFromDay u).
  { apply (padDigits_inj_small 2); [cbn; lia | cbn; lia | exact H]. }
  pose proof (MakeDay_fields t (DateFromDay t)) as Et.
  pose proof (MakeDay_fields u (DateFromDay u)) as Eu.
  assert (Hm' : MonthFromDay t = MonthFromDay u) by lia.
  rewrite Hy, Hm', Hd in Et. lia.
Qed.

(** *** Bucketing rows by date *)

Lemma addSession_lookup (m : gmap string (list Row)) (s : Row) (k : string) :
  default [] (addSession m s !! k)
  = default [] (m !! k) ++ (if onDay k s then [s] else []).
Proof.
  unfold addSession, onDay.
  destruct (String.eqb_spec (isoDate (session_date s)) k) as [-> | Hne].
  - now rewrite lookup_insert_eq.
  - rewrite lookup_insert_ne by exact Hne. now rewrite app_nil_r.
Qed.

Lemma foldl_addSession_lookup (rows : list Row)
    (m : gmap string (list Row)) (k : string) :
  default [] (foldl addSession m rows !! k)
  = default [] (m !! k) ++ List.filter (onDay k) rows.
Proof.
  revert m. induction rows as [ | s rows IH]; intros m; cbn [foldl List.filter].
  - now rewrite app_nil_r.
  - rewrite IH, addSession_lookup, <- app_assoc.
    now destruct (onDay k s).
Qed.

(** The bucket of a key holds the rows of that key, in input order. *)
Lemma groupByDate_lookup (rows : list Row) (k : string) :
  default [] (groupByDate rows !! k) = List.filter (onDay k) rows.
Proof.
  unfold groupByDate. now rewrite foldl_addSession_lookup, lookup_empty.
Qed.

(** The UTC day at a local midnight. *)
Lemma Day_local_midnight (k d : Z) :
  - msPerDay < k < msPerDay -> Day (d * msPerDay - k) = d + utcDayShift k.
Proof.
  unfold Day, utcDayShift. rewrite msPerDay_value. intros Hk.
  destruct (Z.ltb_spec 0 k); Z.div_mod_to_equations; lia.
Qed.

(** The local day at a UTC midnight. *)
Lemma Day_utc_midnight (k d : Z) :
  - msPerDay < k < msPerDay -> Day (d * msPerDay + k) = d + localDayShift k.
Proof.
  unfold Day, localDayShift. rewrite msPerDay_value. intros Hk.
  destruct (Z.ltb_spec k 0); Z.div_mod_to_equations; lia.
Qed.

Lemma utcDayShift_range (k : Z) : - 1 <= utcDayShift k <= 0.
Proof. unfold utcDayShift. destruct (0 <? k); lia. Qed.

Lemma localDayShift_range (k : Z) : - 1 <= localDayShift k <= 0.
Proof. unfold localDayShift. destruct (k <? 0); lia. Qed.

Lemma driverDate_fixed (k d : Z) :
  driverDate (fixedZone k) d = d * msPerDay - k.
Proof. unfold driverDate, MakeDate. rewrite UTC_fixed. lia. Qed.

(** The key of a row that the driver delivers: the text of its day, or
    of the day before east of Greenwich. *)
Lemma key_of_driverRow (k : Z) (s : Stored) :
  - msPerDay < k < msPerDay ->
  isoDate (session_date (driverRow (fixedZone k) s))
  = isoDay (st_date s + utcDayShift k).
Proof.
  intros Hk. unfold isoDate, driverRow. cbn [session_date].
  now rewrite driverDate_fixed, Day_local_midnight.
Qed.

Lemma filter_map_commute (A B : Type) (f : A -> B) (p : B -> bool)
    (l : list A) :
  List.filter p (map f l) = map f (List.filter (fun x => p (f x)) l).
Proof.
  induction l as [ | x l IH]; [reflexivity | ].
  cbn [map List.filter]. destruct (p (f x)); cbn [map]; now rewrite IH.
Qed.

(** In a zone with a fixed offset, the bucket of the key of a local
    midnight holds the rows of that day. *)
Lemma filter_onDay (k : Z) (table : list Stored) (day : Z) :
  - msPerDay < k < msPerDay ->
  validDay day -> Forall (fun s => validDay (st_date s)) table ->
  List.filter (onDay (isoDay (day + utcDayShift k)))
    (map (driverRow (fixedZone k)) table)
  = map (driverRow (fixedZone k)) (storedOn day table).
Proof.
  intros Hk Hday Htable. rewrite filter_map_commute. f_equal.
  apply List.filter_ext_in. intros s Hs.
  rewrite Forall_forall in Htable.
  assert (Hv : validDay (st_date s)).
  { apply Htable. now apply list_elem_of_In. }
  unfold onDay. rewrite key_of_driverRow by exact Hk.
  pose proof (utcDayShift_range k) as Hr. unfold validDay in *.
  destruct (String.eqb_spec (isoDay (st_date s + utcDayShift k))
              (isoDay (day + utcDayShift k))) as [E | E],
    (Z.eqb_spec (st_date s) day) as [E' | E']; try reflexivity.
  - exfalso. apply E'. apply isoDay_inj in E; lia.
  - exfalso. apply E. now rewrite E'.
Qed.

Lemma range_lookup (from : Z) (n i : nat) :
  (i < n)%nat -> range from n !! i = Some (from + Z.of_nat i).
Proof.
  intros Hi. unfold range. rewrite list_lookup_fmap, lookup_seq_lt by exact Hi.
  reflexivity.
Qed.

Lemma range_length (from : Z) (n : nat) : length (range from n) = n.
Proof. unfold range. now rewrite length_map, length_seq. Qed.
(** *** Local midnights in a zone with a fixed offset *)

Lemma newDate_driverDate (k year month date : Z) :
  100 <= year ->
  newDate (fixedZone k) year month date
  = driverDate (fixedZone k) (MakeDay year month date).
Proof. intros Hy. now rewrite newDate_fixed, driverDate_fixed. Qed.

Lemma setDate_driverDate (k d j : Z) :
  setDate (fixedZone k) (driverDate (fixedZone k) d)
    (getDate (fixedZone k) (driverDate (fixedZone k) d) + j)
  = driverDate (fixedZone k) (d + j).
Proof. rewrite setDate_shift, !driverDate_fixed. lia. Qed.

Lemma local_day_driverDate (k d : Z) :
  Day (LocalTime (fixedZone k) (driverDate (fixedZone k) d)) = d.
Proof.
  rewrite driverDate_fixed.
  replace (d * msPerDay - k) with (d * msPerDay - k + 0 * msPerDay) by lia.
  rewrite local_day. lia.
Qed.

Lemma getDate_driverDate (k d : Z) :
  getDate (fixedZone k) (driverDate (fixedZone k) d) = DateFromDay d.
Proof. unfold getDate, DateFromTime. now rewrite local_day_driverDate. Qed.

Lemma getMonth_driverDate (k d : Z) :
  getMonth (fixedZone k) (driverDate (fixedZone k) d) = MonthFromDay d.
Proof. unfold getMonth, MonthFromTime. now rewrite local_day_driverDate. Qed.

Lemma getDay_driverDate (k d : Z) :
  getDay (fixedZone k) (driverDate (fixedZone k) d) = WeekDayFromDay d.
Proof. unfold getDay, WeekDay. now rewrite local_day_driverDate. Qed.

Lemma isoDate_driverDate (k d : Z) :
  - msPerDay < k < msPerDay ->
  isoDate (driverDate (fixedZone k) d) = isoDay (d + utcDayShift k).
Proof.
  intros Hk. unfold isoDate. now rewrite driverDate_fixed, Day_local_midnight.
Qed.

(** *** The monthly grid *)

Lemma concat_length_uniform (A : Type) (n : nat) (l : list (list A)) :
  Forall (fun row => length row = n) l ->
  length (concat l) = (length l * n)%nat.
Proof.
  induction 1 as [ | row l Hrow _ IH]; [reflexivity | ].
  cbn [concat length]. rewrite length_app, Hrow, IH. lia.
Qed.

Lemma firstDay_valid (year month : Z) :
  100 <= year <= 275000 -> 1 <= month <= 12 ->
  - 99999000 <= MakeDay year (month - 1) 1 <= 99999000.
Proof.
  intros Hy Hm. unfold MakeDay.
  rewrite Z.div_small, Z.mod_small, Z.add_0_r by lia.
  pose proof (DayFromYear_mean year).
  pose proof (monthStart_range (if isLeapYear year then 1 else 0) (month - 1)
                ltac:(destruct (isLeapYear year); lia) ltac:(lia)).
  lia.
Qed.

Lemma range_In (from : Z) (n : nat) (k : Z) :
  In k (range from n) <-> from <= k < from + Z.of_nat n.
Proof.
  unfold range. rewrite in_map_iff. split.
  - intros (i & <- & Hi). apply in_seq in Hi. lia.
  - intros Hk. exists (Z.to_nat (k - from)). split; [lia | ].
    apply in_seq. lia.
Qed.

Lemma range_NoDup (from : Z) (n : nat) : List.NoDup (range from n).
Proof.
  unfold range. apply Finite.Injective_map_NoDup; [ | apply seq_NoDup].
  intros i j H. lia.
Qed.

(** In a zone with a fixed offset, the grid of a month is made of the
    cells of the 42 days from the Sunday on or before the first of the
    month. *)
Lemma monthly_weeks (k : Z) (now : Date) (year month : Z)
    (table : list Stored) :
  - msPerDay < k < msPerDay ->
  100 <= year <= 275000 -> 1 <= month <= 12 ->
  Forall (fun s => validDay (st_date s)) table ->
  let first := MakeDay year (month - 1) 1 in
  let start := first - WeekDayFromDay first in
  weeks (generateMonthlyCalendar (fixedZone k) now year month
           (map (driverRow (fixedZone k)) table))
  = map (fun week =>
           map (fun day => cellOf k now month table (start + (week * 7 + day)))
             (range 0 7))
      (range 0 6).
Proof.
  intros Hk Hy Hm Htable first start.
  pose proof (WeekDay_range first) as Hwd.
  pose proof (firstDay_valid year month Hy Hm) as Hfirst. fold first in Hfirst.
  unfold generateMonthlyCalendar. cbn [weeks].
  rewrite newDate_driverDate by lia. fold first.
  rewrite getDay_driverDate.
  replace (getDate (fixedZone k) (driverDate (fixedZone k) first)
           - WeekDayFromDay first)
    with (getDate (fixedZone k) (driverDate (fixedZone k) first)
          + - WeekDayFromDay first) by lia.
  rewrite setDate_driverDate.
  replace (first + - WeekDayFromDay first) with start by (unfold start; lia).
  apply map_ext_in. intros w Hw. apply range_In in Hw.
  apply map_ext_in. intros d Hd. apply range_In in Hd.
  replace (getDate (fixedZone k) (driverDate (fixedZone k) start) + w * 7 + d)
    with (getDate (fixedZone k) (driverDate (fixedZone k) start) + (w * 7 + d))
    by lia.
  rewrite setDate_driverDate. unfold cellOf, sameDateString.
  rewrite getDate_driverDate, getMonth_driverDate, local_day_driverDate,
    isoDate_driverDate by exact Hk.
  f_equal. rewrite groupByDate_lookup. apply filter_onDay; [exact Hk | | exact Htable].
  unfold validDay, start. lia.
Qed.

(** X23: the monthly grid in a zone with a fixed offset of less than a
    day.  For a month 1..12 of a year that [new Date] takes as written
    (100 to 275000) and the rows of a table as the driver delivers them,
    the grid has 6 rows of 7 cells; the first cell is the Sunday on or
    before the 1st of the month, cell [d] of row [w] is the day
    [7 w + d] days later; a cell is flagged [isCurrentMonth] exactly when
    its day lies in the month asked for, and holds exactly the rows of
    its day, in input order.  Its [fullDate] is the text of its day in
    the zones that are not ahead of UTC, and of the day before in the
    zones that are. *)
Theorem monthly_grid_fixed_zone (k : Z) (now : Date) (year month : Z)
    (table : list Stored) :
  - msPerDay < k < msPerDay ->
  100 <= year <= 275000 -> 1 <= month <= 12 ->
  Forall (fun s => validDay (st_date s)) table ->
  let z := fixedZone k in
  let cal := generateMonthlyCalendar z now year month (map (driverRow z) table) in
  let first := MakeDay year (month - 1) 1 in
  let start := first - WeekDayFromDay first in
  length (weeks cal) = 6%nat
  /\ Forall (fun week => length week = 7%nat) (weeks cal)
  /\ length (concat (weeks cal)) = 42%nat
  /\ (YearFromDay first = year /\ MonthFromDay first = month - 1
      /\ DateFromDay first = 1)
  /\ (WeekDayFromDay start = 0 /\ first - 6 <= start <= first)
  /\ forall w d : nat, (w < 6)%nat -> (d < 7)%nat ->
       exists (week : list Cell) (c : Cell),
         weeks cal !! w = Some week /\ week !! d = Some c
         /\ let day := start + 7 * Z.of_nat w + Z.of_nat d in
            date c = DateFromDay day
            /\ fullDate c = isoDay (day + utcDayShift k)
            /\ (0 < k -> fullDate c = isoDay (day - 1))
            /\ (k <= 0 -> fullDate c = isoDay day)
            /\ (isCurrentMonth c = true
                <-> YearFromDay day = year /\ MonthFromDay day = month - 1)
            /\ sessions c = map (driverRow z) (storedOn day table).
Proof.
  intros Hk Hy Hm Htable z cal first start.
  destruct (MakeDay_first year (month - 1) ltac:(lia)) as (Fy & Fm & Fd).
  fold first in Fy, Fm, Fd.
  pose proof (WeekDay_range first) as Hwd.
  unfold cal, z. rewrite (monthly_weeks k now year month table Hk Hy Hm Htable).
  fold first. fold start.
  set (grid := map _ (range 0 6)).
  assert (Hrows6 : length grid = 6%nat).
  { unfold grid. now rewrite length_map, range_length. }
  assert (Hcells7 : Forall (fun week => length week = 7%nat) grid).
  { unfold grid. apply Forall_forall. intros week Hin.
    apply list_elem_of_fmap in Hin. destruct Hin as (w & -> & _).
    now rewrite length_map, range_length. }
  split; [exact Hrows6 | split; [exact Hcells7 | split; [ | split; [ | split]]]].
  - now rewrite (concat_length_uniform _ 7 _ Hcells7), Hrows6.
  - repeat split; assumption.
  - split; [apply WeekDay_sunday_before | unfold start; lia].
  - intros w d Hw Hd. unfold grid.
    eexists _, _. split; [ | split].
    + rewrite list_lookup_fmap, (range_lookup 0 6 w Hw). reflexivity.
    + rewrite list_lookup_fmap, (range_lookup 0 7 d Hd). reflexivity.
    + cbn zeta.
      replace (start + ((0 + Z.of_nat w) * 7 + (0 + Z.of_nat d)))
        with (start + 7 * Z.of_nat w + Z.of_nat d) by lia.
      set (day := start + 7 * Z.of_nat w + Z.of_nat d).
      assert (Hday : first - 6 <= day <= first + 41) by (unfold day, start; lia).
      cbn [cellOf date fullDate isCurrentMonth sessions].
      split; [reflexivity | split; [reflexivity | split; [ | split; [ | split]]]].
      * intros Hpos. unfold utcDayShift.
        destruct (Z.ltb_spec 0 k); [f_equal; lia | lia].
      * intros Hneg. unfold utcDayShift.
        destruct (Z.ltb_spec 0 k); [lia | f_equal; lia].
      * rewrite Z.eqb_eq. split; [ | tauto].
        intros Hmonth. split; [ | exact Hmonth].
        rewrite <- Fy. apply same_month_same_year; [congruence | lia].
      * reflexivity.
Qed.

Lemma monthly_grid_fixed_zone_witness :
  length
    (weeks (generateMonthlyCalendar (fixedZone (- 5 * msPerHour)) 0 2024 2
              (map (driverRow (fixedZone (- 5 * msPerHour)))
                 Samples.calendarTable)))
  = 6%nat.
Proof.
  assert (Htable : Forall (fun s => validDay (st_date s)) Samples.calendarTable).
  { repeat constructor; cbn; lia. }
  destruct (monthly_grid_fixed_zone (- 5 * msPerHour) 0 2024 2
              Samples.calendarTable
              ltac:(vm_compute; split; reflexivity) ltac:(lia) ltac:(lia) Htable)
    as [H _].
  exact H.
Defined.

(** February 2024 starts on a Thursday: in UTC the grid runs from Sunday
    28 January, and the two sessions of 1 February are in the fifth
    cell. *)
Example monthly_grid_feb_2024 :
  map (fun c => (fullDate c, isCurrentMonth c, map row_id (sessions c)))
    (default []
       (weeks (generateMonthlyCalendar utc 0 2024 2
                 (map (driverRow utc) Samples.calendarTable))
          !! 0%nat))
  = [ ("2024-01-28", false, []); ("2024-01-29", false, []);
      ("2024-01-30", false, []); ("2024-01-31", false, []);
      ("2024-02-01", true, [Samples.idA; Samples.idB]);
      ("2024-02-02", true, []); ("2024-02-03", true, []) ]%string.
Proof. vm_compute. reflexivity. Qed.

(** C4, where the code departs from it.  In Europe/London, in the grid
    of March 2024, the cell of Sunday 31 March (the day the clocks go
    forward) and the cell of Monday 1 April (in the last row, the first
    and the second cell) have the same [fullDate], 2024-03-31, and each
    of them holds both the session of 31 March and the session of
    1 April; the grid still has 6 rows of 7 cells.  In the summer every
    cell carries the date of the day before: in the grid of July 2024
    the cell of 1 July is 2024-06-30. *)
Theorem monthly_grid_spring_forward (now : Date) :
  let z := europeLondon in
  let cal :=
    generateMonthlyCalendar z now 2024 3
      (map (driverRow z) Samples.springTable) in
  map (fun s => isoDay (st_date s)) Samples.springTable
  = ["2024-03-31"; "2024-04-01"]%string
  /\ map (fun week => length week) (weeks cal) = [7; 7; 7; 7; 7; 7]%nat
  /\ map (fun c => (date c, fullDate c, isCurrentMonth c,
                    map row_id (sessions c)))
       (firstn 2 (default [] (weeks cal !! 5%nat)))
     = [ (31, "2024-03-31"%string, true, [Samples.idA; Samples.idB]);
         (1, "2024-03-31"%string, false, [Samples.idA; Samples.idB]) ]
  /\ map (fun c => (date c, fullDate c, isCurrentMonth c))
       (firstn 3
          (default []
             (weeks (generateMonthlyCalendar z now 2024 7 []) !! 0%nat)))
     = [ (30, "2024-06-29"%string, false); (1, "2024-06-30"%string, true);
         (2, "2024-07-01"%string, true) ].
Proof. cbv zeta. repeat split; vm_compute; reflexivity. Qed.

(** The same grid in UTC: each of the two sessions is in the cell of
    its day. *)
Example monthly_grid_march_utc :
  map (fun c => (date c, fullDate c, map row_id (sessions c)))
    (firstn 2
       (default []
          (weeks (generateMonthlyCalendar utc 0 2024 3
                    (map (driverRow utc) Samples.springTable))
             !! 5%nat)))
  = [ (31, "2024-03-31"%string, [Samples.idA]);
      (1, "2024-04-01"%string, [Samples.idB]) ].
Proof. vm_compute. reflexivity. Qed.

(** *** The weekly time slots *)

(** C9: whatever the zone, the week and the sessions, the time slots of
    the weekly grid are the 19 half-hour labels from 09:00 to 18:00, in
    ascending order, with nothing after 18:00. *)
Theorem weekly_time_slots (z : Zone) (today startDate : Date)
    (rows : list Row) :
  timeSlots (generateWeeklyCalendar z today startDate rows)
  = [ "09:00"; "09:30"; "10:00"; "10:30"; "11:00"; "11:30"; "12:00";
      "12:30"; "13:00"; "13:30"; "14:00"; "14:30"; "15:00"; "15:30";
      "16:00"; "16:30"; "17:00"; "17:30"; "18:00" ]%string
  /\ length (timeSlots (generateWeeklyCalendar z today startDate rows))
     = 19%nat.
Proof.
  cbn [timeSlots generateWeeklyCalendar]. split; vm_compute; reflexivity.
Qed.

(** *** Navigation *)

Lemma truthy_parsed (x : string) (t : Date) :
  parseISO x = Some t -> truthy (Some x) = Some x.
Proof. destruct x; [discriminate | reflexivity]. Qed.

Lemma isoDate_shift (t : Date) (j : Z) :
  isoDate (t + j * msPerDay) = isoDay (Day t + j).
Proof. unfold isoDate. now rewrite Day_shift. Qed.

(** X24: navigation in a zone with a fixed offset.  The anchors are
    computed from the view and the anchor alone.  Monthly (in any zone):
    after month 12 comes month 1 of the next year, before month 1 comes
    month 12 of the year before, any other month moves by one within the
    year.  Weekly: the anchors are the ISO dates of the days 7 before and
    7 after the day of the anchor.  Daily: of the days 1 before and 1
    after. *)
Theorem navigation_fixed_zone (k : Z) :
  (forall (z : Zone) (year month : Z) (week date : option string),
      exists nav : Nav,
        generateNavigation z "monthly" year month week date = Some nav
        /\ current nav = Some (YearMonth year month)
        /\ (month = 12 -> next nav = Some (YearMonth (year + 1) 1))
        /\ (month <> 12 -> next nav = Some (YearMonth year (month + 1)))
        /\ (month = 1 -> prev nav = Some (YearMonth (year - 1) 12))
        /\ (month <> 1 -> prev nav = Some (YearMonth year (month - 1))))
  /\ (forall (year month : Z) (week : string) (date : option string)
             (t : Date),
        parseISO week = Some t ->
        exists nav : Nav,
          generateNavigation (fixedZone k) "weekly" year month (Some week) date
          = Some nav
          /\ current nav = Some (Week week)
          /\ prev nav = Some (Week (isoDay (Day t - 7)))
          /\ next nav = Some (Week (isoDay (Day t + 7))))
  /\ (forall (year month : Z) (week : option string) (date : string)
             (t : Date),
        parseISO date = Some t ->
        exists nav : Nav,
          generateNavigation (fixedZone k) "daily" year month week (Some date)
          = Some nav
          /\ current nav = Some (OneDay date)
          /\ prev nav = Some (OneDay (isoDay (Day t - 1)))
          /\ next nav = Some (OneDay (isoDay (Day t + 1)))).
Proof.
  split; [ | split].
  - intros z year month week date. unfold generateNavigation.
    cbn [String.eqb Ascii.eqb Bool.eqb]. eexists. split; [reflexivity | ].
    cbn [current next prev].
    destruct (Z.eqb_spec month 12), (Z.eqb_spec month 1);
      repeat split; intros; (congruence || lia || reflexivity).
  - intros year month week date t Ht. unfold generateNavigation.
    change (String.eqb "weekly" "monthly") with false.
    change (String.eqb "weekly" "weekly") with true.
    rewrite (truthy_parsed week t Ht), Ht. cbn iota.
    eexists. split; [reflexivity | ]. cbn [current next prev].
    replace (getDate (fixedZone k) t - 7)
      with (getDate (fixedZone k) t + - 7) by lia.
    rewrite !setDate_shift, !isoDate_shift. repeat split.
  - intros year month week date t Ht. unfold generateNavigation.
    change (String.eqb "daily" "monthly") with false.
    change (String.eqb "daily" "weekly") with false.
    change (String.eqb "daily" "daily") with true.
    rewrite (truthy_parsed date t Ht), Ht. cbn iota.
    destruct (truthy week); (eexists; split; [reflexivity | ]);
      cbn [current next prev];
      replace (getDate (fixedZone k) t - 1)
        with (getDate (fixedZone k) t + - 1) by lia;
      rewrite !setDate_shift, !isoDate_shift; repeat split.
Qed.

Lemma navigation_fixed_zone_witness :
  exists nav : Nav,
    generateNavigation (fixedZone (- 5 * msPerHour)) "weekly" 2024 3
      (Some "2024-03-03"%string) None
    = Some nav
    /\ current nav = Some (Week "2024-03-03")
    /\ prev nav = Some (Week (isoDay (Day (MakeDate 19785 0) - 7)))
    /\ next nav = Some (Week (isoDay (Day (MakeDate 19785 0) + 7))).
Proof.
  destruct (navigation_fixed_zone (- 5 * msPerHour)) as (_ & Hweekly & _).
  apply (Hweekly 2024 3 "2024-03-03"%string None (MakeDate 19785 0)).
  reflexivity.
Defined.

(** The month rollovers of the specification. *)
Example navigation_rollover (z : Zone) :
  option_map next (generateNavigation z "monthly" 2024 12 None None)
  = Some (Some (YearMonth 2025 1))
  /\ option_map prev (generateNavigation z "monthly" 2024 1 None None)
     = Some (Some (YearMonth 2023 12)).
Proof. split; reflexivity. Qed.

(** C5, where the code departs from it.  In Europe/London the daily
    view of Sunday 31 March 2024 (the day the clocks go forward) links
    to 2024-03-31 itself as the next day, and the weekly view of the week
    of 25 March links to 2024-03-31, six days later, as the next week;
    the previous links are one day and seven days back. *)
Theorem navigation_spring_forward :
  generateNavigation europeLondon "daily" 2024 3 None
    (Some "2024-03-31"%string)
  = Some {| view := "daily";
            prev := Some (OneDay "2024-03-30");
            next := Some (OneDay "2024-03-31");
            current := Some (OneDay "2024-03-31") |}
  /\ generateNavigation europeLondon "weekly" 2024 3
       (Some "2024-03-25"%string) None
     = Some {| view := "weekly";
               prev := Some (Week "2024-03-18");
               next := Some (Week "2024-03-31");
               current := Some (Week "2024-03-25") |}.
Proof. split; vm_compute; reflexivity. Qed.

(** The same links in UTC. *)
Example navigation_utc :
  generateNavigation utc "daily" 2024 3 None (Some "2024-03-31"%string)
  = Some {| view := "daily";
            prev := Some (OneDay "2024-03-30");
            next := Some (OneDay "2024-04-01");
            current := Some (OneDay "2024-03-31") |}
  /\ generateNavigation utc "weekly" 2024 3 (Some "2024-03-25"%string) None
     = Some {| view := "weekly";
               prev := Some (Week "2024-03-18");
               next := Some (Week "2024-04-01");
               current := Some (Week "2024-03-25") |}.
Proof. split; vm_compute; reflexivity. Qed.

(** *** The date ranges of the route *)


Lemma monthlyRange_first_last (k year month : Z) :
  - msPerDay < k < msPerDay ->
  100 <= year -> 1 <= month <= 12 ->
  let first := MakeDay year (month - 1) 1 in
  let last := MakeDay year month 0 in
  monthlyRange (fixedZone k) year month
  = (isoDay (first + utcDayShift k), isoDay (last + utcDayShift k))
  /\ (k <= 0 ->
      monthlyRange (fixedZone k) year month = (isoDay first, isoDay last)).
Proof.
  intros Hk Hy Hm first last.
  assert (E : monthlyRange (fixedZone k) year month
              = (isoDay (first + utcDayShift k), isoDay (last + utcDayShift k))).
  { unfold monthlyRange. rewrite !newDate_driverDate by exact Hy.
    now rewrite !isoDate_driverDate by exact Hk. }
  split; [exact E | ].
  intros Hneg. rewrite E. unfold utcDayShift.
  destruct (Z.ltb_spec 0 k); [lia | ]. now rewrite !Z.add_0_r.
Qed.

(** X8: in a zone with a fixed offset, for a month 1..12 of the years
    100 to 275000, the two dates that the monthly view asks the database
    for are the first and the last day of the month (exactly the days of
    that month of that year, December included) when the zone is not
    ahead of UTC, and the days before them when it is. *)
Theorem monthlyRange_is_the_month (k year month : Z) :
  - msPerDay < k < msPerDay ->
  100 <= year <= 275000 -> 1 <= month <= 12 ->
  let first := MakeDay year (month - 1) 1 in
  let last := MakeDay year month 0 in
  (k <= 0 ->
   monthlyRange (fixedZone k) year month = (isoDay first, isoDay last))
  /\ (0 < k ->
      monthlyRange (fixedZone k) year month
      = (isoDay (first - 1), isoDay (last - 1)))
  /\ forall d : Z,
       first <= d <= last <-> YearFromDay d = year /\ MonthFromDay d = month - 1.
Proof.
  intros Hk Hy Hm first last.
  destruct (monthlyRange_first_last k year month Hk ltac:(lia) Hm) as [E E0].
  fold first last in E, E0.
  split; [exact E0 | split].
  - intros Hpos. rewrite E. unfold utcDayShift.
    destruct (Z.ltb_spec 0 k); [reflexivity | lia].
  - intros d. unfold first, last.
    replace month with (month - 1 + 1) at 2 by lia.
    apply month_days. lia.
Qed.

Lemma monthlyRange_is_the_month_witness :
  monthlyRange utc 2024 12 = ("2024-12-01", "2024-12-31")%string
  /\ (MakeDay 2024 (12 - 1) 1 <= 20088 <= MakeDay 2024 12 0
      <-> YearFromDay 20088 = 2024 /\ MonthFromDay 20088 = 12 - 1).
Proof.
  destruct (monthlyRange_is_the_month 0 2024 12
              ltac:(vm_compute; split; reflexivity) ltac:(lia) ltac:(lia))
    as (H & _ & Hd).
  split; [apply H; lia | apply Hd].
Defined.

(** In Europe/London the view of July 2024 asks for 30 June to
    30 July. *)
Example monthlyRange_summer :
  monthlyRange europeLondon 2024 7 = ("2024-06-30", "2024-07-30")%string.
Proof. vm_compute. reflexivity. Qed.

(** *** Reading and writing ISO dates *)

Lemma digitChar_isDigit (n : Z) : Text.isDigit (digitChar n) = true.
Proof.
  unfold Text.isDigit, Text.inRange. rewrite digitChar_code.
  pose proof (Z.mod_pos_bound n 10 ltac:(lia)).
  apply andb_true_iff. split; apply Z.leb_le; lia.
Qed.

Lemma digitChar_digitVal (n : Z) : Text.digitVal (digitChar n) = n mod 10.
Proof. unfold Text.digitVal. rewrite digitChar_code. lia. Qed.

Lemma daysInMonth_monthStart (y m : Z) :
  0 <= m <= 11 ->
  let l := if isLeapYear y then 1 else 0 in
  Text.daysInMonth y (m + 1) = monthStart l (m + 1) - monthStart l m.
Proof.
  intros Hm l. unfold l, Text.daysInMonth.
  each_month m; destruct (isLeapYear y); reflexivity.
Qed.

Lemma DateFromDay_daysInMonth (t : Z) :
  DateFromDay t <= Text.daysInMonth (YearFromDay t) (MonthFromDay t + 1).
Proof.
  rewrite daysInMonth_monthStart by apply MonthFromDay_range.
  pose proof (MonthFromDay_window t) as Hw.
  unfold DateFromDay. unfold InLeapYear in *. lia.
Qed.

Lemma daysInMonth_range (y m : Z) : 28 <= Text.daysInMonth y m <= 31.
Proof.
  unfold Text.daysInMonth.
  destruct (m =? 2); [destruct (isLeapYear y); lia | ].
  destruct (_ || _); lia.
Qed.

Lemma year_0_to_9999 (t : Z) :
  fourDigitYear t -> 0 <= YearFromDay t <= 9999.
Proof.
  unfold fourDigitYear.
  intros Ht. pose proof (YearFromDay_spec t) as Hs.
  assert (H0 : DayFromYear 0 = - 719528) by reflexivity.
  assert (H1 : DayFromYear 10000 = 2932897) by reflexivity.
  split.
  - destruct (Z.le_gt_cases 0 (YearFromDay t)) as [H | H]; [exact H | ].
    assert (Hle : YearFromDay t + 1 <= 0) by lia.
    pose proof (DayFromYear_le _ _ Hle). lia.
  - destruct (Z.le_gt_cases (YearFromDay t) 9999) as [H | H]; [exact H | ].
    assert (Hle : 10000 <= YearFromDay t) by lia.
    pose proof (DayFromYear_le _ _ Hle). lia.
Qed.

(** The fields that are read from the text of a day of the years 0 to
    9999 are those of the day. *)
Lemma dateFields_isoDay (t : Z) :
  fourDigitYear t ->
  dateFields (isoDay t)
  = Some (YearFromDay t, MonthFromDay t + 1, DateFromDay t).
Proof.
  intros Ht. pose proof (year_0_to_9999 t Ht) as Hy.
  pose proof (MonthFromDay_range t) as Hm.
  pose proof (DateFromDay_range t) as Hd.
  unfold isoDay, isoYear.
  replace ((0 <=? YearFromDay t) && (YearFromDay t <=? 9999)) with true
    by (symmetry; apply andb_true_iff; split; apply Z.leb_le; lia).
  cbn [padDigits]. unfold dateFields.
  cbv beta iota fix delta [String.append]. cbn [forallb].
  rewrite !digitChar_isDigit, !digitChar_digitVal. cbn [andb Ascii.eqb Bool.eqb].
  change (10 ^ Z.of_nat 3) with 1000. change (10 ^ Z.of_nat 2) with 100.
  change (10 ^ Z.of_nat 1) with 10. change (10 ^ Z.of_nat 0) with 1.
  set (y := YearFromDay t) in *. set (m := MonthFromDay t) in *.
  set (a := DateFromDay t) in *.
  assert (Ey : ((y / 1000 mod 10 * 10 + y / 100 mod 10) * 10 + y / 10 mod 10) * 10
               + y / 1 mod 10 = y) by (Z.div_mod_to_equations; lia).
  assert (Em : (m + 1) / 10 mod 10 * 10 + (m + 1) / 1 mod 10 = m + 1)
    by (Z.div_mod_to_equations; lia).
  assert (Ea : a / 10 mod 10 * 10 + a / 1 mod 10 = a)
    by (Z.div_mod_to_equations; lia).
  now rewrite Ey, Em, Ea.
Qed.

(** The text of a day of the years 0 to 9999 is cast to that day. *)
Lemma parseDay_isoDay (t : Z) :
  fourDigitYear t -> parseDay (isoDay t) = Some t.
Proof.
  intros Ht. unfold parseDay. rewrite dateFields_isoDay by exact Ht.
  pose proof (MonthFromDay_range t) as Hm.
  pose proof (DateFromDay_range t) as Hd.
  pose proof (DateFromDay_daysInMonth t) as Hdm.
  replace ((1 <=? MonthFromDay t + 1) && (MonthFromDay t + 1 <=? 12)
           && (1 <=? DateFromDay t)
           && (DateFromDay t
               <=? Text.daysInMonth (YearFromDay t) (MonthFromDay t + 1)))
    with true.
  - f_equal. replace (MonthFromDay t + 1 - 1) with (MonthFromDay t) by lia.
    rewrite MakeDay_fields. lia.
  - symmetry. rewrite !andb_true_iff, !Z.leb_le. lia.
Qed.

(** And [new Date] reads it as the UTC midnight of that day. *)
Lemma parseISO_isoDay (t : Z) :
  fourDigitYear t -> parseISO (isoDay t) = Some (MakeDate t 0).
Proof.
  intros Ht. unfold parseISO. rewrite dateFields_isoDay by exact Ht.
  pose proof (MonthFromDay_range t) as Hm.
  pose proof (DateFromDay_range t) as Hd.
  replace ((1 <=? MonthFromDay t + 1) && (MonthFromDay t + 1 <=? 12)
           && (1 <=? DateFromDay t) && (DateFromDay t <=? 31))
    with true.
  - do 2 f_equal. replace (MonthFromDay t + 1 - 1) with (MonthFromDay t) by lia.
    rewrite MakeDay_fields. lia.
  - symmetry. rewrite !andb_true_iff, !Z.leb_le. lia.
Qed.

Lemma Day_MakeDate_midnight (d : Z) : Day (MakeDate d 0) = d.
Proof. apply Day_MakeDate. rewrite msPerDay_value. lia. Qed.

(** A time value that [new Date] reads from a date text is a UTC
    midnight. *)
Lemma parseISO_midnight (s : string) (t : Date) :
  parseISO s = Some t -> t = MakeDate (Day t) 0.
Proof.
  unfold parseISO. destruct (dateFields s) as [[[y m] a] | ]; [ | discriminate].
  destruct (_ && _); [ | discriminate]. intros H. injection H as <-.
  now rewrite Day_MakeDate_midnight.
Qed.

(** [new Date] carries a day that the month does not have into the next
    month, where the database refuses the text. *)
Example parseISO_february_30 :
  option_map isoDate (parseISO "2024-02-30") = Some "2024-03-01"%string
  /\ parseDay "2024-02-30" = None
  /\ parseISO "2024-02-32" = None.
Proof. repeat split; reflexivity. Qed.

Lemma fourDigitYear_valid (d : Z) : fourDigitYear d -> validDay d.
Proof. unfold fourDigitYear, validDay. lia. Qed.

(** X9: in a zone with a fixed offset, [formatDateInput] turns a stored
    date of the years 0 to 9999, as the driver delivers it, into the
    text of that day when the zone is not ahead of UTC and into the text
    of the day before when it is; [new Date] reads the text back as the
    UTC midnight of the day it names, and formatting the text again gives
    the same text. *)
Theorem formatDateInput_roundtrip (k d : Z) :
  - msPerDay < k < msPerDay ->
  fourDigitYear (d - 1) -> fourDigitYear d ->
  exists text : string,
    Helpers.formatDateInput
      (Helpers.DateValue (driverDate (fixedZone k) d)) = Some text
    /\ (k <= 0 -> text = isoDay d)
    /\ (0 < k -> text = isoDay (d - 1))
    /\ parseISO text = Some (MakeDate (d + utcDayShift k) 0)
    /\ Helpers.formatDateInput (Helpers.DateText text) = Some text.
Proof.
  intros Hk Hd1 Hd. exists (isoDay (d + utcDayShift k)).
  assert (Hs : fourDigitYear (d + utcDayShift k)).
  { unfold utcDayShift. destruct (0 <? k).
    - replace (d + - 1) with (d - 1) by lia. exact Hd1.
    - now rewrite Z.add_0_r. }
  pose proof (parseISO_isoDay _ Hs) as Hp.
  split; [ | split; [ | split; [ | split]]].
  - unfold Helpers.formatDateInput. now rewrite isoDate_driverDate.
  - intros Hneg. unfold utcDayShift.
    destruct (Z.ltb_spec 0 k); [lia | ]. now rewrite Z.add_0_r.
  - intros Hpos. unfold utcDayShift.
    destruct (Z.ltb_spec 0 k); [reflexivity | lia].
  - exact Hp.
  - unfold Helpers.formatDateInput.
    destruct (isoDay (d + utcDayShift k)) as [ | c rest] eqn:E;
      [discriminate Hp | ].
    rewrite Hp. cbn [option_map]. unfold isoDate.
    now rewrite Day_MakeDate_midnight, E.
Qed.

Lemma formatDateInput_roundtrip_witness :
  exists text : string,
    Helpers.formatDateInput
      (Helpers.DateValue (driverDate (fixedZone msPerHour) 19754)) = Some text
    /\ (msPerHour <= 0 -> text = isoDay 19754)
    /\ (0 < msPerHour -> text = isoDay (19754 - 1))
    /\ parseISO text = Some (MakeDate (19754 + utcDayShift msPerHour) 0)
    /\ Helpers.formatDateInput (Helpers.DateText text) = Some text.
Proof.
  apply (formatDateInput_roundtrip msPerHour 19754);
    vm_compute; split; (reflexivity || discriminate).
Defined.

(** A session of 1 February 2024 is shown in its form as 2024-01-31 when
    the process runs one hour ahead of UTC, and in Europe/London one of
    1 July 2024 as 2024-06-30. *)
Example formatDateInput_east :
  Helpers.formatDateInput
    (Helpers.DateValue (driverDate (fixedZone msPerHour) 19754))
  = Some "2024-01-31"%string
  /\ Helpers.formatDateInput
       (Helpers.DateValue (driverDate europeLondon (MakeDay 2024 6 1)))
     = Some "2024-06-30"%string
  /\ Helpers.formatDateInput (Helpers.DateValue (driverDate utc 19754))
     = Some "2024-02-01"%string.
Proof. repeat split; vm_compute; reflexivity. Qed.

(** X10: in a zone with a fixed offset, for a month 1..12 of the years
    100 to 275000, [getWeekStart(year, month)] is the [fullDate] of the
    first cell of the monthly grid of that month.  Up to the year 9999
    and with an offset of less than a day it names the Sunday on or
    before the first of the month when the zone is not ahead of UTC, and
    the Saturday before that Sunday when it is. *)
Theorem getWeekStart_first_cell (k : Z) (now : Date) (year month : Z)
    (rows : list Row) :
  100 <= year <= 275000 -> 1 <= month <= 12 ->
  (exists (week : list Cell) (c : Cell),
      weeks (generateMonthlyCalendar (fixedZone k) now year month rows)
        !! 0%nat = Some week
      /\ week !! 0%nat = Some c
      /\ fullDate c = Helpers.getWeekStart (fixedZone k) year month)
  /\ (- msPerDay < k < msPerDay -> year <= 9999 ->
      exists w : Z,
        parseDay (Helpers.getWeekStart (fixedZone k) year month) = Some w
        /\ (k <= 0 ->
            WeekDayFromDay w = 0
            /\ w <= MakeDay year (month - 1) 1 <= w + 6)
        /\ (0 < k ->
            WeekDayFromDay w = 6
            /\ w + 1 <= MakeDay year (month - 1) 1 <= w + 7)).
Proof.
  intros Hy Hm. split.
  - eexists _, _. unfold generateMonthlyCalendar. cbn [weeks].
    split; [reflexivity | split; [reflexivity | ]].
    cbn [fullDate]. unfold Helpers.getWeekStart. cbn zeta.
    set (first := newDate (fixedZone k) year (month - 1) 1).
    set (start := setDate (fixedZone k) first
                    (getDate (fixedZone k) first - getDay (fixedZone k) first)).
    match goal with
    | |- context [setDate (fixedZone k) start ?e] =>
        replace e with (getDate (fixedZone k) start + 0) by lia
    end.
    rewrite (setDate_shift _ _ 0). f_equal. lia.
  - intros Hk Hy'. unfold Helpers.getWeekStart. cbn zeta.
    rewrite newDate_driverDate by lia.
    set (first := MakeDay year (month - 1) 1).
    rewrite getDay_driverDate.
    replace (getDate (fixedZone k) (driverDate (fixedZone k) first)
             - WeekDayFromDay first)
      with (getDate (fixedZone k) (driverDate (fixedZone k) first)
            + - WeekDayFromDay first) by lia.
    rewrite setDate_driverDate, isoDate_driverDate by exact Hk.
    pose proof (WeekDay_range first) as Hwd.
    pose proof (WeekDay_sunday_before first) as Hsun.
    assert (Hfirst : - 719528 + 7 <= first <= 2932896).
    { unfold first. rewrite MakeDay_in_year by lia.
      pose proof (DayFromYear_le 100 year ltac:(lia)).
      pose proof (DayFromYear_le (year + 1) 10000 ltac:(lia)).
      rewrite DayFromYear_step in *. unfold DaysInYear in *.
      assert (H100 : DayFromYear 100 = - 683003) by reflexivity.
      assert (H1 : DayFromYear 10000 = 2932897) by reflexivity.
      pose proof (monthStart_range (if isLeapYear year then 1 else 0)
                    (month - 1) ltac:(destruct (isLeapYear year); lia)
                    ltac:(lia)).
      destruct (isLeapYear year); lia. }
    pose proof (utcDayShift_range k) as Hs.
    eexists. split; [apply parseDay_isoDay; unfold fourDigitYear; lia | ].
    unfold utcDayShift. destruct (Z.ltb_spec 0 k); split; intros Hsign;
      try lia.
    + split; [ | lia]. unfold WeekDayFromDay in *.
      Z.div_mod_to_equations. lia.
    + rewrite Z.add_0_r.
      replace (first + - WeekDayFromDay first)
        with (first - WeekDayFromDay first) by lia.
      split; [exact Hsun | lia].
Qed.

Lemma getWeekStart_first_cell_witness :
  exists w : Z,
    parseDay (Helpers.getWeekStart utc 2024 2) = Some w
    /\ (0 <= 0 ->
        WeekDayFromDay w = 0 /\ w <= MakeDay 2024 (2 - 1) 1 <= w + 6)
    /\ (0 < 0 ->
        WeekDayFromDay w = 6 /\ w + 1 <= MakeDay 2024 (2 - 1) 1 <= w + 7).
Proof.
  destruct (getWeekStart_first_cell 0 0 2024 2 [] ltac:(lia) ltac:(lia))
    as [_ H].
  apply H; [vm_compute; split; reflexivity | lia].
Defined.

(** In Europe/London the week start of July 2024 is Saturday 29 June. *)
Example getWeekStart_summer :
  Helpers.getWeekStart europeLondon 2024 7 = "2024-06-29"%string
  /\ option_map WeekDayFromDay (parseDay "2024-06-29") = Some 6
  /\ Helpers.getWeekStart utc 2024 7 = "2024-06-30"%string.
Proof. repeat split; vm_compute; reflexivity. Qed.

(** X11: in a zone with a fixed offset, following the next link and
    then the previous link of the weekly or daily view of a day leads
    back to the anchor, as long as the year stays within 0 to 9999; in
    the monthly view it does so, in any zone, for the months 1 to 12. *)
Theorem navigation_next_then_prev (k : Z) :
  (forall (z : Zone) (year month : Z) (week date : option string),
      1 <= month <= 12 ->
      exists (nav nav' : Nav) (year' month' : Z),
        generateNavigation z "monthly" year month week date = Some nav
        /\ next nav = Some (YearMonth year' month')
        /\ generateNavigation z "monthly" year' month' week date = Some nav'
        /\ prev nav' = Some (YearMonth year month))
  /\ (forall (year month : Z) (date : option string) (d : Z),
        fourDigitYear d -> fourDigitYear (d + 7) ->
        exists (nav nav' : Nav),
          generateNavigation (fixedZone k) "weekly" year month
            (Some (isoDay d)) date = Some nav
          /\ next nav = Some (Week (isoDay (d + 7)))
          /\ generateNavigation (fixedZone k) "weekly" year month
               (Some (isoDay (d + 7))) date = Some nav'
          /\ prev nav' = Some (Week (isoDay d)))
  /\ (forall (year month : Z) (week : option string) (d : Z),
        fourDigitYear d -> fourDigitYear (d + 1) ->
        exists (nav nav' : Nav),
          generateNavigation (fixedZone k) "daily" year month week
            (Some (isoDay d)) = Some nav
          /\ next nav = Some (OneDay (isoDay (d + 1)))
          /\ generateNavigation (fixedZone k) "daily" year month week
               (Some (isoDay (d + 1))) = Some nav'
          /\ prev nav' = Some (OneDay (isoDay d))).
Proof.
  split; [ | split].
  - intros z year month week date Hm. unfold generateNavigation.
    cbn [String.eqb Ascii.eqb Bool.eqb].
    eexists _, _, _, _. split; [reflexivity | ]. cbn [next].
    split; [reflexivity | ]. split; [reflexivity | ]. cbn [prev].
    destruct (Z.eqb_spec month 12) as [-> | Hne].
    + change (1 =? 1) with true. cbn iota. do 2 f_equal. lia.
    + destruct (Z.eqb_spec (month + 1) 1); [lia | ].
      do 2 f_equal. lia.
  - intros year month date d Hd Hd7.
    pose proof (parseISO_isoDay d Hd) as Hp.
    pose proof (parseISO_isoDay (d + 7) Hd7) as Hp7.
    unfold generateNavigation.
    change (String.eqb "weekly" "monthly") with false.
    change (String.eqb "weekly" "weekly") with true.
    rewrite (truthy_parsed _ _ Hp), Hp, (truthy_parsed _ _ Hp7), Hp7. cbn iota.
    eexists _, _. split; [reflexivity | ]. cbn [next prev].
    replace (getDate (fixedZone k) (MakeDate (d + 7) 0) - 7)
      with (getDate (fixedZone k) (MakeDate (d + 7) 0) + - 7) by lia.
    rewrite !setDate_shift, !isoDate_shift, !Day_MakeDate_midnight.
    split; [reflexivity | split; [reflexivity | ]].
    cbn [prev]. do 3 f_equal. lia.
  - intros year month week d Hd Hd1.
    pose proof (parseISO_isoDay d Hd) as Hp.
    pose proof (parseISO_isoDay (d + 1) Hd1) as Hp1.
    unfold generateNavigation.
    change (String.eqb "daily" "monthly") with false.
    change (String.eqb "daily" "weekly") with false.
    change (String.eqb "daily" "daily") with true.
    rewrite (truthy_parsed _ _ Hp), Hp, (truthy_parsed _ _ Hp1), Hp1.
    destruct (truthy week); cbn iota;
      (eexists _, _; split; [reflexivity | ]; cbn [next prev];
       replace (getDate (fixedZone k) (MakeDate (d + 1) 0) - 1)
         with (getDate (fixedZone k) (MakeDate (d + 1) 0) + - 1) by lia;
       rewrite !setDate_shift, !isoDate_shift, !Day_MakeDate_midnight;
       split; [reflexivity | split; [reflexivity | ]];
       cbn [prev]; do 3 f_equal; lia).
Qed.

Lemma navigation_next_then_prev_witness :
  exists (nav nav' : Nav),
    generateNavigation (fixedZone msPerHour) "weekly" 2024 12
      (Some (isoDay 20086)) None = Some nav
    /\ next nav = Some (Week (isoDay (20086 + 7)))
    /\ generateNavigation (fixedZone msPerHour) "weekly" 2024 12
         (Some (isoDay (20086 + 7))) None = Some nav'
    /\ prev nav' = Some (Week (isoDay 20086)).
Proof.
  destruct (navigation_next_then_prev msPerHour) as (_ & Hweekly & _).
  apply (Hweekly 2024 12 None 20086); unfold fourDigitYear; lia.
Defined.

(** In Europe/London the links of 31 March 2024 do not lead back: the
    next day is 2024-03-31 itself. *)
Example navigation_no_return :
  option_map next
    (generateNavigation europeLondon "daily" 2024 3 None
       (Some "2024-03-31"%string))
  = Some (Some (OneDay "2024-03-31"))
  /\ option_map prev
       (generateNavigation europeLondon "daily" 2024 3 None
          (Some "2024-03-31"%string))
     = Some (Some (OneDay "2024-03-30")).
Proof. split; vm_compute; reflexivity. Qed.

(** *** Every fetched row is shown once *)

Lemma length_concat_map (A : Type) (g : Z -> list A) (days : list Z) :
  length (concat (map g days)) = sumOver (fun d => length (g d)) days.
Proof.
  induction days as [ | d days IH]; [reflexivity | ].
  cbn [map concat sumOver]. now rewrite length_app, IH.
Qed.

Lemma sumOver_plus (f g : Z -> nat) (days : list Z) :
  sumOver (fun d => f d + g d)%nat days = (sumOver f days + sumOver g days)%nat.
Proof.
  induction days as [ | d days IH]; [reflexivity | ].
  cbn [sumOver]. rewrite IH. lia.
Qed.

Lemma sumOver_absent (a : Z) (days : list Z) :
  ~ In a days -> sumOver (fun d => if a =? d then 1%nat else 0%nat) days = 0%nat.
Proof.
  induction days as [ | d days IH]; intros Hn; [reflexivity | ].
  cbn [sumOver]. destruct (Z.eqb_spec a d) as [-> | _].
  - exfalso. apply Hn. now left.
  - apply IH. intros H. apply Hn. now right.
Qed.

Lemma sumOver_once (a : Z) (days : list Z) :
  List.NoDup days -> In a days ->
  sumOver (fun d => if a =? d then 1%nat else 0%nat) days = 1%nat.
Proof.
  induction 1 as [ | d days Hd _ IH]; intros Hin; [destruct Hin | ].
  cbn [sumOver]. destruct (Z.eqb_spec a d) as [-> | Hne].
  - now rewrite sumOver_absent.
  - destruct Hin as [-> | Hin]; [congruence | now rewrite IH].
Qed.

(** Rows whose dates are among distinct days are spread over the days
    without loss or repetition. *)
Lemma shown_once (table : list Stored) (days : list Z) :
  List.NoDup days -> (forall s, In s table -> In (st_date s) days) ->
  length (concat (map (fun d => storedOn d table) days)) = length table.
Proof.
  intros Hnd Hin. rewrite length_concat_map. unfold storedOn.
  induction table as [ | x table IH].
  - cbn [List.filter length]. clear. induction days as [ | d days IHd];
      [reflexivity | exact IHd].
  - cbn [List.filter length].
    transitivity (sumOver (fun d => Nat.add
                                      (if st_date x =? d
                                       then 1%nat else 0%nat)
                                      (length (List.filter
                                                 (fun s => st_date s =? d)
                                                 table))) days).
    + clear. induction days as [ | d days IHd]; [reflexivity | ].
      cbn [sumOver]. rewrite IHd. now destruct (st_date x =? d).
    + rewrite sumOver_plus, IH, sumOver_once; auto.
      * apply Hin. now left.
      * intros s Hs. apply Hin. now right.
Qed.

Lemma shown_once_rows (z : Zone) (table : list Stored) (days : list Z) :
  List.NoDup days -> (forall s, In s table -> In (st_date s) days) ->
  length (concat (map (fun d => map (driverRow z) (storedOn d table)) days))
  = length table.
Proof.
  intros Hnd Hin. rewrite <- (shown_once table days Hnd Hin).
  rewrite !length_concat_map. clear.
  induction days as [ | d days IH]; [reflexivity | ].
  cbn [sumOver]. now rewrite length_map, IH.
Qed.

Lemma insertRow_In (s x : Stored) (l : list Stored) :
  In x (insertRow s l) <-> x = s \/ In x l.
Proof.
  induction l as [ | y l IH]; cbn [insertRow].
  - cbn. intuition congruence.
  - destruct (rowLe s y); cbn [In]; [intuition congruence | ].
    rewrite IH. intuition congruence.
Qed.

(** Ordering the rows neither adds nor drops one. *)
Lemma orderRows_In (x : Stored) (l : list Stored) :
  In x (orderRows l) <-> In x l.
Proof.
  induction l as [ | y l IH]; [reflexivity | ].
  cbn [orderRows fold_right]. fold (orderRows l).
  rewrite insertRow_In, IH. cbn [In]. intuition congruence.
Qed.

(** What the route fetches for a range of two days of the years 0 to
    9999. *)
Lemma fetch_days (z : Zone) (from to : Z) (table : list Stored) :
  fourDigitYear from -> fourDigitYear to ->
  fetch z (isoDay from, isoDay to) table
  = Some (map (driverRow z)
            (orderRows
               (List.filter
                  (fun s => (from <=? st_date s) && (st_date s <=? to))
                  table))).
Proof.
  intros Hf Ht. unfold fetch. cbn [fst snd].
  now rewrite !parseDay_isoDay by assumption.
Qed.

Lemma filter_bounds (from to : Z) (table : list Stored) (s : Stored) :
  In s (orderRows
          (List.filter (fun s => (from <=? st_date s) && (st_date s <=? to))
             table))
  -> from <= st_date s <= to.
Proof.
  intros H. apply orderRows_In, filter_In in H. destruct H as [_ H].
  rewrite andb_true_iff, !Z.leb_le in H. exact H.
Qed.

(** *** The weekly grid *)

Lemma weekly_days_eq (k : Z) (now : Date) (d : Z) (table : list Stored) :
  - msPerDay < k < msPerDay ->
  - 99999000 <= d <= 99999000 ->
  Forall (fun s => validDay (st_date s)) table ->
  days (generateWeeklyCalendar (fixedZone k) now (MakeDate d 0)
          (map (driverRow (fixedZone k)) table))
  = map (fun i => dayOf k now table (d + i)) (range 0 7).
Proof.
  intros Hk Hd Htable. unfold generateWeeklyCalendar. cbn [days].
  apply map_ext_in. intros i Hi. apply range_In in Hi.
  rewrite setDate_shift. unfold dayOf, shortWeekday, sameDateString.
  unfold getDate, getDay, DateFromTime, WeekDay.
  rewrite isoDate_shift, Day_MakeDate_midnight, LocalTime_fixed.
  assert (Hlocal : Day (MakeDate d 0 + i * msPerDay + k)
                   = d + i + localDayShift k).
  { unfold MakeDate.
    replace (d * msPerDay + 0 + i * msPerDay + k)
      with ((d + i) * msPerDay + k) by lia.
    now apply Day_utc_midnight. }
  rewrite Hlocal. f_equal.
  pose proof (utcDayShift_range k) as Hs.
  replace (isoDay (d + i)) with (isoDay (d + i - utcDayShift k + utcDayShift k))
    by (f_equal; lia).
  apply (filter_onDay k table (d + i - utcDayShift k) Hk); [ | exact Htable].
  unfold validDay. lia.
Qed.

Lemma WeekDay_from_sunday (start i : Z) :
  WeekDayFromDay start = 0 -> 0 <= i < 7 -> WeekDayFromDay (start + i) = i.
Proof. unfold WeekDayFromDay. intros. Z.div_mod_to_equations. lia. Qed.

(** X12: the weekly grid of the week that a date text names, in a zone
    with a fixed offset.  It has seven entries; entry [i] has the date
    text of the day [i] days after the anchor.  In the zones that are
    not behind UTC its day of the month and its day name are those of
    that day (from a Sunday the names run from Sun to Sat), in the zones
    behind UTC those of the day before.  In the zones that are not ahead
    of UTC it holds exactly the rows of that day, in input order, and the
    rows that the route fetches for the week are each shown once; in the
    zones ahead of UTC it holds the rows of the day after. *)
Theorem weekly_grid (k : Z) (now : Date) (d : Z) (table : list Stored) :
  - msPerDay < k < msPerDay ->
  fourDigitYear d -> fourDigitYear (d + 6) ->
  Forall (fun s => validDay (st_date s)) table ->
  let z := fixedZone k in
  let start := MakeDate d 0 in
  let cal := generateWeeklyCalendar z now start (map (driverRow z) table) in
  parseISO (isoDay d) = Some start
  /\ length (days cal) = 7%nat
  /\ (forall i : nat, (i < 7)%nat ->
        exists day : DayEntry,
          days cal !! i = Some day
          /\ d_fullDate day = isoDay (d + Z.of_nat i)
          /\ (0 <= k ->
              d_date day = DateFromDay (d + Z.of_nat i)
              /\ (WeekDayFromDay d = 0 ->
                  Some (dayName day)
                  = ["Sun"; "Mon"; "Tue"; "Wed"; "Thu"; "Fri"; "Sat"]%string
                      !! i))
          /\ (k < 0 ->
              d_date day = DateFromDay (d + Z.of_nat i - 1)
              /\ dayName day
                 = weekdayName (WeekDayFromDay (d + Z.of_nat i - 1)))
          /\ (k <= 0 ->
              d_sessions day = map (driverRow z) (storedOn (d + Z.of_nat i) table))
          /\ (0 < k ->
              d_sessions day
              = map (driverRow z) (storedOn (d + Z.of_nat i + 1) table)))
  /\ (k <= 0 ->
      exists rows : list Row,
        fetch z (weeklyRange z start) table = Some rows
        /\ length
             (concat
                (map d_sessions
                   (days (generateWeeklyCalendar z now start rows))))
           = length rows).
Proof.
  intros Hk Hd Hd6 Htable z start cal.
  assert (Hdv : - 99999000 <= d <= 99999000)
    by (unfold fourDigitYear in Hd; lia).
  split; [now apply parseISO_isoDay | ].
  unfold cal, z, start.
  rewrite (weekly_days_eq k now d table Hk Hdv Htable).
  split; [ | split].
  - now rewrite length_map, range_length.
  - intros i Hi. eexists. split; [ | split; [ | split; [ | split; [ | split]]]].
    + rewrite list_lookup_fmap, (range_lookup 0 7 i Hi). reflexivity.
    + cbn [dayOf d_fullDate]. now rewrite Z.add_0_l.
    + intros Hpos. cbn [dayOf d_date dayName]. unfold localDayShift.
      destruct (Z.ltb_spec k 0); [lia | ]. rewrite !Z.add_0_l, !Z.add_0_r.
      split; [reflexivity | ].
      intros Hsun. unfold weekdayName.
      rewrite (WeekDay_from_sunday d (Z.of_nat i) Hsun) by lia.
      rewrite Nat2Z.id.
      do 7 (destruct i as [ | i]; [reflexivity | ]). lia.
    + intros Hneg. cbn [dayOf d_date dayName]. unfold localDayShift.
      destruct (Z.ltb_spec k 0); [ | lia]. rewrite !Z.add_0_l.
      split; reflexivity.
    + intros Hneg. cbn [dayOf d_sessions]. unfold utcDayShift.
      destruct (Z.ltb_spec 0 k); [lia | ]. do 2 f_equal; lia.
    + intros Hpos. cbn [dayOf d_sessions]. unfold utcDayShift.
      destruct (Z.ltb_spec 0 k); [ | lia]. do 2 f_equal; lia.
  - intros Hneg.
    assert (Hrange : weeklyRange (fixedZone k) (MakeDate d 0)
                     = (isoDay d, isoDay (d + 6))).
    { unfold weeklyRange. rewrite setDate_shift, isoDate_shift.
      unfold isoDate. now rewrite Day_MakeDate_midnight. }
    rewrite Hrange, (fetch_days _ d (d + 6) table Hd Hd6).
    eexists. split; [reflexivity | ].
    set (fetched := orderRows _).
    assert (Hfetched : forall s, In s fetched -> d <= st_date s <= d + 6).
    { intros s Hs. now apply filter_bounds in Hs. }
    assert (Hvalid : Forall (fun s => validDay (st_date s)) fetched).
    { apply Forall_forall. intros s Hs. apply list_elem_of_In in Hs.
      specialize (Hfetched s Hs). unfold validDay. lia. }
    rewrite (weekly_days_eq k now d fetched Hk Hdv Hvalid).
    rewrite map_map. cbn [dayOf d_sessions]. rewrite length_map.
    assert (Hshift : utcDayShift k = 0).
    { unfold utcDayShift. destruct (Z.ltb_spec 0 k); [lia | reflexivity]. }
    rewrite Hshift.
    rewrite <- (map_map (fun i => d + i - 0)
                  (fun day => map (driverRow (fixedZone k)) (storedOn day fetched))).
    apply shown_once_rows.
    + apply Finite.Injective_map_NoDup; [ | apply range_NoDup].
      intros i j H. lia.
    + intros s Hs. specialize (Hfetched s Hs).
      apply in_map_iff. exists (st_date s - d).
      split; [lia | apply range_In; lia].
Qed.

Lemma weekly_grid_witness :
  length
    (days (generateWeeklyCalendar (fixedZone (- 5 * msPerHour)) 0
             (MakeDate 19750 0)
             (map (driverRow (fixedZone (- 5 * msPerHour)))
                Samples.calendarTable)))
  = 7%nat.
Proof.
  destruct (weekly_grid (- 5 * msPerHour) 0 19750 Samples.calendarTable)
    as (_ & H & _).
  - vm_compute. split; reflexivity.
  - unfold fourDigitYear. lia.
  - unfold fourDigitYear. lia.
  - repeat constructor; cbn; lia.
  - exact H.
Defined.

(** The week of Sunday 28 January 2024 with the sessions of 1 February:
    in UTC they are under Thursday 1 February; five hours behind UTC the
    entry of 2024-02-01 is named Wednesday the 31st; one hour ahead of
    UTC the sessions are under 2024-01-31. *)
Example weekly_grid_zones :
  let shown (z : Zone) :=
    map (fun day => (d_fullDate day, d_date day, dayName day,
                     map row_id (d_sessions day)))
      (firstn 2
         (skipn 3
            (days (generateWeeklyCalendar z 0 (MakeDate 19750 0)
                     (map (driverRow z) Samples.calendarTable))))) in
  shown utc
  = [ ("2024-01-31", 31, "Wed", []);
      ("2024-02-01", 1, "Thu", [Samples.idA; Samples.idB]) ]%string
  /\ shown (fixedZone (- 5 * msPerHour))
     = [ ("2024-01-31", 30, "Tue", []);
         ("2024-02-01", 31, "Wed", [Samples.idA; Samples.idB]) ]%string
  /\ shown (fixedZone msPerHour)
     = [ ("2024-01-31", 31, "Wed", [Samples.idA; Samples.idB]);
         ("2024-02-01", 1, "Thu", []) ]%string.
Proof. cbv zeta. repeat split; vm_compute; reflexivity. Qed.

(** *** The rows of the monthly view *)





(** One hour ahead of UTC the view of February 2024 fetches the session
    of 31 January 2024 and shows it in a cell of January, and it does not
    fetch the sessions of 29 February. *)
Example monthly_rows_east :
  let z := fixedZone msPerHour in
  let table := [mkStored Samples.idA 19753 "09:00:00";
                mkStored Samples.idB 19782 "09:00:00"] in
  map (fun s => isoDay (st_date s)) table = ["2024-01-31"; "2024-02-29"]%string
  /\ monthlyRange z 2024 2 = ("2024-01-31", "2024-02-28")%string
  /\ option_map (map row_id) (fetch z (monthlyRange z 2024 2) table)
     = Some [Samples.idA]
  /\ option_map
       (fun rows =>
          map (fun c => (date c, isCurrentMonth c, map row_id (sessions c)))
            (firstn 1
               (skipn 3
                  (concat
                     (weeks (generateMonthlyCalendar z 0 2024 2 rows))))))
       (fetch z (monthlyRange z 2024 2) table)
     = Some [(31, false, [Samples.idA])].
Proof. cbv zeta. repeat split; vm_compute; reflexivity. Qed.

End CalendarFacts.

(** ** Facts about the template helpers (server.js) *)
Module HelpersFacts.
Import JSDate Calendar Text Helpers.

Lemma clock_checked_all :
  forallb clockChecked (range 0 (Z.to_nat 6000)) = true.
Proof. vm_compute. reflexivity. Qed.

Lemma clock_checked (total : Z) :
  0 <= total < 6000 -> clockChecked total = true.
Proof.
  intros H. pose proof clock_checked_all as Hall.
  rewrite forallb_forall in Hall. apply Hall. apply CalendarFacts.range_In.
  rewrite Z2Nat.id by lia. lia.
Qed.

Lemma digit_not_colon (c : ascii) : isDigit c = true -> Ascii.eqb c ":" = false.
Proof.
  intros H. apply Ascii.eqb_neq. intros ->. discriminate H.
Qed.

(** A time text splits at its colon into two texts of digits. *)
Lemma time_parts (t : string) :
  matchesTime t = true ->
  exists (hoursText minsText : string) (hours mins : Z),
    splitColon t = [hoursText; minsText]
    /\ digitsValue 0 hoursText = Some hours
    /\ digitsValue 0 minsText = Some mins
    /\ hours * 60 + mins = pgTime t.
Proof.
  intros H.
  destruct t as [ | a1 [ | a2 [ | a3 [ | a4 [ | a5 [ | a6 t]]]]]];
    try discriminate H; cbn [matchesTime] in H.
  - rewrite !andb_true_iff in H. destruct H as [[[H1 Hc] H3] H4].
    apply Ascii.eqb_eq in Hc. subst a2.
    assert (D3 : isDigit a3 = true).
    { unfold isDigit05, isDigit, inRange in *.
      rewrite andb_true_iff, !Z.leb_le in *. lia. }
    exists (String a1 EmptyString), (String a3 (String a4 EmptyString)),
      (digitVal a1), (digitVal a3 * 10 + digitVal a4).
    cbn [splitColon]. rewrite (digit_not_colon a1 H1), (digit_not_colon a3 D3),
      (digit_not_colon a4 H4).
    change (Ascii.eqb ":" ":") with true. cbn iota.
    cbn [digitsValue]. rewrite H1, D3, H4. cbn [pgTime].
    repeat split; try (f_equal; lia). lia.
  - rewrite !andb_true_iff in H. destruct H as [[[Hh Hc] H4] H5].
    apply Ascii.eqb_eq in Hc. subst a3.
    assert (D1 : isDigit a1 = true /\ isDigit a2 = true).
    { rewrite orb_true_iff, !andb_true_iff in Hh.
      unfold isDigit01, isDigit03, isDigit, inRange in *.
      rewrite !andb_true_iff, !Z.leb_le in *.
      destruct Hh as [Hh | [Hh Hh2]]; [lia | ].
      apply Ascii.eqb_eq in Hh. subst a1. change (code "2") with 50. lia. }
    destruct D1 as [D1 D2].
    assert (D4 : isDigit a4 = true).
    { unfold isDigit05, isDigit, inRange in *.
      rewrite andb_true_iff, !Z.leb_le in *. lia. }
    exists (String a1 (String a2 EmptyString)), (String a4 (String a5 EmptyString)),
      (digitVal a1 * 10 + digitVal a2), (digitVal a4 * 10 + digitVal a5).
    cbn [splitColon]. rewrite (digit_not_colon a1 D1), (digit_not_colon a2 D2),
      (digit_not_colon a4 D4), (digit_not_colon a5 H5).
    change (Ascii.eqb ":" ":") with true. cbn iota.
    cbn [digitsValue]. rewrite D1, D2, D4, H5. cbn [pgTime].
    repeat split; try (f_equal; lia). lia.
Qed.

(** X20.  [addMinutes] on a time text (H:MM or HH:MM, as the session
    forms accept) and a number of minutes that is not before midnight:
    while the sum stays within the day the result is the five-character
    time text of the time that many minutes later; from 24:00 on (up to
    99:59) the result is not a time, as the hours are written as they
    are and never wrap to the next day. *)
Theorem addMinutes_within_day (t : string) (minutes : Z) :
  matchesTime t = true -> 0 <= pgTime t + minutes < 6000 ->
  exists r : string,
    addMinutes t minutes = Some r
    /\ (pgTime t + minutes < 1440 ->
        matchesTime r = true /\ String.length r = 5%nat
        /\ pgTime r = pgTime t + minutes)
    /\ (1440 <= pgTime t + minutes -> matchesTime r = false).
Proof.
  intros Ht Htotal.
  destruct (time_parts t Ht) as (ht & mt & h & m & Hs & Hh & Hm & Hsum).
  exists (clockText (pgTime t + minutes)).
  pose proof (clock_checked _ Htotal) as Hc. unfold clockChecked in Hc.
  split; [ | split].
  - unfold addMinutes. rewrite Hs, Hh, Hm. cbn zeta. rewrite Hsum. reflexivity.
  - intros Hday. apply Z.ltb_lt in Hday. rewrite Hday in Hc.
    rewrite !andb_true_iff in Hc. destruct Hc as [[H1 H2] H3].
    apply Z.eqb_eq in H2. apply Nat.eqb_eq in H3. now repeat split.
  - intros Hlate. apply Z.ltb_ge in Hlate. rewrite Hlate in Hc.
    now apply negb_true_iff in Hc.
Qed.

Lemma addMinutes_within_day_witness :
  matchesTime "9:30" = true
  /\ 0 <= pgTime "9:30" + 45 < 6000
  /\ addMinutes "9:30" 45 = Some "10:15"%string
  /\ exists r : string,
       addMinutes "23:30" 45 = Some r
       /\ (pgTime "23:30" + 45 < 1440 ->
           matchesTime r = true /\ String.length r = 5%nat
           /\ pgTime r = pgTime "23:30" + 45)
       /\ (1440 <= pgTime "23:30" + 45 -> matchesTime r = false).
Proof.
  split; [reflexivity | ].
  split; [vm_compute; split; [discriminate | reflexivity] | ].
  split; [vm_compute; reflexivity | ].
  apply (addMinutes_within_day "23:30" 45);
    [reflexivity | vm_compute; split; [discriminate | reflexivity]].
Defined.

End HelpersFacts.

(** ** Rounding to a double *)
Module JSNumberFacts.
Import JSNumber.

Lemma pow2_nonneg_exp (e : Z) : 0 <= e -> pow2 e = inject_Z (2 ^ e).
Proof. intros H. unfold pow2. apply Z.leb_le in H. now rewrite H. Qed.

Lemma pow2_neg_exp (e : Z) : e < 0 -> pow2 e = (/ inject_Z (2 ^ (- e)))%Q.
Proof. intros H. unfold pow2. apply Z.leb_gt in H. now rewrite H. Qed.

Lemma inject_pow_pos (n : Z) : 0 <= n -> (0 < inject_Z (2 ^ n))%Q.
Proof.
  intros H. change 0%Q with (inject_Z 0). rewrite <- Zlt_Qlt.
  apply Z.pow_pos_nonneg; lia.
Qed.

Lemma pow2_pos (e : Z) : (0 < pow2 e)%Q.
Proof.
  destruct (Z.le_gt_cases 0 e) as [H | H].
  - rewrite pow2_nonneg_exp by exact H. now apply inject_pow_pos.
  - rewrite pow2_neg_exp by exact H. apply Qinv_lt_0_compat.
    apply inject_pow_pos. lia.
Qed.

(** [pow2 e] times [2 ^ n] for [n >= 0]. *)
Lemma pow2_shift (e n : Z) :
  0 <= n -> (pow2 (e + n) == pow2 e * inject_Z (2 ^ n))%Q.
Proof.
  intros Hn.
  destruct (Z.le_gt_cases 0 e) as [He | He].
  - rewrite !pow2_nonneg_exp by lia. rewrite Z.pow_add_r by lia.
    now rewrite inject_Z_mult.
  - destruct (Z.le_gt_cases 0 (e + n)) as [Hs | Hs].
    + rewrite pow2_nonneg_exp by exact Hs. rewrite pow2_neg_exp by exact He.
      assert (E : 2 ^ n = 2 ^ (e + n) * 2 ^ (- e)).
      { rewrite <- Z.pow_add_r by lia. f_equal. lia. }
      rewrite E, inject_Z_mult.
      pose proof (inject_pow_pos (- e) ltac:(lia)) as Hp.
      field. intros Hz. rewrite Hz in Hp. apply (Qlt_irrefl 0), Hp.
    + rewrite !pow2_neg_exp by lia.
      assert (E : 2 ^ (- e) = 2 ^ (- (e + n)) * 2 ^ n).
      { rewrite <- Z.pow_add_r by lia. f_equal. lia. }
      rewrite E, inject_Z_mult.
      pose proof (inject_pow_pos (- (e + n)) ltac:(lia)) as Hp.
      pose proof (inject_pow_pos n Hn) as Hq.
      field. split; intros Hz; [rewrite Hz in Hq | rewrite Hz in Hp];
        now apply (Qlt_irrefl 0).
Qed.

Lemma pow2_add (a b : Z) : (pow2 (a + b) == pow2 a * pow2 b)%Q.
Proof.
  destruct (Z.le_gt_cases 0 b) as [Hb | Hb].
  - rewrite pow2_shift by exact Hb. now rewrite (pow2_nonneg_exp b).
  - (* b < 0: pow2 a = pow2 (a + b) * 2 ^ (- b) *)
    pose proof (pow2_shift (a + b) (- b) ltac:(lia)) as H.
    replace (a + b + - b) with a in H by lia.
    rewrite (pow2_neg_exp b Hb).
    pose proof (inject_pow_pos (- b) ltac:(lia)) as Hp.
    rewrite H. field. intros Hz. rewrite Hz in Hp. now apply (Qlt_irrefl 0).
Qed.

(** The lower half of the specification of [ilog2]. *)
Lemma ilog2_lower (x : Q) : (0 < x)%Q -> (pow2 (ilog2 x) <= x)%Q.
Proof.
  intros Hx. unfold ilog2.
  set (k := Z.log2 (Qnum x) - Z.log2 (Z.pos (Qden x))).
  destruct (Qle_bool (pow2 k) x) eqn:E; [now apply Qle_bool_iff | ].
  destruct x as [p q]. cbn [Qnum Qden] in *.
  assert (Hp : 0 < p) by (unfold Qlt in Hx; cbn in Hx; lia).
  pose proof (Z.log2_spec p Hp) as [Hlo _].
  pose proof (Z.log2_spec (Z.pos q) ltac:(lia)) as [_ Hhi].
  pose proof (Z.log2_nonneg p) as Ha. pose proof (Z.log2_nonneg (Z.pos q)) as Hb.
  set (a := Z.log2 p) in *. set (b := Z.log2 (Z.pos q)) in *.
  (* pow2 (k - 1) * 2^(b+1) = 2^a <= p, and q <= 2^(b+1) *)
  pose proof (pow2_shift (k - 1) (b + 1) ltac:(lia)) as Hs.
  replace (k - 1 + (b + 1)) with a in Hs by (subst k; lia).
  rewrite (pow2_nonneg_exp a Ha) in Hs.
  pose proof (pow2_pos (k - 1)) as Hpos.
  set (c := pow2 (k - 1)) in *.
  (* c <= p / q  <->  c * q <= p *)
  assert (H1 : (c * inject_Z (Z.pos q) <= inject_Z p)%Q).
  { apply Qle_trans with (c * inject_Z (2 ^ (b + 1)))%Q.
    - apply Qmult_le_l; [exact Hpos | ]. rewrite <- Zle_Qle.
      replace (Z.succ b) with (b + 1) in Hhi by lia. lia.
    - rewrite <- Hs. rewrite <- Zle_Qle. exact Hlo. }
  unfold Qle in *. cbn [Qnum Qden inject_Z Qmult] in *.
  rewrite Z.mul_1_r in *. rewrite Pos.mul_1_r in H1. lia.
Qed.


Lemma roundEven_near (y : Q) :
  (Qabs (inject_Z (roundEven y) - y) <= 1 # 2)%Q.
Proof.
  unfold roundEven.
  pose proof (Qfloor_le y) as Hlo. pose proof (Qlt_floor y) as Hhi.
  rewrite inject_Z_plus in Hhi. change (inject_Z 1) with 1%Q in Hhi.
  set (f := Qfloor y) in *.
  apply Qabs_Qle_condition.
  destruct (Qcompare (y - inject_Z f) (1 # 2)) eqn:E.
  - apply Qeq_alt in E. destruct (Z.even f).
    + split; lra.
    + rewrite inject_Z_plus. change (inject_Z 1) with 1%Q. split; lra.
  - apply Qlt_alt in E. split; lra.
  - apply Qgt_alt in E. rewrite inject_Z_plus. change (inject_Z 1) with 1%Q.
    split; lra.
Qed.

Lemma roundEven_nonneg (y : Q) : (0 <= y)%Q -> 0 <= roundEven y.
Proof.
  intros Hy. unfold roundEven.
  assert (Hf : 0 <= Qfloor y).
  { change 0 with (Qfloor 0). now apply Qfloor_resp_le. }
  destruct (Qcompare (y - inject_Z (Qfloor y)) (1 # 2));
    [destruct (Z.even (Qfloor y)) | | ]; lia.
Qed.

Lemma magnitude_near (a : Q) :
  (0 < a)%Q -> (Qabs (magnitude a - a) <= a * pow2 (- 53))%Q.
Proof.
  intros Ha. unfold magnitude.
  set (e := ilog2 a - 52).
  pose proof (pow2_pos e) as He.
  pose proof (roundEven_near (a / pow2 e)) as Hr.
  set (m := inject_Z (roundEven (a / pow2 e))) in *.
  assert (E : (m * pow2 e - a == (m - a / pow2 e) * pow2 e)%Q).
  { field. intros Hz. rewrite Hz in He. now apply (Qlt_irrefl 0). }
  rewrite E, Qabs_Qmult, (Qabs_pos (pow2 e)) by lra.
  apply Qle_trans with ((1 # 2) * pow2 e)%Q.
  - apply Qmult_le_compat_r; [exact Hr | lra].
  - pose proof (ilog2_lower a Ha) as Hl.
    pose proof (pow2_add (ilog2 a) (- 52)) as H52.
    replace (ilog2 a + - 52) with e in H52 by (subst e; lia).
    rewrite H52.
    assert (E53 : ((1 # 2) * (pow2 (ilog2 a) * pow2 (- 52))
                   == pow2 (ilog2 a) * pow2 (- 53))%Q).
    { change (pow2 (- 52)) with (1 # 4503599627370496)%Q.
      change (pow2 (- 53)) with (1 # 9007199254740992)%Q. field. }
    rewrite E53. apply Qmult_le_compat_r; [exact Hl | ].
    apply Qlt_le_weak, pow2_pos.
Qed.

Lemma rnd_zero (x : Q) : (x == 0)%Q -> rnd x = 0%Q.
Proof.
  intros H. unfold rnd. rewrite (Qred_complete x 0 H). reflexivity.
Qed.

Lemma Qabs_of_nonneg (x : Q) : (0 <= x)%Q -> Qabs x = x.
Proof.
  destruct x as [p q]. unfold Qle, Qabs. cbn [Qnum Qden]. intros H.
  f_equal. apply Z.abs_eq. lia.
Qed.

Lemma rnd_pos (x : Q) : (0 < x)%Q -> (rnd x == magnitude (Qred x))%Q.
Proof.
  intros Hx. unfold rnd.
  assert (Hr : (Qred x == x)%Q) by apply Qred_correct.
  destruct (Qeq_bool (Qred x) 0) eqn:E.
  - apply Qeq_bool_iff in E. lra.
  - assert (Hle : Qle_bool 0 (Qred x) = true) by (apply Qle_bool_iff; lra).
    rewrite Hle, Qred_correct. rewrite (Qabs_of_nonneg (Qred x)) by lra.
    reflexivity.
Qed.

(** The rounding error of a positive number is at most half a unit in
    the last place: a relative error of [2 ^ -53]. *)
Lemma rnd_near (x : Q) :
  (0 < x)%Q -> (Qabs (rnd x - x) <= x * pow2 (- 53))%Q.
Proof.
  intros Hx.
  assert (Hr : (Qred x == x)%Q) by apply Qred_correct.
  rewrite (rnd_pos x Hx).
  pose proof (magnitude_near (Qred x) ltac:(lra)) as H.
  rewrite Hr in H at 2 3. exact H.
Qed.

Lemma rnd_nonneg (x : Q) : (0 <= x)%Q -> (0 <= rnd x)%Q.
Proof.
  intros Hx. destruct (Qlt_le_dec 0 x) as [Hpos | Hz].
  - rewrite (rnd_pos x Hpos). unfold magnitude.
    apply Qmult_le_0_compat.
    + change 0%Q with (inject_Z 0). rewrite <- Zle_Qle.
      apply roundEven_nonneg. apply Qle_shift_div_l; [apply pow2_pos | ].
      rewrite Qmult_0_l. rewrite Qred_correct. exact Hx.
    + apply Qlt_le_weak, pow2_pos.
  - rewrite (rnd_zero x) by lra. apply Qle_refl.
Qed.


Lemma eps_value : pow2 (- 53) = (1 # 9007199254740992)%Q.
Proof. reflexivity. Qed.

Lemma rnd_near0 (x : Q) :
  (0 <= x)%Q -> (Qabs (rnd x - x) <= x * pow2 (- 53))%Q.
Proof.
  intros Hx. destruct (Qlt_le_dec 0 x) as [Hpos | Hz].
  - now apply rnd_near.
  - assert (E : (x == 0)%Q) by lra.
    rewrite (rnd_zero x E), E. rewrite eps_value.
    apply Qabs_Qle_condition. split; lra.
Qed.

(** A number within [y * e] of [y / a], multiplied by [a]. *)
Lemma scaled_error (a x y e : Q) :
  (0 < a)%Q ->
  (Qabs (x - y / a) <= y / a * e)%Q -> (Qabs (a * x - y) <= y * e)%Q.
Proof.
  intros Ha H.
  assert (E : (a * x - y == a * (x - y / a))%Q) by (field; lra).
  rewrite E, Qabs_Qmult, (Qabs_pos a) by lra.
  apply Qle_trans with (a * (y / a * e))%Q.
  - apply Qmult_le_l; [exact Ha | exact H].
  - assert (E2 : (a * (y / a * e) == y * e)%Q) by (field; lra).
    rewrite E2. apply Qle_refl.
Qed.

(** The percentage of a quotient, computed as the code computes it:
    [a] times the result is within a few units in the last place of
    [100 * u]. *)
Lemma percent_near (u : Q) (a : Z) :
  (0 <= u)%Q -> 0 < a ->
  (Qabs (inject_Z a * jsMul (jsDiv u (inject_Z a)) 100 - 100 * u)
   <= u * (3 # 100000000000000))%Q.
Proof.
  intros Hu Ha. unfold jsMul, jsDiv.
  assert (Haq : (0 < inject_Z a)%Q).
  { change 0%Q with (inject_Z 0). now rewrite <- Zlt_Qlt. }
  set (A := inject_Z a) in *.
  assert (Hq : (0 <= u / A)%Q).
  { apply Qle_shift_div_l; [exact Haq | ]. now rewrite Qmult_0_l. }
  pose proof (rnd_near0 (u / A) Hq) as H2.
  pose proof (rnd_nonneg (u / A) Hq) as H2pos.
  set (d2 := rnd (u / A)) in *.
  assert (H3pos : (0 <= d2 * 100)%Q) by lra.
  pose proof (rnd_near0 (d2 * 100) H3pos) as H3.
  set (d3 := rnd (d2 * 100)) in *.
  rewrite eps_value in H2, H3.
  apply scaled_error in H2; [ | exact Haq].
  (* A * d3 - 100 u = A (d3 - 100 d2) + 100 (A d2 - u) *)
  assert (H3' : (Qabs (A * d3 - 100 * (A * d2))
                 <= 100 * (A * d2) * (1 # 9007199254740992))%Q).
  { assert (E : (A * d3 - 100 * (A * d2) == A * (d3 - d2 * 100))%Q) by ring.
    rewrite E, Qabs_Qmult, (Qabs_pos A) by lra.
    apply Qle_trans with (A * (d2 * 100 * (1 # 9007199254740992)))%Q.
    - apply Qmult_le_l; [exact Haq | exact H3].
    - assert (E2 : (A * (d2 * 100 * (1 # 9007199254740992))
                    == 100 * (A * d2) * (1 # 9007199254740992))%Q) by ring.
      rewrite E2. apply Qle_refl. }
  set (D2 := (A * d2)%Q) in *. set (D3 := (A * d3)%Q) in *.
  apply Qabs_Qle_condition in H2. apply Qabs_Qle_condition in H3'.
  apply Qabs_Qle_condition. split; lra.
Qed.

(** The tenth that [toFixed(1)] prints for a number [d] close enough to
    the fraction [p / q] is a tenth nearest to the fraction. *)
Lemma tenths_within (p q : Z) (d : Q) :
  0 < q -> (Qabs (inject_Z q * d - inject_Z p) < 1 # 20)%Q ->
  2 * Z.abs (q * Reports.tenths d - 10 * p) <= q.
Proof.
  intros Hq Hd. unfold Reports.tenths.
  pose proof (Qfloor_le (d * 10 + (1 # 2))) as Hlo.
  pose proof (Qlt_floor (d * 10 + (1 # 2))) as Hhi.
  rewrite inject_Z_plus in Hhi. change (inject_Z 1) with 1%Q in Hhi.
  set (n := Qfloor (d * 10 + (1 # 2))) in *.
  assert (Hqq : (0 < inject_Z q)%Q).
  { change 0%Q with (inject_Z 0). now rewrite <- Zlt_Qlt. }
  apply Qabs_Qlt_condition in Hd.
  set (Q' := inject_Z q) in *. set (P := inject_Z p) in *.
  set (N := inject_Z n) in *.
  (* multiply the two bounds on n by q *)
  assert (H1 : (Q' * N <= Q' * (d * 10 + (1 # 2)))%Q)
    by (apply Qmult_le_l; assumption).
  assert (H2 : (Q' * (d * 10 + (1 # 2)) < Q' * (N + 1))%Q)
    by (apply Qmult_lt_l; assumption).
  set (D := (Q' * d)%Q) in *.
  assert (E1 : (Q' * (d * 10 + (1 # 2)) == 10 * D + (1 # 2) * Q')%Q)
    by (subst D; ring).
  rewrite E1 in H1, H2.
  assert (U : (2 * (Q' * N) < 20 * P + Q' + 1)%Q) by lra.
  assert (L : (20 * P + Q' < 2 * (Q' * N) + 2 * Q' + 1)%Q).
  { assert (E2 : (Q' * (N + 1) == Q' * N + Q')%Q) by ring.
    rewrite E2 in H2. lra. }
  subst Q' P N.
  assert (U' : 2 * (q * n) < 20 * p + q + 1).
  { rewrite Zlt_Qlt. rewrite !inject_Z_plus, !inject_Z_mult. exact U. }
  assert (L' : 20 * p + q < 2 * (q * n) + 2 * q + 1).
  { rewrite Zlt_Qlt. rewrite !inject_Z_plus, !inject_Z_mult. exact L. }
  lia.
Qed.

Lemma tenths_nearest_fraction (p q n : Z) :
  0 < q -> 2 * Z.abs (q * n - 10 * p) <= q ->
  (Qabs (inject_Z n / 10 - inject_Z p / inject_Z q) <= 1 # 20)%Q.
Proof.
  intros Hq H.
  assert (Hqq : (0 < inject_Z q)%Q).
  { change 0%Q with (inject_Z 0). now rewrite <- Zlt_Qlt. }
  assert (E : (inject_Z n / 10 - inject_Z p / inject_Z q
               == inject_Z (q * n - 10 * p) / (10 * inject_Z q))%Q).
  { unfold Z.sub. rewrite inject_Z_plus, inject_Z_opp, !inject_Z_mult.
    change (inject_Z 10) with 10%Q. field. lra. }
  rewrite E. unfold Qdiv. rewrite Qabs_Qmult.
  rewrite (Qabs_pos (/ (10 * inject_Z q))).
  2:{ apply Qlt_le_weak, Qinv_lt_0_compat. lra. }
  apply Qle_shift_div_r; [lra | ].
  change (Qabs (inject_Z (q * n - 10 * p)))
    with (inject_Z (Z.abs (q * n - 10 * p))).
  assert (E3 : ((1 # 20) * (10 * inject_Z q) == inject_Z q / 2)%Q) by field.
  rewrite E3. apply Qle_shift_div_l; [lra | ].
  change 2%Q with (inject_Z 2). rewrite <- inject_Z_mult, <- Zle_Qle. lia.
Qed.



End JSNumberFacts.

(** ** Utilization reports and the CSV export *)
Module ReportsFacts.
Import Text Sessions JSNumber JSNumberFacts Reports.

(** *** The NUMERIC quotient *)

Lemma roundAway_near (x : Q) :
  (Qabs (inject_Z (roundAway x) - x) <= 1 # 2)%Q.
Proof.
  unfold roundAway. apply Qabs_Qle_condition.
  destruct (Qle_bool 0 x).
  - pose proof (Qfloor_le (x + (1 # 2))) as Hlo.
    pose proof (Qlt_floor (x + (1 # 2))) as Hhi.
    rewrite inject_Z_plus in Hhi. change (inject_Z 1) with 1%Q in Hhi.
    split; lra.
  - pose proof (Qfloor_le (- x + (1 # 2))) as Hlo.
    pose proof (Qlt_floor (- x + (1 # 2))) as Hhi.
    rewrite inject_Z_plus in Hhi. change (inject_Z 1) with 1%Q in Hhi.
    rewrite inject_Z_opp. split; lra.
Qed.


(** Up to 609,999 minutes the quotient has 16 or 20 decimal places. *)
Lemma divScale_cases (n : Z) :
  0 <= n <= 609999 -> divScale n = 16 \/ divScale n = 20.
Proof.
  intros Hn. unfold divScale, weight. rewrite Z.abs_eq by lia.
  destruct (Z.ltb_spec n (10 ^ 4)) as [H4 | H4].
  - change (10000 ^ 0) with 1. rewrite Z.div_1_r.
    destruct (n <=? 60); [right | left]; reflexivity.
  - destruct (Z.ltb_spec n (10 ^ 8)) as [H8 | H8].
    + change (10000 ^ 1) with 10000.
      assert (Hd : n / 10000 <= 60).
      { assert (n / 10000 < 61); [ | lia].
        apply Z.div_lt_upper_bound; lia. }
      apply Z.leb_le in Hd. rewrite Hd. left. reflexivity.
    + change (10 ^ 8) with 100000000 in H8. lia.
Qed.

Lemma hours_value (n : Z) :
  (hours n
   == inject_Z (roundAway (inject_Z n / 60 * inject_Z (10 ^ divScale n)))
      / inject_Z (10 ^ divScale n))%Q.
Proof. unfold hours. apply Qred_correct. Qed.

Lemma hours_near (n : Z) :
  0 <= n <= 609999 ->
  (Qabs (hours n - inject_Z n / 60) <= 1 # 20000000000000000)%Q.
Proof.
  intros Hn. rewrite hours_value.
  assert (G : forall S : Q,
             (10000000000000000 <= S)%Q ->
             (Qabs (inject_Z (roundAway (inject_Z n / 60 * S)) / S
                    - inject_Z n / 60) <= 1 # 20000000000000000)%Q).
  { intros S HS.
    pose proof (roundAway_near (inject_Z n / 60 * S)) as Hr.
    set (k := inject_Z (roundAway (inject_Z n / 60 * S))) in *.
    set (x := (inject_Z n / 60)%Q) in *.
    assert (E : (k / S - x == (k - x * S) / S)%Q) by (field; lra).
    rewrite E. unfold Qdiv. rewrite Qabs_Qmult, (Qabs_pos (/ S)).
    2:{ apply Qlt_le_weak, Qinv_lt_0_compat. lra. }
    apply Qle_shift_div_r; [lra | ].
    apply Qle_trans with (1 # 2)%Q; [exact Hr | ]. lra. }
  destruct (divScale_cases n Hn) as [-> | ->]; apply G.
  - change (inject_Z (10 ^ 16)) with 10000000000000000%Q. apply Qle_refl.
  - change (inject_Z (10 ^ 20)) with 100000000000000000000%Q. lra.
Qed.


Lemma hours_nonneg (n : Z) : 0 <= n -> (0 <= hours n)%Q.
Proof.
  intros Hn. rewrite hours_value.
  assert (Hs : (0 < inject_Z (10 ^ divScale n))%Q).
  { change 0%Q with (inject_Z 0). rewrite <- Zlt_Qlt.
    apply Z.pow_pos_nonneg; [lia | ]. unfold divScale. lia. }
  apply Qle_shift_div_l; [exact Hs | ]. rewrite Qmult_0_l.
  change 0%Q with (inject_Z 0). rewrite <- Zle_Qle.
  unfold roundAway.
  assert (Hx : (0 <= inject_Z n / 60 * inject_Z (10 ^ divScale n))%Q).
  { apply Qmult_le_0_compat; [ | lra].
    apply Qle_shift_div_l; [lra | ]. rewrite Qmult_0_l.
    change 0%Q with (inject_Z 0). now rewrite <- Zle_Qle. }
  apply Qle_bool_iff in Hx. rewrite Hx.
  change 0 with (Qfloor 0). apply Qfloor_resp_le.
  apply Qle_bool_iff in Hx. lra.
Qed.

(** *** The period *)

Lemma stored_day_fields (y m a : Z) :
  validDate (y, m, a) = true ->
  let t := JSDate.MakeDay y (m - 1) a in
  JSDate.YearFromDay t = y /\ JSDate.MonthFromDay t = m - 1.
Proof.
  unfold validDate. cbv beta iota. rewrite !andb_true_iff, !Z.leb_le.
  intros [[[Hm1 Hm2] Ha1] Ha2]. set (t := JSDate.MakeDay y (m - 1) a).
  pose proof (CalendarFacts.daysInMonth_monthStart y (m - 1) ltac:(lia)) as Hd.
  cbn zeta in Hd. replace (m - 1 + 1) with m in Hd by lia.
  destruct (JSDateFacts.fields_of_day y (m - 1) t ltac:(lia)) as (Hy & Hmo & _).
  - subst t. rewrite JSDateFacts.MakeDay_in_year by lia.
    replace (m - 1 + 1) with m by lia. lia.
  - now split.
Qed.

Lemma inMonth_specInPeriod (year month : Z) (s : Session) :
  1 <= month <= 12 -> dated s = true ->
  inMonth year month s = specInPeriod year month s.
Proof.
  intros Hm Hs. unfold dated, inMonth, specInPeriod in *.
  destruct (s_session_date s) as [[[y m] a] | ]; [ | reflexivity].
  destruct (stored_day_fields y m a Hs) as [Hy Hmo].
  pose proof (JSDateFacts.month_days year (month - 1)
                (JSDate.MakeDay y (m - 1) a) ltac:(lia)) as Hiff.
  replace (month - 1 + 1) with month in Hiff by lia.
  rewrite Hy, Hmo in Hiff.
  apply eq_true_iff_eq.
  rewrite !andb_true_iff, !Z.eqb_eq, !Z.leb_le. rewrite Hiff. lia.
Qed.

Lemma sumWhen_filter (st : string) (l : list Session) :
  sumWhen st l
  = fold_right Z.add 0
      (map s_duration_minutes
         (List.filter (fun s => String.eqb (s_status s) st) l)).
Proof.
  unfold sumWhen. induction l as [ | s l IH]; [reflexivity | ].
  cbn [fold_right List.filter]. rewrite IH.
  destruct (String.eqb (s_status s) st); cbn [map fold_right]; lia.
Qed.

Lemma filter_filter (A : Type) (f g : A -> bool) (l : list A) :
  List.filter g (List.filter f l) = List.filter (fun x => f x && g x) l.
Proof.
  induction l as [ | x l IH]; [reflexivity | ].
  cbn [List.filter]. destruct (f x); cbn [List.filter andb];
    [destruct (g x) | ]; now rewrite IH.
Qed.

Lemma filter_agree (A : Type) (f g : A -> bool) (l : list A) :
  (forall x, In x l -> f x = g x) -> List.filter f l = List.filter g l.
Proof.
  induction l as [ | x l IH]; intros H; [reflexivity | ].
  cbn [List.filter]. rewrite (H x) by now left.
  rewrite IH; [reflexivity | ]. intros y Hy. apply H. now right.
Qed.

(** The sum of the query is the sum of the specification's words. *)
Lemma completed_sum_spec (who : Session -> string) (db : Database)
    (year month : Z) (i : string) :
  1 <= month <= 12 ->
  Forall (fun s => dated s = true) (support_sessions db) ->
  sumWhen "completed"
    (List.filter (fun s => String.eqb (who s) i && inMonth year month s)
       (support_sessions db))
  = specUsedMinutes who db year month i.
Proof.
  intros Hm Hd. unfold specUsedMinutes.
  rewrite sumWhen_filter, filter_filter. do 2 f_equal.
  apply filter_agree. intros s Hs.
  rewrite Forall_forall in Hd.
  rewrite (inMonth_specInPeriod year month s Hm)
    by (apply Hd; now apply list_elem_of_In).
  destruct (String.eqb (who s) i), (specInPeriod year month s),
    (String.eqb (s_status s) "completed"); reflexivity.
Qed.

(** *** Rates *)

Lemma rate_not_positive (used : Q) (allocated : Z) :
  allocated <= 0 -> rate used allocated = RateZero.
Proof.
  intros H. unfold rate. apply Z.ltb_ge in H. now rewrite H.
Qed.

Lemma rate_positive (used : Q) (allocated : Z) :
  0 < allocated ->
  rate used allocated
  = RateText (toFixed1 (jsMul (jsDiv used (inject_Z allocated)) 100)).
Proof. intros H. unfold rate. apply Z.ltb_lt in H. now rewrite H. Qed.

(** The text of a number that is not negative: the tenths, with a point
    before the last digit. *)
Lemma toFixed1_nonneg (x : Q) :
  (0 <= x)%Q -> toFixed1 x = tenthsText (tenths x).
Proof.
  intros Hx. unfold toFixed1, isNegative, tenthsText.
  assert (Hb : Qle_bool 0 x = true) by now apply Qle_bool_iff.
  rewrite Hb. cbn [negb append].
  now rewrite (Qabs_of_nonneg x Hx).
Qed.

Lemma percentage_nonneg (u : Q) (a : Z) :
  (0 <= u)%Q -> 0 < a -> (0 <= jsMul (jsDiv u (inject_Z a)) 100)%Q.
Proof.
  intros Hu Ha. unfold jsMul, jsDiv.
  assert (Haq : (0 < inject_Z a)%Q).
  { change 0%Q with (inject_Z 0). now rewrite <- Zlt_Qlt. }
  apply rnd_nonneg.
  assert (H : (0 <= rnd (u / inject_Z a))%Q).
  { apply rnd_nonneg. apply Qle_shift_div_l; [exact Haq | ].
    now rewrite Qmult_0_l. }
  lra.
Qed.

(** The rate of hours against an allocation: the text of a tenth that
    is nearest to minutes / 60 / allocated * 100. *)
Lemma rate_of_hours (minutes allocated : Z) :
  0 <= minutes <= 600000 -> 0 < allocated ->
  exists n : Z,
    rate (number (PgText (hours minutes))) allocated = RateText (tenthsText n)
    /\ (Qabs (inject_Z n / 10
              - inject_Z minutes / 60 / inject_Z allocated * 100)
        <= 1 # 20)%Q.
Proof.
  intros Hm Ha. cbn [number].
  pose proof (hours_near minutes ltac:(lia)) as Hh.
  pose proof (hours_nonneg minutes ltac:(lia)) as Hh0.
  set (h := hours minutes) in *.
  pose proof (rnd_near0 h Hh0) as Hu. rewrite eps_value in Hu.
  pose proof (rnd_nonneg h Hh0) as Hu0.
  set (u := rnd h) in *.
  pose proof (percent_near u allocated Hu0 Ha) as Hd.
  pose proof (percentage_nonneg u allocated Hu0 Ha) as Hd0.
  set (d := jsMul (jsDiv u (inject_Z allocated)) 100) in *.
  exists (tenths d). split.
  - rewrite rate_positive by exact Ha. fold d. f_equal. now apply toFixed1_nonneg.
  - assert (Haq : (0 < inject_Z allocated)%Q).
    { change 0%Q with (inject_Z 0). now rewrite <- Zlt_Qlt. }
    assert (HM : (0 <= inject_Z minutes /\ inject_Z minutes <= 600000)%Q).
    { change 0%Q with (inject_Z 0). change 600000%Q with (inject_Z 600000).
      rewrite <- !Zle_Qle. lia. }
    assert (E : (inject_Z minutes / 60 / inject_Z allocated * 100
                 == inject_Z (5 * minutes) / inject_Z (3 * allocated))%Q).
    { rewrite !inject_Z_mult. change (inject_Z 5) with 5%Q.
      change (inject_Z 3) with 3%Q. field. lra. }
    rewrite E. apply tenths_nearest_fraction; [lia | ].
    apply tenths_within; [lia | ].
    rewrite !inject_Z_mult. change (inject_Z 5) with 5%Q.
    change (inject_Z 3) with 3%Q.
    set (A := inject_Z allocated) in *. set (M := inject_Z minutes) in *.
    assert (E2 : (3 * A * d - 5 * M
                  == 3 * (A * d - 100 * u) + 300 * (u - h)
                     + 300 * (h - M / 60))%Q) by field.
    rewrite E2. set (D := (A * d)%Q) in *.
    apply Qabs_Qle_condition in Hh. apply Qabs_Qle_condition in Hu.
    apply Qabs_Qle_condition in Hd.
    destruct HM as [HM0 HM1], Hh as [Hh1 Hh2], Hu as [Hu1 Hu2],
      Hd as [Hd1 Hd2].
    assert (HX : (0 <= M / 60 /\ M / 60 <= 10000)%Q).
    { split; [apply Qle_shift_div_l | apply Qle_shift_div_r]; lra. }
    destruct HX as [HX0 HX1]. set (X := (M / 60)%Q) in *.
    apply Qabs_Qlt_condition. split; lra.
Qed.

(** The rate of a count against a total. *)
Lemma rate_of_count (count total : Z) :
  0 <= count <= 1000000000000 -> 0 < total ->
  exists n : Z,
    rate (inject_Z count) total = RateText (tenthsText n)
    /\ (Qabs (inject_Z n / 10 - inject_Z count / inject_Z total * 100)
        <= 1 # 20)%Q.
Proof.
  intros Hc Ht.
  assert (Hc0 : (0 <= inject_Z count /\ inject_Z count <= 1000000000000)%Q).
  { change 0%Q with (inject_Z 0).
    change 1000000000000%Q with (inject_Z 1000000000000).
    rewrite <- !Zle_Qle. lia. }
  destruct Hc0 as [Hc0 Hc1].
  pose proof (percent_near (inject_Z count) total Hc0 Ht) as Hd.
  pose proof (percentage_nonneg (inject_Z count) total Hc0 Ht) as Hd0.
  set (d := jsMul (jsDiv (inject_Z count) (inject_Z total)) 100) in *.
  exists (tenths d). split.
  - rewrite rate_positive by exact Ht. fold d. f_equal. now apply toFixed1_nonneg.
  - assert (Htq : (0 < inject_Z total)%Q).
    { change 0%Q with (inject_Z 0). now rewrite <- Zlt_Qlt. }
    assert (E : (inject_Z count / inject_Z total * 100
                 == inject_Z (100 * count) / inject_Z total)%Q).
    { rewrite inject_Z_mult. change (inject_Z 100) with 100%Q. field. lra. }
    rewrite E. apply tenths_nearest_fraction; [lia | ].
    apply tenths_within; [lia | ].
    rewrite inject_Z_mult. change (inject_Z 100) with 100%Q.
    apply Qabs_Qle_condition in Hd.
    apply Qabs_Qlt_condition. split; lra.
Qed.

(** *** Hours used and remaining *)


Lemma resident_minutes (db : Database) (year month : Z) (r : Resident) :
  1 <= month <= 12 ->
  Forall (fun s => dated s = true) (support_sessions db) ->
  sumWhen "completed" (sessionsOfResident db year month r)
  = specUsedMinutes s_resident_id db year month (r_id r).
Proof. intros Hm Hd. now apply (completed_sum_spec s_resident_id). Qed.

(** C6, as the code has it: the percentage of a resident, a worker and a
    property is the number 0 when the allocation (monthly support hours,
    hours per month, capacity) is 0, whatever was used, and no division
    takes place.  With a positive allocation it is the text of a number
    with one decimal place that is nearest to used / allocated * 100,
    within 0.05 of it; the code computes in double precision, so that
    of two tenths at the same distance either may be printed. *)
Theorem rates_guard_and_nearest_tenth (db : Database) (year month : Z) :
  1 <= month <= 12 ->
  Forall (fun s => dated s = true) (support_sessions db) ->
  (forall r : Resident,
      let row := residentRow db year month r in
      let minutes := specUsedMinutes s_resident_id db year month (r_id r) in
      (monthly_support_hours r <= 0 -> utilization_rate row = RateZero)
      /\ (0 < monthly_support_hours r -> 0 <= minutes <= 600000 ->
          exists n : Z,
            utilization_rate row = RateText (tenthsText n)
            /\ (Qabs (inject_Z n / 10
                      - inject_Z minutes / 60
                        / inject_Z (monthly_support_hours r) * 100)
                <= 1 # 20)%Q))
  /\ (forall w : SupportWorker,
        let row := workerRow db year month w in
        let minutes :=
          specUsedMinutes s_support_worker_id db year month (w_id w) in
        (max_hours_per_month w <= 0 -> wr_utilization_rate row = RateZero)
        /\ (0 < max_hours_per_month w -> 0 <= minutes <= 600000 ->
            exists n : Z,
              wr_utilization_rate row = RateText (tenthsText n)
              /\ (Qabs (inject_Z n / 10
                        - inject_Z minutes / 60
                          / inject_Z (max_hours_per_month w) * 100)
                  <= 1 # 20)%Q))
  /\ (forall p : Property,
        let row := propertyRow db year month p in
        (max_capacity p <= 0 -> occupancy_rate row = RateZero)
        /\ (0 < max_capacity p -> current_residents row <= 1000000000000 ->
            exists n : Z,
              occupancy_rate row = RateText (tenthsText n)
              /\ (Qabs (inject_Z n / 10
                        - inject_Z (current_residents row)
                          / inject_Z (max_capacity p) * 100)
                  <= 1 # 20)%Q)).
Proof.
  intros Hm Hd. split; [ | split].
  - intros r row minutes. subst row minutes. unfold residentRow.
    cbn [utilization_rate]. rewrite (resident_minutes db year month r Hm Hd).
    split; [apply rate_not_positive | ].
    intros Ha Hmin. now apply rate_of_hours.
  - intros w row minutes. subst row minutes. unfold workerRow.
    cbn [wr_utilization_rate].
    rewrite (completed_sum_spec s_support_worker_id db year month (w_id w) Hm Hd).
    split; [apply rate_not_positive | ].
    intros Ha Hmin. now apply rate_of_hours.
  - intros p row. subst row. unfold propertyRow.
    cbn [occupancy_rate current_residents].
    split; [apply rate_not_positive | ].
    intros Ha Hc. apply rate_of_count; [ | exact Ha]. lia.
Qed.

Lemma rates_guard_and_nearest_tenth_witness :
  (exists n : Z,
      utilization_rate (residentRow Samples.reportDb 2024 3 Samples.ann)
      = RateText (tenthsText n)
      /\ (Qabs (inject_Z n / 10
                - inject_Z (specUsedMinutes s_resident_id Samples.reportDb
                              2024 3 Samples.resident) / 60
                  / inject_Z 2 * 100)
          <= 1 # 20)%Q)
  /\ wr_utilization_rate
       (workerRow Samples.reportDb 2024 3
          (mkWorker Samples.worker "Sam" "Poe" 0 true))
     = RateZero.
Proof.
  destruct (rates_guard_and_nearest_tenth Samples.reportDb 2024 3)
    as (Hres & Hwork & _).
  - lia.
  - repeat constructor.
  - split.
    + apply (Hres Samples.ann); [cbn; lia | vm_compute; split; discriminate].
    + apply (Hwork (mkWorker Samples.worker "Sam" "Poe" 0 true)). cbn. lia.
Defined.

(** The rate as the specification words it, with the usual rounding of
    half a tenth upwards, fails: 69 completed minutes against four hours
    are 28.75 per cent, and the code prints 28.7. *)
Lemma rate_not_the_rounded_quotient :
  ~ (forall (db : Database) (year month : Z) (r : Resident),
       0 < monthly_support_hours r ->
       utilization_rate (residentRow db year month r)
       = RateText
           (tenthsText
              (specPercentTenths
                 (inject_Z (specUsedMinutes s_resident_id db year month
                              (r_id r)) / 60)
                 (inject_Z (monthly_support_hours r))))).
Proof.
  intros H.
  specialize (H Samples.tieDb 2024 3 Samples.bob ltac:(cbn; lia)).
  vm_compute in H. discriminate H.
Qed.

Example rate_at_the_tie :
  utilization_rate (residentRow Samples.tieDb 2024 3 Samples.bob)
  = RateText "28.7"
  /\ tenthsText
       (specPercentTenths
          (inject_Z (specUsedMinutes s_resident_id Samples.tieDb 2024 3
                       Samples.resident) / 60) 4)
     = "28.8"%string.
Proof. split; vm_compute; reflexivity. Qed.




Example hours_of_100_minutes :
  (toNumber (hours_used (residentRow Samples.thirdsDb 2024 3 Samples.bob))
   == 16666666666666667 # 10000000000000000)%Q.
Proof. vm_compute. reflexivity. Qed.

(** Remaining hours below zero are reported as they are. *)
Example remaining_hours_negative :
  let over := Reports.mkResident Samples.resident "Ann" "Lee" 1 None true in
  (remaining_hours (residentRow Samples.reportDb 2024 3 over) == - (1 # 2))%Q.
Proof. vm_compute. reflexivity. Qed.

(** *** The CSV export *)

Lemma cellsOf_number (r : ResidentRow) :
  isNumber (hours_used r) = true -> cellsOf r = Some (cellTexts r).
Proof.
  unfold cellsOf, cellTexts. now destruct (hours_used r).
Qed.

Lemma mapCells_numbers (rs : list ResidentRow) :
  Forall (fun r => isNumber (hours_used r) = true) rs ->
  mapCells rs = Some (map cellTexts rs).
Proof.
  induction 1 as [ | r rs Hr _ IH]; [reflexivity | ].
  cbn [mapCells map]. now rewrite (cellsOf_number r Hr), IH.
Qed.

(** On a row whose hours used arrive as text, [toFixed] is not there to
    call and the export throws. *)
Lemma generateCSV_text_hours (r : ResidentRow) (rs : list ResidentRow) :
  isNumber (hours_used r) = false -> generateCSV (r :: rs) = None.
Proof.
  intros Hr. unfold generateCSV. cbn [mapCells]. unfold cellsOf.
  now destruct (hours_used r).
Qed.

(** On rows whose hours used are numbers, which the report never
    makes, the export is the header line and one line for each
    resident, every cell between double quotes and otherwise as it
    is. *)
Lemma generateCSV_number_rows (data_residents : list ResidentRow) :
  Forall (fun r => isNumber (hours_used r) = true) data_residents ->
  generateCSV data_residents
  = Some (String.concat newline
            (csvLine headers
             :: map (fun r => csvLine (cellTexts r)) data_residents)).
Proof.
  intros Hnum. unfold generateCSV. rewrite (mapCells_numbers _ Hnum).
  cbn [map]. now rewrite map_map.
Qed.

(** C10: the export of a monthly report with at least one active
    resident throws, whatever the month: [hours_used] reaches
    [generateCSV] as the text of the [NUMERIC] column, and a text has no
    [toFixed].  Only the report without residents is exported, as the
    header line alone. *)
Theorem export_throws_on_residents (db : Database) (year month : Z) :
  (exists r : Resident, In r (residents db) /\ r_is_active r = true) ->
  generateCSV (getMonthlyUtilization db year month) = None.
Proof.
  intros (r & Hr & Ha). unfold getMonthlyUtilization.
  assert (Hin : In r (List.filter r_is_active (residents db)))
    by now apply filter_In.
  destruct (List.filter r_is_active (residents db)) as [ | r0 rest];
    [destruct Hin | ].
  cbn [map]. now apply generateCSV_text_hours.
Qed.

Lemma export_throws_on_residents_witness :
  generateCSV (getMonthlyUtilization Samples.reportDb 2024 3) = None.
Proof.
  apply (export_throws_on_residents Samples.reportDb 2024 3).
  exists Samples.ann. split; [left | ]; reflexivity.
Defined.

(** Without residents the export is the header line alone: six names,
    each between double quotes. *)
Example export_without_residents :
  generateCSV
    (getMonthlyUtilization (mkDatabase [] [] [] []) 2024 3)
  = Some (String.concat ","
            (map (fun name => dquote ++ name ++ dquote)
               ["Resident Name"; "Property"; "Allocated Hours"; "Hours Used";
                "Utilization Rate"; "Remaining Hours"]))%string.
Proof. reflexivity. Qed.

(** *** Joins, groups and rates of the other reports *)

Lemma countWhen_range (st : string) (l : list Session) :
  0 <= countWhen st l <= Z.of_nat (length l).
Proof.
  unfold countWhen. induction l as [ | s l IH]; [cbn; lia | ].
  cbn [fold_right length]. destruct (String.eqb (s_status s) st); lia.
Qed.

(** X19: in a worker's row the completed sessions are never more than
    the sessions; the completion rate is the number 0 without sessions
    in the month and otherwise the text of a number with one decimal
    place, from 0.0 to 100.0, that is nearest to completed / total * 100
    (computed in double precision: of two tenths at the same distance
    either may be printed). *)
Theorem worker_completion_rate_bounded
    (db : Database) (year month : Z) (w : SupportWorker) :
  let row := workerRow db year month w in
  0 <= wr_completed_sessions row <= wr_total_sessions row
  /\ (wr_total_sessions row = 0 -> completion_rate row = RateZero)
  /\ (0 < wr_total_sessions row <= 1000000000000 ->
      exists n : Z,
        completion_rate row = RateText (tenthsText n)
        /\ (Qabs (inject_Z n / 10
                  - inject_Z (wr_completed_sessions row)
                    / inject_Z (wr_total_sessions row) * 100)
            <= 1 # 20)%Q
        /\ 0 <= n <= 1000).
Proof.
  cbn zeta. unfold workerRow.
  cbn [wr_completed_sessions wr_total_sessions completion_rate].
  set (joined := List.filter _ (support_sessions db)).
  pose proof (countWhen_range "completed" joined) as Hc.
  set (c := countWhen "completed" joined) in *.
  set (t := Z.of_nat (length joined)) in *.
  split; [exact Hc | split].
  - intros ->. reflexivity.
  - intros [Hpos Hmax].
    destruct (rate_of_count c t ltac:(lia) Hpos) as (n & Hn & Hnear).
    exists n. split; [exact Hn | split; [exact Hnear | ]].
    (* 0 <= 100 c / t <= 100, and n / 10 is within 1/20 of it *)
    assert (Htq : (0 < inject_Z t)%Q).
    { change 0%Q with (inject_Z 0). now rewrite <- Zlt_Qlt. }
    assert (Hcq : (0 <= inject_Z c /\ inject_Z c <= inject_Z t)%Q).
    { change 0%Q with (inject_Z 0). rewrite <- !Zle_Qle. lia. }
    assert (Hx : (0 <= inject_Z c / inject_Z t /\ inject_Z c / inject_Z t <= 1)%Q).
    { split; [apply Qle_shift_div_l | apply Qle_shift_div_r]; lra. }
    set (x := (inject_Z c / inject_Z t)%Q) in *.
    apply Qabs_Qle_condition in Hnear. destruct Hnear as [H1 H2], Hx as [Hx0 Hx1].
    assert (Hlo : (- 1 < inject_Z n)%Q).
    { assert (E : (inject_Z n / 10 == inject_Z n * (1 # 10))%Q) by field.
      rewrite E in H1. lra. }
    assert (Hhi : (inject_Z n < 1001)%Q).
    { assert (E : (inject_Z n / 10 == inject_Z n * (1 # 10))%Q) by field.
      rewrite E in H2. lra. }
    change (- 1)%Q with (inject_Z (- 1)) in Hlo.
    change 1001%Q with (inject_Z 1001) in Hhi.
    rewrite <- Zlt_Qlt in Hlo, Hhi. lia.
Qed.

Lemma worker_completion_rate_bounded_witness :
  exists n : Z,
    completion_rate
      (workerRow Samples.reportDb 2024 3
         (mkWorker Samples.worker "Sam" "Poe" 0 true))
    = RateText (tenthsText n)
    /\ 0 <= n <= 1000.
Proof.
  destruct (worker_completion_rate_bounded Samples.reportDb 2024 3
              (mkWorker Samples.worker "Sam" "Poe" 0 true))
    as (_ & _ & H).
  destruct H as (n & Hn & _ & Hrange); [vm_compute; split; [reflexivity | discriminate] | ].
  exists n. split; assumption.
Defined.

Lemma sumJoined_app (st : string) (l1 l2 : list (option Resident * option Session)) :
  sumJoined st (l1 ++ l2) = sumJoined st l1 + sumJoined st l2.
Proof.
  unfold sumJoined. induction l1 as [ | x l1 IH]; [reflexivity | ].
  cbn [app fold_right]. rewrite IH. lia.
Qed.

Lemma countSessions_app (l1 l2 : list (option Resident * option Session)) :
  countSessions (l1 ++ l2) = countSessions l1 + countSessions l2.
Proof.
  unfold countSessions. rewrite List.filter_app, length_app. lia.
Qed.

Lemma joinedWith_count (r : option Resident) (ss : list Session) :
  countSessions (joinedWith r ss) = Z.of_nat (length ss).
Proof.
  destruct ss as [ | s ss]; [reflexivity | ].
  unfold joinedWith, countSessions. f_equal.
  generalize (s :: ss). intros l. induction l as [ | x l IH]; [reflexivity | ].
  cbn [map List.filter snd length]. now rewrite IH.
Qed.

Lemma joinedWith_sum (st : string) (r : option Resident) (ss : list Session) :
  sumJoined st (joinedWith r ss) = sumWhen st ss.
Proof.
  destruct ss as [ | s ss]; [reflexivity | ].
  unfold joinedWith, sumJoined, sumWhen.
  generalize (s :: ss). intros l. induction l as [ | x l IH]; [reflexivity | ].
  cbn [map fold_right snd]. now rewrite IH.
Qed.

Lemma joined_step (p : Property) (r : option Resident) (ss : list Session) :
  map (fun row : Property * option Resident * option Session =>
         (snd (fst row), snd row))
    (joinedRows (p, r) ss)
  = joinedWith r ss.
Proof.
  unfold joinedWith, joinedRows. destruct ss; [reflexivity | ].
  now rewrite map_map.
Qed.

Lemma join_residents (db : Database) (year month : Z) (p : Property)
    (l : list (option Resident)) :
  map (fun row : Property * option Resident * option Session =>
         (snd (fst row), snd row))
    (leftJoin (map (fun r => (p, r)) l)
       (fun pr => sessionsOfProperty db year month (fst pr)))
  = flat_map
      (fun r => joinedWith r (sessionsOfProperty db year month p)) l.
Proof.
  unfold leftJoin. induction l as [ | x l IH]; [reflexivity | ].
  cbn [map flat_map fst]. rewrite map_app, IH. f_equal. apply joined_step.
Qed.

Lemma propertyJoin_rows (db : Database) (year month : Z) (p : Property) :
  propertyJoin db year month p
  = match residentsOfProperty db p with
    | [] => joinedWith None (sessionsOfProperty db year month p)
    | r :: rs =>
        flat_map
          (fun r => joinedWith (Some r) (sessionsOfProperty db year month p))
          (r :: rs)
    end.
Proof.
  unfold propertyJoin.
  assert (Hinner : leftJoin [p] (residentsOfProperty db)
                   = map (fun r => (p, r))
                       match residentsOfProperty db p with
                       | [] => [None]
                       | rs => map Some rs
                       end).
  { unfold leftJoin, joinedRows. cbn [flat_map]. rewrite app_nil_r.
    destruct (residentsOfProperty db p); [reflexivity | ].
    now rewrite map_map. }
  rewrite Hinner, join_residents.
  destruct (residentsOfProperty db p) as [ | r rs].
  - cbn [flat_map]. apply app_nil_r.
  - generalize (r :: rs). intros l. induction l as [ | x l IH]; [reflexivity | ].
    cbn [map flat_map]. now rewrite IH.
Qed.

Lemma flat_joined_count (rs : list Resident) (ss : list Session) :
  countSessions (flat_map (fun r => joinedWith (Some r) ss) rs)
  = Z.of_nat (length ss) * Z.of_nat (length rs).
Proof.
  induction rs as [ | r rs IH].
  - unfold countSessions. cbn [flat_map List.filter length]. lia.
  - cbn [flat_map length]. rewrite countSessions_app, joinedWith_count, IH. lia.
Qed.

Lemma flat_joined_sum (st : string) (rs : list Resident) (ss : list Session) :
  sumJoined st (flat_map (fun r => joinedWith (Some r) ss) rs)
  = sumWhen st ss * Z.of_nat (length rs).
Proof.
  induction rs as [ | r rs IH].
  - unfold sumJoined. cbn [flat_map fold_right length]. lia.
  - cbn [flat_map length]. rewrite sumJoined_app, joinedWith_sum, IH. lia.
Qed.

Lemma remove_dups_same_elements (l k : list string) :
  (forall x, x ∈ l <-> x ∈ k) ->
  length (remove_dups l) = length (remove_dups k).
Proof.
  intros H. apply Permutation_length.
  apply NoDup_Permutation; try apply NoDup_remove_dups.
  intros x. rewrite !elem_of_remove_dups. apply H.
Qed.

Lemma joinedWith_residents (r : Resident) (ss : list Session) (x : string) :
  x ∈ omap (fun row : option Resident * option Session =>
              option_map r_id (fst row)) (joinedWith (Some r) ss)
  <-> x = r_id r.
Proof.
  rewrite list_elem_of_omap. unfold joinedWith. split.
  - intros (row & Hrow & Hx). destruct ss as [ | s ss].
    + apply list_elem_of_singleton in Hrow. subst row. cbn in Hx. congruence.
    + apply list_elem_of_fmap in Hrow. destruct Hrow as (s' & -> & _).
      cbn in Hx. congruence.
  - intros ->. destruct ss as [ | s ss].
    + exists (Some r, None). split; [apply list_elem_of_singleton; reflexivity | reflexivity].
    + exists (Some r, Some s). split; [ | reflexivity].
      apply list_elem_of_fmap. exists s. split; [reflexivity | left].
Qed.

Lemma flat_joined_residents (rs : list Resident) (ss : list Session) (x : string) :
  x ∈ omap (fun row : option Resident * option Session =>
              option_map r_id (fst row))
        (flat_map (fun r => joinedWith (Some r) ss) rs)
  <-> x ∈ map r_id rs.
Proof.
  induction rs as [ | r rs IH].
  - cbn. reflexivity.
  - cbn [flat_map map]. rewrite omap_app, elem_of_app, joinedWith_residents, IH.
    rewrite elem_of_cons. reflexivity.
Qed.

(** X17: the property report counts sessions once per active resident.
    Its session and hour columns are the aggregates of the rows that the
    two joins produce, which pair every active resident of the property
    with every session of the month: with [n >= 1] residents every session
    is counted [n] times, while the residents are counted once each. *)
Theorem property_sessions_counted_per_resident
    (db : Database) (year month : Z) (p : Property) :
  let joined := propertyJoin db year month p in
  let row := propertyRow db year month p in
  let residents := Z.of_nat (length (residentsOfProperty db p)) in
  let sessions := Z.of_nat (length (sessionsOfProperty db year month p)) in
  total_sessions row = countSessions joined
  /\ toNumber (total_hours row) = hours (sumJoined "completed" joined)
  /\ current_residents row = countDistinctResidents joined
  /\ total_sessions row = sessions * Z.max 1 residents.
Proof.
  cbn zeta. rewrite propertyJoin_rows. unfold propertyRow.
  cbn [total_sessions total_hours toNumber current_residents].
  fold (residentsOfProperty db p). fold (sessionsOfProperty db year month p).
  destruct (residentsOfProperty db p) as [ | r rs] eqn:E.
  - rewrite joinedWith_count, joinedWith_sum. cbn [length Z.of_nat Z.max].
    repeat split; try (f_equal; lia).
    unfold countDistinctResidents, joinedWith.
    destruct (sessionsOfProperty db year month p) as [ | s ss]; [reflexivity | ].
    f_equal. apply remove_dups_same_elements. intros x.
    rewrite list_elem_of_omap. split; [intros H; inversion H | ].
    intros (row & Hrow & Hx). apply list_elem_of_fmap in Hrow.
    destruct Hrow as (s' & -> & _). discriminate Hx.
  - rewrite flat_joined_count, flat_joined_sum.
    rewrite Z.max_r by (cbn [length]; lia). repeat split.
    unfold countDistinctResidents. f_equal.
    apply remove_dups_same_elements. intros x.
    now rewrite flat_joined_residents.
Qed.
Lemma counts_within_total (l : list Session) :
  countWhen "completed" l + countWhen "cancelled" l + countWhen "no_show" l
  <= Z.of_nat (length l).
Proof.
  unfold countWhen. induction l as [ | s l IH]; [cbn; lia | ].
  cbn [fold_right length].
  destruct (String.eqb_spec (s_status s) "completed") as [E | _];
    [rewrite E; cbn [String.eqb Ascii.eqb Bool.eqb]; lia | ].
  destruct (String.eqb_spec (s_status s) "cancelled") as [E | _];
    [rewrite E; cbn [String.eqb Ascii.eqb Bool.eqb]; lia | ].
  destruct (String.eqb (s_status s) "no_show"); lia.
Qed.

Lemma key_count_once (k : string) (keys : list string) :
  List.NoDup keys -> In k keys ->
  fold_right Z.add 0 (map (fun k' => if String.eqb k k' then 1 else 0) keys) = 1.
Proof.
  induction 1 as [ | d keys Hd _ IH]; intros Hin; [destruct Hin | ].
  cbn [map fold_right]. destruct (String.eqb_spec k d) as [-> | Hne].
  - assert (H0 : fold_right Z.add 0
                   (map (fun k' => if String.eqb d k' then 1 else 0) keys) = 0).
    { clear IH Hin. induction keys as [ | e keys IHk]; [reflexivity | ].
      cbn [map fold_right]. destruct (String.eqb_spec d e) as [-> | _].
      - exfalso. apply Hd. now left.
      - rewrite IHk; [lia | ]. intros H. apply Hd. now right. }
    lia.
  - destruct Hin as [-> | Hin]; [congruence | ]. rewrite IH by exact Hin. lia.
Qed.

(** Counting a list group by group counts every element once. *)
Lemma grouped_total (A : Type) (key : A -> string) (l : list A)
    (keys : list string) :
  List.NoDup keys -> (forall x, In x l -> In (key x) keys) ->
  fold_right Z.add 0
    (map (fun k => Z.of_nat (length (List.filter
                                       (fun x => String.eqb (key x) k) l)))
       keys)
  = Z.of_nat (length l).
Proof.
  intros Hnd Hin. induction l as [ | x l IH].
  - cbn [List.filter length]. clear. induction keys as [ | k keys IHk];
      [reflexivity | exact IHk].
  - cbn [List.filter length].
    transitivity
      (fold_right Z.add 0
         (map (fun k => if String.eqb (key x) k then 1 else 0) keys)
       + fold_right Z.add 0
           (map (fun k => Z.of_nat (length (List.filter
                                              (fun y => String.eqb (key y) k) l)))
              keys)).
    + clear. induction keys as [ | k keys IHk]; [reflexivity | ].
      cbn [map fold_right]. rewrite IHk.
      destruct (String.eqb (key x) k); cbn [length]; lia.
    + rewrite IH by (intros y Hy; apply Hin; now right).
      rewrite key_count_once; [lia | exact Hnd | apply Hin; now left].
Qed.

Lemma totalCount_perm (l k : list TypeRow) :
  Permutation l k -> totalCount l = totalCount k.
Proof.
  unfold totalCount. induction 1; cbn [map fold_right]; lia.
Qed.

(** X18: a result of the support type report has one row for each
    type that occurs in the month and no row for any other; the session
    counts of the rows add up to the number of sessions of the month, and
    within a row the completed, cancelled and no-show counts stay within
    the session count. *)
Theorem type_distribution_partition (db : Database) (year month : Z)
    (out : list TypeRow) :
  isTypeDistribution db year month out ->
  List.NoDup (map t_support_type out)
  /\ totalCount out = Z.of_nat (length (sessionsOfMonth db year month))
  /\ (forall row, In row out ->
        1 <= session_count row
        /\ completed_count row + cancelled_count row + no_show_count row
           <= session_count row).
Proof.
  intros [Hperm _].
  set (ss := sessionsOfMonth db year month) in *.
  assert (Hkeys : List.NoDup (remove_dups (map s_support_type ss))).
  { apply NoDup_ListNoDup, NoDup_remove_dups. }
  split; [ | split].
  - apply (Permutation_NoDup (l := map t_support_type (typeGroups db year month))).
    + apply Permutation_map. now symmetry.
    + unfold typeGroups. fold ss. rewrite map_map. cbn [typeRow t_support_type].
      now rewrite map_id.
  - rewrite (totalCount_perm _ _ Hperm). unfold totalCount, typeGroups. fold ss.
    rewrite map_map. cbn [typeRow session_count].
    apply grouped_total; [exact Hkeys | ].
    intros s Hs. apply list_elem_of_In, elem_of_remove_dups, list_elem_of_In.
    now apply in_map.
  - intros row Hrow. apply (Permutation_in _ Hperm) in Hrow.
    unfold typeGroups in Hrow. fold ss in Hrow. apply in_map_iff in Hrow.
    destruct Hrow as (type & <- & Htype).
    cbn [typeRow session_count completed_count cancelled_count no_show_count].
    split; [ | apply counts_within_total].
    apply list_elem_of_In, elem_of_remove_dups, list_elem_of_In, in_map_iff in Htype.
    destruct Htype as (s & Hs & Hin).
    assert (Hmem : In s (List.filter
                           (fun s0 => String.eqb (s_support_type s0) type) ss)).
    { apply filter_In. split; [exact Hin | ]. apply String.eqb_eq. exact Hs. }
    destruct (List.filter _ ss); [destruct Hmem | cbn [length]; lia].
Qed.


Lemma type_distribution_partition_witness :
  totalCount (typeGroups Samples.reportDb 2024 3) = 4.
Proof.
  destruct (type_distribution_partition Samples.reportDb 2024 3
              (typeGroups Samples.reportDb 2024 3)) as (_ & H & _).
  - split; [reflexivity | ]. vm_compute. repeat constructor.
  - exact H.
Defined.

(** Two residents in a property with one session: the report shows two
    sessions. *)
Example property_sessions_doubled :
  let db := mkDatabase
              [Samples.ann;
               mkResident Samples.idA "Bo" "Ray" 5 (Some Samples.property) true]
              [mkProperty Samples.property "Elm House" 4 true] []
              [Samples.reportSession Samples.idB 1 60 "completed"] in
  map (fun row => (current_residents row, total_sessions row))
    (getPropertyUtilization db 2024 3)
  = [(2, 2)].
Proof. vm_compute. reflexivity. Qed.

(** X21.  An active resident is in the monthly utilization report also
    when no session of the resident falls in the month (the sessions are
    joined with LEFT JOIN and the month is part of the join condition):
    that row has 0 hours used, planned and cancelled, no completed and
    no no-show session, the whole allocation remaining, and the rate
    text 0.0 (the number 0 when nothing is allocated). *)
Theorem resident_without_sessions
    (db : Database) (year month : Z) (r : Resident) :
  In r (residents db) -> r_is_active r = true ->
  (forall s : Session,
      In s (support_sessions db) -> s_resident_id s = r_id r ->
      inMonth year month s = false) ->
  let row := residentRow db year month r in
  In row (getMonthlyUtilization db year month)
  /\ (toNumber (hours_used row) == 0)%Q
  /\ (toNumber (hours_planned row) == 0)%Q
  /\ (toNumber (hours_cancelled row) == 0)%Q
  /\ completed_sessions row = 0
  /\ no_show_sessions row = 0
  /\ (remaining_hours row == inject_Z (monthly_support_hours r))%Q
  /\ utilization_rate row
     = (if 0 <? monthly_support_hours r then RateText "0.0" else RateZero).
Proof.
  intros Hin Hactive Hnone row.
  assert (Hj : sessionsOfResident db year month r = []).
  { unfold sessionsOfResident. apply SessionsFacts.filter_none.
    intros s Hs. destruct (String.eqb (s_resident_id s) (r_id r)) eqn:E;
      [ | reflexivity].
    apply String.eqb_eq in E. cbn. now apply Hnone. }
  split.
  { unfold getMonthlyUtilization. apply in_map. apply filter_In. now split. }
  subst row. unfold residentRow. rewrite Hj.
  cbn [hours_used hours_planned hours_cancelled completed_sessions
       no_show_sessions remaining_hours utilization_rate sumWhen countWhen
       fold_right toNumber].
  repeat split; reflexivity.
Qed.

Lemma resident_without_sessions_witness :
  In (residentRow Samples.reportDb 2024 4 Samples.ann)
    (getMonthlyUtilization Samples.reportDb 2024 4)
  /\ utilization_rate (residentRow Samples.reportDb 2024 4 Samples.ann)
     = RateText "0.0".
Proof.
  destruct (resident_without_sessions Samples.reportDb 2024 4 Samples.ann)
    as (H1 & _ & _ & _ & _ & _ & _ & H2).
  - left. reflexivity.
  - reflexivity.
  - intros s Hs _. cbn in Hs.
    destruct Hs as [<- | [<- | [<- | [<- | []]]]]; reflexivity.
  - split; [exact H1 | exact H2].
Defined.


End ReportsFacts.

